(** * VibeBase news store: collections over JSON-Lines files

    A shallow embedding of the news-system routes of the AIDB viewer server
    (the Express application that defines [getDocumentsByCollection],
    [readCollectionFile], [writeCollectionFile] and the [/api/news/...]
    handlers), followed by the properties of the collection reader, of the
    create, update and delete handlers, and of the comment and article
    listings.

    Conventions of the embedding.
    - A JSON-Lines file is the list of its non-blank lines; a line either
      parses to a [MemoryNode] or is malformed, and [readJsonlFile] skips
      the malformed ones.
    - The directory at [dbPath] is a [Store]: the shared [documents.jsonl]
      at its root, the per-collection files [{collection}/documents.jsonl]
      (a collection name is a plain directory name), and the two entries
      [hnsw.index] and [graph] that [isValidAidb] looks for.
    - A handler is a function from the store and the request to a response
      and the store it leaves behind.  [Date.now()] and [randomUUID()] are
      inputs of the handler.  File operations succeed: the [catch] branches
      that answer 500 are not part of the model.
    - The metadata bag is a record of the well-known keys that the handlers
      read and write, with the types the handlers cast them to; an absent
      key, [undefined] and [null] are all [None].  The same holds for the
      fields of a request and of a response.
    - Strings are sequences of ASCII characters. *)

From Stdlib Require Import Ascii String ZArith QArith.
From stdpp Require Import gmap strings list fin_maps sorting.

Local Open Scope string_scope.
Local Open Scope list_scope.
Local Open Scope Z_scope.

(** ** Documents *)

Inductive OnDelete := cascade | set_null | restrict.

Record ForeignKey := {
  targetCollection : string;
  onDelete : OnDelete
}.

Record Metadata := {
  md_name : option string;
  md_description : option string;
  md_icon : option string;
  md_slug : option string;
  md_email : option string;
  md_avatar : option string;
  md_role : option string;
  md_title : option string;
  md_categoryId : option string;
  md_authorId : option string;
  md_newsId : option string;
  md_parentId : option string;
  md_status : option string;
  md_publishedAt : option Z;
  md_viewCount : option Z;
  md_likeCount : option Z;
  md_collection : option string;                  (* _collection *)
  md_foreignKeys : list (string * ForeignKey)     (* _foreignKeys *)
}.

Record MemoryNode := {
  mn_id : string;
  mn_content : string;
  mn_content_type : string;
  mn_parent_id : option string;
  mn_children : list string;
  mn_depth : Z;
  mn_metadata : Metadata;
  mn_tags : list string;
  mn_created_at : Z;
  mn_last_accessed_at : Z;
  mn_access_count : Z;
  mn_importance : Q;
  mn_decay_rate : Q;
  mn_entity_ids : list string;
  mn_relation_ids : list string
}.

(** ** Files and the store *)

Inductive Line :=
  | Json (doc : MemoryNode)
  | Malformed (raw : string).

Record Store := {
  documents_jsonl : option (list Line);       (* {dbPath}/documents.jsonl *)
  collection_files : gmap string (list Line); (* {dbPath}/{c}/documents.jsonl *)
  hnsw_index : bool;                          (* {dbPath}/hnsw.index exists *)
  graph_dir : bool                            (* {dbPath}/graph exists *)
}.

(** [readJsonlFile]: a missing file reads as the empty list, a line that
    does not parse is skipped. *)
Definition parse_line (l : Line) : option MemoryNode :=
  match l with Json d => Some d | Malformed _ => None end.

Definition readJsonlFile (file : option (list Line)) : list MemoryNode :=
  match file with
  | None => []
  | Some lines => omap parse_line lines
  end.

(** [docs.map(doc => JSON.stringify(doc))], one line per document. *)
Definition stringify_all (docs : list MemoryNode) : list Line := Json <$> docs.

Definition isValidAidb (st : Store) : bool :=
  let hasDocuments := bool_decide (is_Some (documents_jsonl st)) in
  let hasHnsw := hnsw_index st in
  let hasGraph := graph_dir st in
  hasDocuments || hasHnsw || hasGraph.

(** ** The collection reader *)

Definition getDocumentsByCollection (st : Store) (collection : string)
  : list MemoryNode :=
  let results :=
    match collection_files st !! collection with
    | Some lines => readJsonlFile (Some lines)
    | None => []
    end in
  match documents_jsonl st with
  | Some lines =>
      let allDocs := readJsonlFile (Some lines) in
      let filteredDocs :=
        filter (λ doc, md_collection (mn_metadata doc) = Some collection) allDocs in
      let existingIds : gset string := list_to_set (mn_id <$> results) in
      results ++ filter (λ doc, mn_id doc ∉ existingIds) filteredDocs
  | None => results
  end.

(** The documents of the shared file that carry the tag of a collection. *)
Definition tagged (st : Store) (collection : string) : list MemoryNode :=
  filter (λ doc, md_collection (mn_metadata doc) = Some collection)
         (readJsonlFile (documents_jsonl st)).

Definition createLookupMap (items : list MemoryNode) : gmap string MemoryNode :=
  foldl (λ m item, <[mn_id item := item]> m) ∅ items.

Definition readCollectionFile (st : Store) (collection : string)
  : list MemoryNode :=
  match collection_files st !! collection with
  | Some lines => readJsonlFile (Some lines)
  | None => []
  end.

Definition writeFile (st : Store) (collection : string) (content : list Line)
  : Store :=
  {| documents_jsonl := documents_jsonl st;
     collection_files := <[collection := content]> (collection_files st);
     hnsw_index := hnsw_index st;
     graph_dir := graph_dir st |}.

Definition appendFile (st : Store) (collection : string) (line : Line)
  : Store :=
  writeFile st collection
    (default [] (collection_files st !! collection) ++ [line]).

Definition appendRootFile (st : Store) (line : Line) : Store :=
  {| documents_jsonl := Some (default [] (documents_jsonl st) ++ [line]);
     collection_files := collection_files st;
     hnsw_index := hnsw_index st;
     graph_dir := graph_dir st |}.

Definition writeCollectionFile (st : Store) (collection : string)
    (documents : list MemoryNode) : Store :=
  writeFile st collection (stringify_all documents).

(** ** JavaScript helpers *)

(** Truthiness of a request field or query parameter that is a string when
    present. *)
Definition truthy (o : option string) : bool :=
  match o with
  | Some s => bool_decide (s ≠ "")
  | None => false
  end.

(** [x || d] for a string-valued [x]. *)
Definition or_str (o : option string) (d : string) : string :=
  match o with
  | Some s => if decide (s = "") then d else s
  | None => d
  end.

(** [x || d] for a number-valued [x]. *)
Definition or_num (o : option Z) (d : Z) : Z :=
  match o with
  | Some n => if decide (n = 0) then d else n
  | None => d
  end.

(** [Array.prototype.some]. *)
Definition some {A} (P : A → Prop) `{∀ x, Decision (P x)} (l : list A) : bool :=
  bool_decide (Exists P l).

(** [Array.prototype.find]; stdpp's [list_find] gives the first match with
    its index, which is also what [findIndex] followed by an access at that
    index gives. *)
Definition find {A} (P : A → Prop) `{∀ x, Decision (P x)} (l : list A)
  : option A := snd <$> list_find P l.

(** [Array.prototype.sort(cmp)].  The language requires the sort to be
    stable; for a comparator that is the difference of integer keys the
    result is the one stable ordering, which insertion computes: [x] moves
    behind [y] only when [cmp x y > 0]. *)
Fixpoint sort_insert {A} (cmp : A → A → Z) (x : A) (l : list A) : list A :=
  match l with
  | [] => [x]
  | y :: l' => if decide (cmp x y ≤ 0) then x :: y :: l'
               else y :: sort_insert cmp x l'
  end.

Definition Array_sort {A} (cmp : A → A → Z) (l : list A) : list A :=
  foldr (sort_insert cmp) [] l.

(** [Array.prototype.slice(start, end)], negative indices counting from the
    end of the array. *)
Definition slice_index (len i : Z) : Z :=
  if decide (i < 0) then Z.max (len + i) 0 else Z.min i len.

Definition Array_slice {A} (l : list A) (start stop : Z) : list A :=
  let len := Z.of_nat (length l) in
  let from := slice_index len start in
  let to := slice_index len stop in
  take (Z.to_nat (to - from)) (drop (Z.to_nat from) l).

(** [String.prototype.toLowerCase] on the ASCII letters and
    [String.prototype.includes]. *)
Definition lower_ascii (c : ascii) : ascii :=
  let n := nat_of_ascii c in
  if decide (65 ≤ n ≤ 90)%nat then ascii_of_nat (n + 32) else c.

Fixpoint toLowerCase (s : string) : string :=
  match s with
  | EmptyString => EmptyString
  | String c s' => String (lower_ascii c) (toLowerCase s')
  end.

Definition includes (s needle : string) : bool :=
  bool_decide (is_Some (String.index 0 needle s)).

(** ** Responses *)

Record CategoryView := {
  cv_id : string;
  cv_name : option string;
  cv_description : option string;
  cv_icon : option string;
  cv_slug : option string;
  cv_articleCount : option Z
}.

Record UserView := {
  uv_id : string;
  uv_name : option string;
  uv_email : option string;
  uv_avatar : option string;
  uv_role : option string
}.

Record ArticleView := {
  av_id : string;
  av_content : string;
  av_title : string;
  av_categoryId : option string;
  av_authorId : option string;
  av_status : string;
  av_publishedAt : option Z;
  av_viewCount : Z;
  av_likeCount : Z;
  av_tags : list string;
  av_created_at : Z;
  av_category : option CategoryView;
  av_author : option UserView
}.

Record CommentView := {
  cm_id : string;
  cm_content : string;
  cm_newsId : string;
  cm_authorId : option string;
  cm_parentId : option string;
  cm_likeCount : Z;
  cm_created_at : Z;
  cm_depth : Z;
  cm_children : option (list string);
  cm_author : option UserView
}.

(** An object of the comment tree: the populated comment and its [replies]
    array.  The array holds references to the objects stored in
    [commentMap]; a reference is the key under which the object is stored. *)
Record CommentObj := {
  obj_comment : CommentView;
  obj_replies : list string
}.

Inductive Body :=
  | BError (error : string)
  | BSuccess
  | BCategories (categories : list CategoryView)
  | BCategory (category : CategoryView)
  | BUsers (users : list UserView)
  | BUser (user : UserView)
  | BArticles (articles : list ArticleView) (total : Z)
  | BArticle (article : ArticleView)
  | BComments (comments : list CommentView)
  | BComment (comment : CommentView)
  | BCommentTree (commentMap : gmap string CommentObj) (rootComments : list string).

Definition Response : Type := Z * Body.

Definition invalid_path : Response := (400, BError "Invalid database path").

(** ** Projections of a document onto the typed views *)

Definition category_view (doc : MemoryNode) (articleCount : option Z)
  : CategoryView :=
  let m := mn_metadata doc in
  {| cv_id := mn_id doc;
     cv_name := Some (or_str (md_name m) "");
     cv_description := Some (or_str (md_description m) "");
     cv_icon := Some (or_str (md_icon m) "");
     cv_slug := Some (or_str (md_slug m) "");
     cv_articleCount := articleCount |}.

(** The embedded author object; [role] falls back to [defaultRole]. *)
Definition user_view (doc : MemoryNode) (defaultRole : string) : UserView :=
  let m := mn_metadata doc in
  {| uv_id := mn_id doc;
     uv_name := Some (or_str (md_name m) "");
     uv_email := Some (or_str (md_email m) "");
     uv_avatar := Some (or_str (md_avatar m) "");
     uv_role := Some (or_str (md_role m) defaultRole) |}.

(** The shorter objects embedded in the responses of the create routes. *)
Definition category_brief (doc : MemoryNode) : CategoryView :=
  let m := mn_metadata doc in
  {| cv_id := mn_id doc;
     cv_name := Some (or_str (md_name m) "");
     cv_description := None;
     cv_icon := Some (or_str (md_icon m) "");
     cv_slug := None;
     cv_articleCount := None |}.

Definition author_brief (doc : MemoryNode) : UserView :=
  let m := mn_metadata doc in
  {| uv_id := mn_id doc;
     uv_name := Some (or_str (md_name m) "");
     uv_email := None;
     uv_avatar := Some (or_str (md_avatar m) "");
     uv_role := Some (or_str (md_role m) "") |}.

(** [id ? map.get(id) : null] *)
Definition lookup_ref (map : gmap string MemoryNode) (ref : option string)
  : option MemoryNode :=
  if truthy ref then map !! default "" ref else None.

Definition article_view (categoryMap userMap : gmap string MemoryNode)
    (doc : MemoryNode) : ArticleView :=
  let m := mn_metadata doc in
  let catId := md_categoryId m in
  let authId := md_authorId m in
  let categoryDoc := lookup_ref categoryMap catId in
  let authorDoc := lookup_ref userMap authId in
  {| av_id := mn_id doc;
     av_content := mn_content doc;
     av_title := or_str (md_title m) "";
     av_categoryId := catId;
     av_authorId := authId;
     av_status := or_str (md_status m) "draft";
     av_publishedAt := Some (or_num (md_publishedAt m) (mn_created_at doc));
     av_viewCount := or_num (md_viewCount m) 0;
     av_likeCount := or_num (md_likeCount m) 0;
     av_tags := mn_tags doc;
     av_created_at := mn_created_at doc;
     av_category := (λ c, category_view c None) <$> categoryDoc;
     av_author := (λ u, user_view u "") <$> authorDoc |}.

Definition comment_view (author : option MemoryNode) (defaultRole : string)
    (doc : MemoryNode) : CommentView :=
  let m := mn_metadata doc in
  {| cm_id := mn_id doc;
     cm_content := mn_content doc;
     cm_newsId := or_str (md_newsId m) "";
     cm_authorId := md_authorId m;
     cm_parentId := if truthy (md_parentId m) then md_parentId m else None;
     cm_likeCount := or_num (md_likeCount m) 0;
     cm_created_at := mn_created_at doc;
     cm_depth := mn_depth doc;
     cm_children := Some (mn_children doc);
     cm_author := (λ u, user_view u defaultRole) <$> author |}.

(** ** Read routes *)

(** GET /api/news/categories *)
Definition listCategories (st : Store) : Response :=
  if negb (isValidAidb st) then invalid_path else
  let categoryDocs := getDocumentsByCollection st "categories" in
  let newsDocs := getDocumentsByCollection st "news" in
  let articleCountMap : gmap string Z :=
    foldl (λ acc news,
             let categoryId := md_categoryId (mn_metadata news) in
             if truthy categoryId
             then <[default "" categoryId :=
                      or_num (acc !! default "" categoryId) 0 + 1]> acc
             else acc) ∅ newsDocs in
  let categories :=
    (λ doc, category_view doc
              (Some (or_num (articleCountMap !! mn_id doc) 0))) <$> categoryDocs in
  (200, BCategories categories).

(** GET /api/news/users *)
Definition listUsers (st : Store) : Response :=
  if negb (isValidAidb st) then invalid_path else
  let docs := getDocumentsByCollection st "users" in
  (200, BUsers ((λ doc, user_view doc "") <$> docs)).

Record ArticleQuery := {
  q_limit : option Z;        (* parseInt(req.query.limit), NaN as None *)
  q_offset : option Z;
  q_categoryId : option string;
  q_authorId : option string;
  q_status : option string;
  q_search : option string
}.

(** The comparator of the article listing. *)
Definition by_publishedAt_desc (a b : MemoryNode) : Z :=
  or_num (md_publishedAt (mn_metadata b)) 0
  - or_num (md_publishedAt (mn_metadata a)) 0.

(** Filtering and sorting of GET /api/news/articles, before pagination. *)
Definition filter_articles (q : ArticleQuery) (newsDocs : list MemoryNode)
  : list MemoryNode :=
  let articles := newsDocs in
  let articles :=
    if truthy (q_categoryId q)
    then filter (λ a, md_categoryId (mn_metadata a) = q_categoryId q) articles
    else articles in
  let articles :=
    if truthy (q_authorId q)
    then filter (λ a, md_authorId (mn_metadata a) = q_authorId q) articles
    else articles in
  let articles :=
    if truthy (q_status q)
    then filter (λ a, md_status (mn_metadata a) = q_status q) articles
    else articles in
  if truthy (q_search q)
  then
    let lowerSearch := toLowerCase (default "" (q_search q)) in
    filter (λ a, includes (toLowerCase (mn_content a)) lowerSearch
               || includes (toLowerCase (or_str (md_title (mn_metadata a)) ""))
                           lowerSearch) articles
  else articles.

Definition sorted_articles (q : ArticleQuery) (newsDocs : list MemoryNode)
  : list MemoryNode :=
  Array_sort by_publishedAt_desc (filter_articles q newsDocs).

(** GET /api/news/articles *)
Definition listArticles (st : Store) (q : ArticleQuery) : Response :=
  let limit := or_num (q_limit q) 100 in
  let offset := or_num (q_offset q) 0 in
  if negb (isValidAidb st) then invalid_path else
  let newsDocs := getDocumentsByCollection st "news" in
  let categoryDocs := getDocumentsByCollection st "categories" in
  let userDocs := getDocumentsByCollection st "users" in
  let categoryMap := createLookupMap categoryDocs in
  let userMap := createLookupMap userDocs in
  let articles := sorted_articles q newsDocs in
  let total := Z.of_nat (length articles) in
  let articles := Array_slice articles offset (offset + limit) in
  (200, BArticles (article_view categoryMap userMap <$> articles) total).

(** GET /api/news/articles/:id *)
Definition getArticle (st : Store) (id : string) : Response :=
  if negb (isValidAidb st) then invalid_path else
  let newsDocs := getDocumentsByCollection st "news" in
  let categoryDocs := getDocumentsByCollection st "categories" in
  let userDocs := getDocumentsByCollection st "users" in
  match find (λ d, mn_id d = id) newsDocs with
  | None => (404, BError "Article not found")
  | Some doc =>
      let categoryMap := createLookupMap categoryDocs in
      let userMap := createLookupMap userDocs in
      (200, BArticle (article_view categoryMap userMap doc))
  end.

(** The comparator of the comment listings. *)
Definition by_created_at_asc (a b : MemoryNode) : Z :=
  mn_created_at a - mn_created_at b.

(** GET /api/news/comments, as the server defines it last: the comments of
    one article, sorted and populated, returned as a flat array. *)
Definition listComments (st : Store) (newsId : option string) : Response :=
  if negb (isValidAidb st) then invalid_path else
  let commentDocs := getDocumentsByCollection st "comments" in
  let userDocs := getDocumentsByCollection st "users" in
  let userMap := createLookupMap userDocs in
  let comments :=
    filter (λ c, md_newsId (mn_metadata c) = newsId) commentDocs in
  let comments := Array_sort by_created_at_asc comments in
  let populatedComments :=
    (λ doc, comment_view (lookup_ref userMap (md_authorId (mn_metadata doc))) "" doc)
      <$> comments in
  (200, BComments populatedComments).

(** *** The earlier, tree-building comment listing

    The earlier revision of the server reads every collection from the
    shared [documents.jsonl], classifies the documents with
    [parseDocumentsByCollection], and nests the comments of an article. *)

Definition classify (doc : MemoryNode) : option string :=
  let collection := md_collection (mn_metadata doc) in
  if decide (collection = Some "categories" ∨ mn_content_type doc = "category")
  then Some "categories"
  else if decide (collection = Some "users" ∨ mn_content_type doc = "user")
  then Some "users"
  else if decide (collection = Some "news" ∨ mn_content_type doc = "news")
  then Some "news"
  else if decide (collection = Some "comments" ∨ mn_content_type doc = "comment")
  then Some "comments"
  else None.

Record Collections := {
  categories : list MemoryNode;
  users : list MemoryNode;
  news : list MemoryNode;
  comments : list MemoryNode
}.

Definition parseDocumentsByCollection (documents : list MemoryNode)
  : Collections :=
  {| categories := filter (λ d, classify d = Some "categories") documents;
     users := filter (λ d, classify d = Some "users") documents;
     news := filter (λ d, classify d = Some "news") documents;
     comments := filter (λ d, classify d = Some "comments") documents |}.

Definition populateComment (comment : MemoryNode) (users : list MemoryNode)
  : CommentView :=
  let authorId := md_authorId (mn_metadata comment) in
  let author :=
    match authorId with
    | Some a => find (λ u, mn_id u = a) users
    | None => None
    end in
  comment_view author "guest" comment.

(** The comments of the request, filtered, sorted and populated. *)
Definition fetched_comments (st : Store) (newsId : option string)
  : list CommentView :=
  let documents := readJsonlFile (documents_jsonl st) in
  let parsed := parseDocumentsByCollection documents in
  let filteredComments :=
    if truthy newsId
    then filter (λ c, md_newsId (mn_metadata c) = newsId) (comments parsed)
    else comments parsed in
  let filteredComments := Array_sort by_created_at_asc filteredComments in
  (λ c, populateComment c (users parsed)) <$> filteredComments.

(** First loop: one object per comment id, with an empty [replies]. *)
Definition init_commentMap (populatedComments : list CommentView)
  : gmap string CommentObj :=
  foldl (λ m comment,
           <[cm_id comment := {| obj_comment := comment; obj_replies := [] |}]> m)
        ∅ populatedComments.

(** One step of the second loop: the object of the comment is pushed onto
    the [replies] of its parent when the parent is in the map, and onto
    [rootComments] otherwise. *)
Definition push_reply (ref : string) (parent : CommentObj) : CommentObj :=
  {| obj_comment := obj_comment parent;
     obj_replies := obj_replies parent ++ [ref] |}.

Definition attach (acc : gmap string CommentObj * list string)
    (comment : CommentView) : gmap string CommentObj * list string :=
  let '(commentMap, rootComments) := acc in
  let enrichedComment := cm_id comment in
  let parentId := cm_parentId comment in
  if truthy parentId && bool_decide (is_Some (commentMap !! default "" parentId))
  then (alter (push_reply enrichedComment) (default "" parentId) commentMap,
        rootComments)
  else (commentMap, rootComments ++ [enrichedComment]).

Definition build_tree (populatedComments : list CommentView)
  : gmap string CommentObj * list string :=
  foldl attach (init_commentMap populatedComments, []) populatedComments.

(** GET /api/news/comments of the earlier revision. *)
Definition listCommentsTree (st : Store) (newsId : option string) : Response :=
  if negb (isValidAidb st) then invalid_path else
  let '(commentMap, rootComments) := build_tree (fetched_comments st newsId) in
  (200, BCommentTree commentMap rootComments).

(** The JSON document that [res.json] writes for a comment object: the
    object with its replies unfolded.  Serialisation fails on a reference
    cycle; [fuel] bounds the nesting depth. *)
#[warnings="-register-all"]
Inductive CommentJson :=
  | CommentNode (comment : CommentView) (replies : list CommentJson).

Fixpoint render (fuel : nat) (commentMap : gmap string CommentObj)
    (ref : string) : option CommentJson :=
  match fuel with
  | O => None
  | S fuel' =>
      obj ← commentMap !! ref;
      replies ← mapM (render fuel' commentMap) (obj_replies obj);
      Some (CommentNode (obj_comment obj) replies)
  end.

Definition render_body (fuel : nat) (r : Response) : option (list CommentJson) :=
  match r with
  | (_, BCommentTree commentMap rootComments) =>
      mapM (render fuel commentMap) rootComments
  | _ => None
  end.

(** ** Write routes *)

Definition newline : string := String (ascii_of_nat 10) EmptyString.

Definition foreign_key (target : string) (policy : OnDelete) : ForeignKey :=
  {| targetCollection := target; onDelete := policy |}.

Record ArticleRequest := {
  ar_title : option string;
  ar_content : option string;
  ar_categoryId : option string;
  ar_authorId : option string;
  ar_status : option string;        (* defaults to 'draft' *)
  ar_tags : option (list string)    (* defaults to [] *)
}.

Definition fk_violation (field value target : string) : Response :=
  (400, BError ("Foreign key constraint violation: " +:+ field +:+ " '"
                +:+ value +:+ "' not found in " +:+ target)).

(** POST /api/news/articles; [now] is [Date.now()] and [uuid] the first
    group of [randomUUID()]. *)
Definition createArticle (st : Store) (req : ArticleRequest) (now : Z)
    (uuid : string) : Response * Store :=
  let title := default "" (ar_title req) in
  let content := default "" (ar_content req) in
  let categoryId := default "" (ar_categoryId req) in
  let authorId := default "" (ar_authorId req) in
  let status := default "draft" (ar_status req) in
  let tags := default [] (ar_tags req) in
  if negb (isValidAidb st) then (invalid_path, st) else
  if negb (truthy (ar_title req)) || negb (truthy (ar_content req))
  then ((400, BError "Title and content are required"), st) else
  if negb (truthy (ar_categoryId req)) || negb (truthy (ar_authorId req))
  then ((400, BError "categoryId and authorId are required (foreign keys)"), st)
  else
  let categories := getDocumentsByCollection st "categories" in
  let users := getDocumentsByCollection st "users" in
  let categoryExists := some (λ c, mn_id c = categoryId) categories in
  let authorExists := some (λ u, mn_id u = authorId) users in
  if negb categoryExists
  then (fk_violation "categoryId" categoryId "categories", st) else
  if negb authorExists
  then (fk_violation "authorId" authorId "users", st) else
  let articleId := "news_" +:+ uuid in
  let publishedAt := if decide (status = "published") then Some now else None in
  let newArticle :=
    {| mn_id := articleId;
       mn_content := title +:+ newline +:+ newline +:+ content;
       mn_content_type := "news";
       mn_parent_id := None;
       mn_children := [];
       mn_depth := 0;
       mn_metadata :=
         {| md_name := None; md_description := None; md_icon := None;
            md_slug := None; md_email := None; md_avatar := None;
            md_role := None;
            md_title := Some title;
            md_categoryId := Some categoryId;
            md_authorId := Some authorId;
            md_newsId := None; md_parentId := None;
            md_status := Some status;
            md_publishedAt := publishedAt;
            md_viewCount := Some 0;
            md_likeCount := Some 0;
            md_collection := Some "news";
            md_foreignKeys :=
              [("categoryId", foreign_key "categories" restrict);
               ("authorId", foreign_key "users" set_null)] |};
       mn_tags := "news" :: tags;
       mn_created_at := now;
       mn_last_accessed_at := now;
       mn_access_count := 0;
       mn_importance := if decide (status = "published") then 0.8%Q else 0.5%Q;
       mn_decay_rate := 0.01%Q;
       mn_entity_ids := [];
       mn_relation_ids := [] |} in
  let st' := appendFile st "news" (Json newArticle) in
  let category := find (λ c, mn_id c = categoryId) categories in
  let author := find (λ u, mn_id u = authorId) users in
  ((201, BArticle
           {| av_id := articleId;
              av_content := content;
              av_title := title;
              av_categoryId := Some categoryId;
              av_authorId := Some authorId;
              av_status := status;
              av_publishedAt := publishedAt;
              av_viewCount := 0;
              av_likeCount := 0;
              av_tags := "news" :: tags;
              av_created_at := now;
              av_category := category_brief <$> category;
              av_author := author_brief <$> author |}), st').

(** DELETE /api/news/articles/:id *)
Definition deleteArticle (st : Store) (id : string) : Response * Store :=
  if negb (isValidAidb st) then (invalid_path, st) else
  match collection_files st !! "news" with
  | None => ((404, BError "News collection not found"), st)
  | Some lines =>
      let newsDocs := readJsonlFile (Some lines) in
      let filteredDocs := filter (λ n, mn_id n ≠ id) newsDocs in
      if decide (length filteredDocs = length newsDocs)
      then ((404, BError "Article not found"), st) else
      let st1 := writeFile st "news" (stringify_all filteredDocs) in
      (* cascade delete of the related comments *)
      let commentsDocs := getDocumentsByCollection st1 "comments" in
      let filteredComments :=
        filter (λ c, md_newsId (mn_metadata c) ≠ Some id) commentsDocs in
      let st2 :=
        if decide (length filteredComments < length commentsDocs)%nat
        then
          if decide (is_Some (collection_files st1 !! "comments"))
          then writeFile st1 "comments" (stringify_all filteredComments)
          else st1
        else st1 in
      ((200, BSuccess), st2)
  end.

Record CommentRequest := {
  cr_newsId : option string;
  cr_authorId : option string;
  cr_content : option string;
  cr_parentId : option string       (* defaults to null *)
}.

(** POST /api/news/comments *)
Definition createComment (st : Store) (req : CommentRequest) (now : Z)
    (uuid : string) : Response * Store :=
  let newsId := default "" (cr_newsId req) in
  let authorId := default "" (cr_authorId req) in
  let content := default "" (cr_content req) in
  let parentId := cr_parentId req in
  if negb (isValidAidb st) then (invalid_path, st) else
  if negb (truthy (cr_content req))
  then ((400, BError "Content is required"), st) else
  if negb (truthy (cr_newsId req)) || negb (truthy (cr_authorId req))
  then ((400, BError "newsId and authorId are required (foreign keys)"), st)
  else
  let newsDocs := getDocumentsByCollection st "news" in
  let users := getDocumentsByCollection st "users" in
  let comments := getDocumentsByCollection st "comments" in
  let newsExists := some (λ n, mn_id n = newsId) newsDocs in
  let authorExists := some (λ u, mn_id u = authorId) users in
  let parentExists :=
    if truthy parentId
    then some (λ c, mn_id c = default "" parentId) comments
    else true in
  if negb newsExists then (fk_violation "newsId" newsId "news", st) else
  if negb authorExists then (fk_violation "authorId" authorId "users", st) else
  if negb parentExists
  then (fk_violation "parentId" (default "" parentId) "comments", st) else
  let commentId := "comment_" +:+ uuid in
  let depth := if truthy parentId then 1 else 0 in
  let newComment :=
    {| mn_id := commentId;
       mn_content := content;
       mn_content_type := "comment";
       mn_parent_id := if truthy parentId then parentId else None;
       mn_children := [];
       mn_depth := depth;
       mn_metadata :=
         {| md_name := None; md_description := None; md_icon := None;
            md_slug := None; md_email := None; md_avatar := None;
            md_role := None; md_title := None; md_categoryId := None;
            md_authorId := Some authorId;
            md_newsId := Some newsId;
            md_parentId := parentId;
            md_status := None; md_publishedAt := None; md_viewCount := None;
            md_likeCount := Some 0;
            md_collection := Some "comments";
            md_foreignKeys :=
              [("newsId", foreign_key "news" cascade);
               ("authorId", foreign_key "users" set_null);
               ("parentId", foreign_key "comments" cascade)] |};
       mn_tags := if truthy parentId then ["comment"; "reply"] else ["comment"];
       mn_created_at := now;
       mn_last_accessed_at := now;
       mn_access_count := 0;
       mn_importance := 0.5%Q;
       mn_decay_rate := 0.01%Q;
       mn_entity_ids := [];
       mn_relation_ids := [] |} in
  (* appended to {dbPath}/documents.jsonl *)
  let st' := appendRootFile st (Json newComment) in
  let author := find (λ u, mn_id u = authorId) users in
  ((201, BComment
           {| cm_id := commentId;
              cm_content := content;
              cm_newsId := newsId;
              cm_authorId := Some authorId;
              cm_parentId := parentId;
              cm_likeCount := 0;
              cm_created_at := now;
              cm_depth := depth;
              cm_children := None;
              cm_author := author_brief <$> author |}), st').

(** *** Categories *)

Record CategoryRequest := {
  cat_name : option string;
  cat_description : option string;
  cat_icon : option string;
  cat_slug : option string;
  cat_code : option string
}.

(** A character of the class [[a-z0-9_-]]. *)
Definition code_char (c : ascii) : bool :=
  let n := nat_of_ascii c in
  bool_decide (97 ≤ n ≤ 122)%nat || bool_decide (48 ≤ n ≤ 57)%nat
  || bool_decide (n = 95)%nat || bool_decide (n = 45)%nat.

(** [/^[a-z0-9_-]+$/.test(code)] *)
Definition code_matches (code : string) : bool :=
  bool_decide (code ≠ "") && forallb code_char (list_ascii_of_string code).

(** POST /api/news/categories *)
Definition createCategory (st : Store) (req : CategoryRequest) (now : Z)
  : Response * Store :=
  let name := default "" (cat_name req) in
  let description := default "" (cat_description req) in
  let icon := default "" (cat_icon req) in
  let code := default "" (cat_code req) in
  if negb (isValidAidb st) then (invalid_path, st) else
  if negb (truthy (cat_name req)) || negb (truthy (cat_description req))
     || negb (truthy (cat_icon req))
  then ((400, BError "Name, description and icon are required"), st) else
  if negb (truthy (cat_code req))
  then ((400, BError "Category code is required (must be in English)"), st)
  else
  if negb (code_matches code)
  then ((400, BError "Category code must only contain lowercase letters, numbers, underscores and hyphens"), st)
  else
  let categorySlug := if truthy (cat_slug req) then default "" (cat_slug req) else code in
  let categoryId := "cat_" +:+ code in
  let existingCategories := readCollectionFile st "categories" in
  if some (λ c, mn_id c = categoryId) existingCategories
  then ((400, BError ("Category with ID '" +:+ categoryId +:+ "' already exists")), st)
  else
  let newCategory :=
    {| mn_id := categoryId;
       mn_content := name +:+ " - " +:+ description;
       mn_content_type := "category";
       mn_parent_id := None;
       mn_children := [];
       mn_depth := 0;
       mn_metadata :=
         {| md_name := Some name;
            md_description := Some description;
            md_icon := Some icon;
            md_slug := Some categorySlug;
            md_email := None; md_avatar := None; md_role := None;
            md_title := None; md_categoryId := None; md_authorId := None;
            md_newsId := None; md_parentId := None; md_status := None;
            md_publishedAt := None; md_viewCount := None;
            md_likeCount := None;
            md_collection := Some "categories";
            md_foreignKeys := [] |};
       mn_tags := ["category"];
       mn_created_at := now;
       mn_last_accessed_at := now;
       mn_access_count := 0;
       mn_importance := 0.9%Q;
       mn_decay_rate := 0.01%Q;
       mn_entity_ids := [];
       mn_relation_ids := [] |} in
  let st' := appendFile st "categories" (Json newCategory) in
  ((201, BCategory
           {| cv_id := categoryId;
              cv_name := Some name;
              cv_description := Some description;
              cv_icon := Some icon;
              cv_slug := Some categorySlug;
              cv_articleCount := None |}), st').

(** [if (x) target.field = x]: the new value when it is truthy. *)
Definition assign_if (new old : option string) : option string :=
  if truthy new then new else old.

(** A metadata value inside a template literal. *)
Definition interpolate (o : option string) : string := default "undefined" o.

Definition with_metadata (doc : MemoryNode) (m : Metadata) (content : string)
    (tags : list string) (now : Z) : MemoryNode :=
  {| mn_id := mn_id doc;
     mn_content := content;
     mn_content_type := mn_content_type doc;
     mn_parent_id := mn_parent_id doc;
     mn_children := mn_children doc;
     mn_depth := mn_depth doc;
     mn_metadata := m;
     mn_tags := tags;
     mn_created_at := mn_created_at doc;
     mn_last_accessed_at := now;
     mn_access_count := mn_access_count doc;
     mn_importance := mn_importance doc;
     mn_decay_rate := mn_decay_rate doc;
     mn_entity_ids := mn_entity_ids doc;
     mn_relation_ids := mn_relation_ids doc |}.

(** PUT /api/news/categories/:id *)
Definition updateCategory (st : Store) (id : string) (req : CategoryRequest)
    (now : Z) : Response * Store :=
  if negb (isValidAidb st) then (invalid_path, st) else
  let categories := readCollectionFile st "categories" in
  match list_find (λ c, mn_id c = id) categories with
  | None => ((404, BError "Category not found"), st)
  | Some (categoryIndex, category) =>
      let m := mn_metadata category in
      let m' :=
        {| md_name := assign_if (cat_name req) (md_name m);
           md_description := assign_if (cat_description req) (md_description m);
           md_icon := assign_if (cat_icon req) (md_icon m);
           md_slug := assign_if (cat_slug req) (md_slug m);
           md_email := md_email m; md_avatar := md_avatar m;
           md_role := md_role m; md_title := md_title m;
           md_categoryId := md_categoryId m; md_authorId := md_authorId m;
           md_newsId := md_newsId m; md_parentId := md_parentId m;
           md_status := md_status m; md_publishedAt := md_publishedAt m;
           md_viewCount := md_viewCount m; md_likeCount := md_likeCount m;
           md_collection := md_collection m;
           md_foreignKeys := md_foreignKeys m |} in
      let category' :=
        with_metadata category m'
          (interpolate (md_name m') +:+ " - " +:+ interpolate (md_description m'))
          (mn_tags category) now in
      let st' :=
        writeCollectionFile st "categories" (<[categoryIndex := category']> categories) in
      ((200, BCategory
               {| cv_id := mn_id category';
                  cv_name := md_name m';
                  cv_description := md_description m';
                  cv_icon := md_icon m';
                  cv_slug := md_slug m';
                  cv_articleCount := None |}), st')
  end.

(** DELETE /api/news/categories/:id *)
Definition deleteCategory (st : Store) (id : string) : Response * Store :=
  if negb (isValidAidb st) then (invalid_path, st) else
  let newsDocs := getDocumentsByCollection st "news" in
  let hasReferences :=
    some (λ n, md_categoryId (mn_metadata n) = Some id) newsDocs in
  if hasReferences
  then ((400, BError ("Cannot delete category '" +:+ id +:+
                      "': it is referenced by news articles (restrict constraint)")),
        st)
  else
  let categories := readCollectionFile st "categories" in
  let filteredCategories := filter (λ c, mn_id c ≠ id) categories in
  if decide (length filteredCategories = length categories)
  then ((404, BError "Category not found"), st) else
  ((200, BSuccess), writeCollectionFile st "categories" filteredCategories).

(** *** Users *)

Record UserRequest := {
  ur_name : option string;
  ur_email : option string;
  ur_avatar : option string;
  ur_role : option string
}.

Definition validRoles : list string := ["admin"; "editor"; "reader"; "guest"].

Definition invalid_role : Response :=
  (400, BError "Invalid role. Must be one of: admin, editor, reader, guest").

(** [.replace(/[^a-z0-9]/g, '_')] on one character. *)
Definition user_code_char (c : ascii) : ascii :=
  let n := nat_of_ascii c in
  if bool_decide (97 ≤ n ≤ 122)%nat || bool_decide (48 ≤ n ≤ 57)%nat
  then c else ascii_of_nat 95.

Definition substring_0_20 (s : string) : string :=
  string_of_list_ascii (take 20 (list_ascii_of_string s)).

Definition userCode_of (name : string) : string :=
  substring_0_20
    (string_of_list_ascii
       (user_code_char <$> list_ascii_of_string (toLowerCase name))).

(** [n.toString(36)] for a non-negative integer. *)
Definition digit36 (d : Z) : ascii :=
  if decide (d < 10) then ascii_of_nat (Z.to_nat (48 + d))
  else ascii_of_nat (Z.to_nat (87 + d)).

Fixpoint toString36_loop (fuel : nat) (n : Z) (acc : string) : string :=
  let acc' := String (digit36 (n mod 36)) acc in
  match fuel with
  | O => acc'
  | S fuel' => if decide (n / 36 = 0) then acc'
               else toString36_loop fuel' (n / 36) acc'
  end.

Definition toString36 (n : Z) : string :=
  toString36_loop (Z.to_nat (Z.log2 n)) n EmptyString.

(** POST /api/news/users; [now_id] is the clock reading used for the id
    and [now] the one stamped on the document. *)
Definition createUser (st : Store) (req : UserRequest) (now_id now : Z)
  : Response * Store :=
  let name := default "" (ur_name req) in
  let email := default "" (ur_email req) in
  let role := default "" (ur_role req) in
  if negb (isValidAidb st) then (invalid_path, st) else
  if negb (truthy (ur_name req)) || negb (truthy (ur_email req))
     || negb (truthy (ur_role req))
  then ((400, BError "Name, email and role are required"), st) else
  if negb (bool_decide (role ∈ validRoles)) then (invalid_role, st) else
  let userCode := userCode_of name in
  let userId := "user_" +:+ userCode +:+ "_" +:+ toString36 now_id in
  let existingUsers := readCollectionFile st "users" in
  if some (λ u, md_email (mn_metadata u) = Some email) existingUsers
  then ((400, BError ("User with email '" +:+ email +:+ "' already exists")), st)
  else
  let avatar :=
    if truthy (ur_avatar req) then default "" (ur_avatar req)
    else "https://api.dicebear.com/7.x/avataaars/svg?seed=" +:+ userCode in
  let newUser :=
    {| mn_id := userId;
       mn_content := role +:+ " " +:+ name;
       mn_content_type := "user";
       mn_parent_id := None;
       mn_children := [];
       mn_depth := 0;
       mn_metadata :=
         {| md_name := Some name;
            md_description := None; md_icon := None; md_slug := None;
            md_email := Some email;
            md_avatar := Some avatar;
            md_role := Some role;
            md_title := None; md_categoryId := None; md_authorId := None;
            md_newsId := None; md_parentId := None; md_status := None;
            md_publishedAt := None; md_viewCount := None;
            md_likeCount := None;
            md_collection := Some "users";
            md_foreignKeys := [] |};
       mn_tags := ["user"; role];
       mn_created_at := now;
       mn_last_accessed_at := now;
       mn_access_count := 0;
       mn_importance :=
         if decide (role = "admin") then 1.0%Q
         else if decide (role = "editor") then 0.8%Q
         else if decide (role = "reader") then 0.5%Q else 0.3%Q;
       mn_decay_rate := 0.01%Q;
       mn_entity_ids := [];
       mn_relation_ids := [] |} in
  let st' := appendFile st "users" (Json newUser) in
  ((201, BUser
           {| uv_id := userId;
              uv_name := Some name;
              uv_email := Some email;
              uv_avatar := Some avatar;
              uv_role := Some role |}), st').

(** PUT /api/news/users/:id *)
Definition updateUser (st : Store) (id : string) (req : UserRequest) (now : Z)
  : Response * Store :=
  if negb (isValidAidb st) then (invalid_path, st) else
  if truthy (ur_role req)
     && negb (bool_decide (default "" (ur_role req) ∈ validRoles))
  then (invalid_role, st) else
  let users := readCollectionFile st "users" in
  match list_find (λ u, mn_id u = id) users with
  | None => ((404, BError "User not found"), st)
  | Some (userIndex, user) =>
      if truthy (ur_email req)
         && some (λ u, mn_id u ≠ id ∧ md_email (mn_metadata u) = ur_email req) users
      then ((400, BError ("User with email '" +:+ default "" (ur_email req)
                          +:+ "' already exists")), st)
      else
      let m := mn_metadata user in
      let m' :=
        {| md_name := assign_if (ur_name req) (md_name m);
           md_description := md_description m; md_icon := md_icon m;
           md_slug := md_slug m;
           md_email := assign_if (ur_email req) (md_email m);
           md_avatar := assign_if (ur_avatar req) (md_avatar m);
           md_role := assign_if (ur_role req) (md_role m);
           md_title := md_title m;
           md_categoryId := md_categoryId m; md_authorId := md_authorId m;
           md_newsId := md_newsId m; md_parentId := md_parentId m;
           md_status := md_status m; md_publishedAt := md_publishedAt m;
           md_viewCount := md_viewCount m; md_likeCount := md_likeCount m;
           md_collection := md_collection m;
           md_foreignKeys := md_foreignKeys m |} in
      let tags :=
        if truthy (ur_role req) then ["user"; default "" (ur_role req)]
        else mn_tags user in
      let user' :=
        with_metadata user m'
          (interpolate (md_role m') +:+ " " +:+ interpolate (md_name m'))
          tags now in
      let st' := writeCollectionFile st "users" (<[userIndex := user']> users) in
      ((200, BUser
               {| uv_id := mn_id user';
                  uv_name := md_name m';
                  uv_email := md_email m';
                  uv_avatar := md_avatar m';
                  uv_role := md_role m' |}), st')
  end.

(** DELETE /api/news/users/:id.  The handler removes the user and, as its
    closing note says, leaves the articles and comments that reference the
    user as they are. *)
Definition deleteUser (st : Store) (id : string) : Response * Store :=
  if negb (isValidAidb st) then (invalid_path, st) else
  let users := readCollectionFile st "users" in
  let filteredUsers := filter (λ u, mn_id u ≠ id) users in
  if decide (length filteredUsers = length users)
  then ((404, BError "User not found"), st) else
  ((200, BSuccess), writeCollectionFile st "users" filteredUsers).


(** ** Reading a response *)

Definition status_of (r : Response) : Z := fst r.

Definition categories_of (r : Response) : list CategoryView :=
  match r with (_, BCategories l) => l | _ => [] end.

Definition users_of (r : Response) : list UserView :=
  match r with (_, BUsers l) => l | _ => [] end.

Definition articles_of (r : Response) : list ArticleView :=
  match r with (_, BArticles l _) => l | _ => [] end.

Definition comments_of (r : Response) : list CommentView :=
  match r with (_, BComments l) => l | _ => [] end.

(** ** Vocabulary of the comment forest *)

(** The parent of the comment is in the map. *)
Definition resolves (commentMap : gmap string CommentObj) (c : CommentView)
  : Prop :=
  truthy (cm_parentId c) = true
  ∧ is_Some (commentMap !! default "" (cm_parentId c)).

(** [c] names [k] as its parent. *)
Definition child_of (k : string) (c : CommentView) : Prop :=
  truthy (cm_parentId c) = true ∧ default "" (cm_parentId c) = k.

(** The [parentId] of [c] is the id of no fetched comment. *)
Definition is_root (fetched : list CommentView) (c : CommentView) : Prop :=
  match cm_parentId c with
  | Some p => p ∉ cm_id <$> fetched
  | None => True
  end.

#[global] Instance resolves_dec commentMap c : Decision (resolves commentMap c).
Proof. unfold resolves. apply _. Defined.

#[global] Instance child_of_dec k c : Decision (child_of k c).
Proof. unfold child_of. apply _. Defined.

#[global] Instance is_root_dec fetched c : Decision (is_root fetched c).
Proof. unfold is_root. destruct (cm_parentId c); apply _. Defined.





(** ** Vocabulary of the category route *)

(** The three messages with which [createCategory] rejects a request
    before it reaches the files. *)
Definition validation_messages : list string :=
  ["Name, description and icon are required";
   "Category code is required (must be in English)";
   "Category code must only contain lowercase letters, numbers, underscores and hyphens"].

(** The category that a successful [createCategory] reports. *)
Definition created_view (req : CategoryRequest) (articleCount : option Z)
  : CategoryView :=
  let code := default "" (cat_code req) in
  {| cv_id := "cat_" +:+ code;
     cv_name := cat_name req;
     cv_description := cat_description req;
     cv_icon := cat_icon req;
     cv_slug := Some (if truthy (cat_slug req)
                      then default "" (cat_slug req) else code);
     cv_articleCount := articleCount |}.

(** ** A small store, built through the routes

    An empty database directory, then one category, one user, one
    published article of that user, a comment on the article and a reply
    to the comment. *)

Definition empty_store : Store :=
  {| documents_jsonl := Some [];
     collection_files := ∅;
     hnsw_index := false;
     graph_dir := false |}.

Definition blog_category : Store :=
  snd (createCategory empty_store
         {| cat_name := Some "Tech"; cat_description := Some "Technology";
            cat_icon := Some "T"; cat_slug := None; cat_code := Some "tech" |}
         1000).

Definition blog_user : Store :=
  snd (createUser blog_category
         {| ur_name := Some "Ann"; ur_email := Some "ann@example.org";
            ur_avatar := None; ur_role := Some "editor" |}
         2000 2000).

Definition blog_article : Store :=
  snd (createArticle blog_user
         {| ar_title := Some "Hello"; ar_content := Some "World";
            ar_categoryId := Some "cat_tech";
            ar_authorId := Some "user_ann_1jk";
            ar_status := Some "published"; ar_tags := None |}
         3000 "a1b2c3d4").

Definition blog_comment : Store :=
  snd (createComment blog_article
         {| cr_newsId := Some "news_a1b2c3d4";
            cr_authorId := Some "user_ann_1jk";
            cr_content := Some "first"; cr_parentId := None |}
         4000 "c1000000").

Definition blog : Store :=
  snd (createComment blog_comment
         {| cr_newsId := Some "news_a1b2c3d4";
            cr_authorId := Some "user_ann_1jk";
            cr_content := Some "second";
            cr_parentId := Some "comment_c1000000" |}
         5000 "c2000000").

(** Two articles of the same author: one published at time 200, then a
    draft created at time 300. *)
Definition two_articles : Store :=
  let st1 :=
    snd (createArticle blog_user
           {| ar_title := Some "Published"; ar_content := Some "Body";
              ar_categoryId := Some "cat_tech";
              ar_authorId := Some "user_ann_1jk";
              ar_status := Some "published"; ar_tags := None |}
           200 "bbbbbbbb") in
  snd (createArticle st1
         {| ar_title := Some "Draft"; ar_content := Some "Body";
            ar_categoryId := Some "cat_tech";
            ar_authorId := Some "user_ann_1jk";
            ar_status := None; ar_tags := None |}
         300 "aaaaaaaa").

Definition no_filter : ArticleQuery :=
  {| q_limit := None; q_offset := None; q_categoryId := None;
     q_authorId := None; q_status := None; q_search := None |}.

(** ** Stores with documents in the shared file *)

(** A document that carries only an id, a collection tag and a creation
    time, as a line of the shared file. *)
Definition tagged_doc (id collection : string) (created_at : Z) : MemoryNode :=
  {| mn_id := id; mn_content := ""; mn_content_type := "";
     mn_parent_id := None; mn_children := []; mn_depth := 0;
     mn_metadata :=
       {| md_name := None; md_description := None; md_icon := None;
          md_slug := None; md_email := None; md_avatar := None;
          md_role := None; md_title := None; md_categoryId := None;
          md_authorId := None; md_newsId := None; md_parentId := None;
          md_status := None; md_publishedAt := None; md_viewCount := None;
          md_likeCount := None;
          md_collection := Some collection; md_foreignKeys := [] |};
     mn_tags := []; mn_created_at := created_at;
     mn_last_accessed_at := created_at; mn_access_count := 0;
     mn_importance := 0.5%Q; mn_decay_rate := 0.01%Q;
     mn_entity_ids := []; mn_relation_ids := [] |}.

(** A shared file in which one id occurs on two lines. *)
Definition repeated_line : Store :=
  {| documents_jsonl :=
       Some [Json (tagged_doc "n1" "news" 10); Json (tagged_doc "n1" "news" 20)];
     collection_files := ∅;
     hnsw_index := false;
     graph_dir := false |}.

(** A news collection split over its own file and the shared file. *)
Definition split_news : Store :=
  {| documents_jsonl :=
       Some [Json (tagged_doc "n2" "news" 10); Json (tagged_doc "n3" "news" 20);
             Malformed "{"; Json (tagged_doc "c1" "comments" 30)];
     collection_files :=
       {[ "news" := [Json (tagged_doc "n1" "news" 40);
                     Json (tagged_doc "n2" "news" 50)] ]};
     hnsw_index := false;
     graph_dir := false |}.

(** A comment as a line of the shared file. *)
Definition comment_doc (id newsId : string) (parentId : option string)
    (created_at : Z) : MemoryNode :=
  {| mn_id := id; mn_content := "text"; mn_content_type := "comment";
     mn_parent_id := parentId; mn_children := [];
     mn_depth := if truthy parentId then 1 else 0;
     mn_metadata :=
       {| md_name := None; md_description := None; md_icon := None;
          md_slug := None; md_email := None; md_avatar := None;
          md_role := None; md_title := None; md_categoryId := None;
          md_authorId := None;
          md_newsId := Some newsId;
          md_parentId := parentId;
          md_status := None; md_publishedAt := None; md_viewCount := None;
          md_likeCount := Some 0;
          md_collection := Some "comments"; md_foreignKeys := [] |};
     mn_tags := ["comment"]; mn_created_at := created_at;
     mn_last_accessed_at := created_at; mn_access_count := 0;
     mn_importance := 0.5%Q; mn_decay_rate := 0.01%Q;
     mn_entity_ids := []; mn_relation_ids := [] |}.

(** The three comments of the ordering example: [c1] at time 100, [c2] at
    time 50, and [c3] at time 200, a reply to [c1]. *)
Definition c1 : MemoryNode := comment_doc "c1" "a1" None 100.
Definition c2 : MemoryNode := comment_doc "c2" "a1" None 50.
Definition c3 : MemoryNode := comment_doc "c3" "a1" (Some "c1") 200.

Definition three_comments : Store :=
  {| documents_jsonl := Some [Json c1; Json c2; Json c3];
     collection_files := ∅;
     hnsw_index := false;
     graph_dir := false |}.

(** Two comments of one article with the same creation time, the one with
    the larger id on the earlier line. *)
Definition tied_comments : Store :=
  {| documents_jsonl :=
       Some [Json (comment_doc "b" "a1" None 100);
             Json (comment_doc "a" "a1" None 100)];
     collection_files := ∅;
     hnsw_index := false;
     graph_dir := false |}.

(** A database that holds a category and a user only as tagged lines of the
    shared file, and the same database after an article of that category
    has been created through the route. *)
Definition legacy_store : Store :=
  {| documents_jsonl :=
       Some [Json (tagged_doc "cat_old" "categories" 10);
             Json (tagged_doc "user_old" "users" 20)];
     collection_files := ∅;
     hnsw_index := false;
     graph_dir := false |}.

Definition legacy_referenced : Store :=
  snd (createArticle legacy_store
         {| ar_title := Some "Hello"; ar_content := Some "World";
            ar_categoryId := Some "cat_old";
            ar_authorId := Some "user_old";
            ar_status := None; ar_tags := None |}
         3000 "a1b2c3d4").

Definition old_category_again : CategoryRequest :=
  {| cat_name := Some "Old"; cat_description := Some "Old news";
     cat_icon := Some "O"; cat_slug := None; cat_code := Some "old" |}.

(** ** Further routes *)

(** *** Updating an article *)

Record ArticleUpdate := {
  au_title : option string;
  au_content : option string;
  au_categoryId : option string;
  au_authorId : option string;
  au_status : option string;
  au_tags : option (list string)
}.

(** The article that PUT /api/news/articles/:id reports: the metadata
    values as they are after the update, absent ones included. *)
Record UpdatedArticle := {
  ua_id : string;
  ua_content : string;
  ua_title : option string;
  ua_categoryId : option string;
  ua_authorId : option string;
  ua_status : option string;
  ua_publishedAt : option Z;
  ua_viewCount : Z;
  ua_likeCount : Z;
  ua_tags : list string;
  ua_created_at : Z;
  ua_category : option CategoryView;
  ua_author : option UserView
}.

Inductive UpdateBody :=
  | UError (error : string)
  | UArticle (article : UpdatedArticle).

(** [!x] for a number-valued [x]. *)
Definition falsy_num (o : option Z) : bool :=
  match o with
  | Some n => bool_decide (n = 0)
  | None => true
  end.

(** The article after the assignments of the update; [now_published] is
    the clock reading taken for [publishedAt], [now] the one taken for
    [last_accessed_at]. *)
Definition updated_article (article : MemoryNode) (req : ArticleUpdate)
    (now_published now : Z) : MemoryNode :=
  let m := mn_metadata article in
  let title := assign_if (au_title req) (md_title m) in
  let content :=
    if truthy (au_content req)
    then interpolate title +:+ newline +:+ newline +:+ default "" (au_content req)
    else mn_content article in
  let publishedAt :=
    if truthy (au_status req)
       && bool_decide (au_status req = Some "published")
       && falsy_num (md_publishedAt m)
    then Some now_published
    else md_publishedAt m in
  let m' :=
    {| md_name := md_name m; md_description := md_description m;
       md_icon := md_icon m; md_slug := md_slug m; md_email := md_email m;
       md_avatar := md_avatar m; md_role := md_role m;
       md_title := title;
       md_categoryId := assign_if (au_categoryId req) (md_categoryId m);
       md_authorId := assign_if (au_authorId req) (md_authorId m);
       md_newsId := md_newsId m; md_parentId := md_parentId m;
       md_status := assign_if (au_status req) (md_status m);
       md_publishedAt := publishedAt;
       md_viewCount := md_viewCount m; md_likeCount := md_likeCount m;
       md_collection := md_collection m;
       md_foreignKeys := md_foreignKeys m |} in
  let tags :=
    match au_tags req with
    | Some tags => "news" :: tags
    | None => mn_tags article
    end in
  with_metadata article m' content tags now.

(** PUT /api/news/articles/:id *)
Definition updateArticle (st : Store) (id : string) (req : ArticleUpdate)
    (now_published now : Z) : (Z * UpdateBody) * Store :=
  if negb (isValidAidb st) then ((400, UError "Invalid database path"), st) else
  match collection_files st !! "news" with
  | None => ((404, UError "News collection not found"), st)
  | Some lines =>
      let newsDocs := readJsonlFile (Some lines) in
      match list_find (λ n, mn_id n = id) newsDocs with
      | None => ((404, UError "Article not found"), st)
      | Some (articleIndex, article) =>
          if truthy (au_categoryId req)
             && negb (some (λ c, mn_id c = default "" (au_categoryId req))
                           (getDocumentsByCollection st "categories"))
          then ((400, UError ("Foreign key constraint violation: categoryId '"
                              +:+ default "" (au_categoryId req) +:+ "' not found")),
                st)
          else
          if truthy (au_authorId req)
             && negb (some (λ u, mn_id u = default "" (au_authorId req))
                           (getDocumentsByCollection st "users"))
          then ((400, UError ("Foreign key constraint violation: authorId '"
                              +:+ default "" (au_authorId req) +:+ "' not found")),
                st)
          else
          let article' := updated_article article req now_published now in
          let st' :=
            writeFile st "news"
              (stringify_all (<[articleIndex := article']> newsDocs)) in
          let m' := mn_metadata article' in
          let categoryDoc :=
            match md_categoryId m' with
            | Some c => find (λ d, mn_id d = c) (getDocumentsByCollection st' "categories")
            | None => None
            end in
          let authorDoc :=
            match md_authorId m' with
            | Some a => find (λ d, mn_id d = a) (getDocumentsByCollection st' "users")
            | None => None
            end in
          ((200, UArticle
                   {| ua_id := mn_id article';
                      ua_content := mn_content article';
                      ua_title := md_title m';
                      ua_categoryId := md_categoryId m';
                      ua_authorId := md_authorId m';
                      ua_status := md_status m';
                      ua_publishedAt := md_publishedAt m';
                      ua_viewCount := or_num (md_viewCount m') 0;
                      ua_likeCount := or_num (md_likeCount m') 0;
                      ua_tags := mn_tags article';
                      ua_created_at := mn_created_at article';
                      ua_category := category_brief <$> categoryDoc;
                      ua_author := author_brief <$> authorDoc |}), st')
      end
  end.

(** *** News statistics *)

Record NewsStats := {
  categoryCount : Z;
  userCount : Z;
  articleCount : Z;
  commentCount : Z;
  publishedCount : Z;
  draftCount : Z
}.

Inductive StatsBody :=
  | SError (error : string)
  | SStats (stats : NewsStats).

(** GET /api/news/stats *)
Definition getNewsStats (st : Store) : Z * StatsBody :=
  if negb (isValidAidb st) then (400, SError "Invalid database path") else
  let categoryDocs := getDocumentsByCollection st "categories" in
  let userDocs := getDocumentsByCollection st "users" in
  let newsDocs := getDocumentsByCollection st "news" in
  let commentDocs := getDocumentsByCollection st "comments" in
  let publishedCount :=
    length (filter (λ n, md_status (mn_metadata n) = Some "published") newsDocs) in
  let draftCount :=
    length (filter (λ n, md_status (mn_metadata n) = Some "draft") newsDocs) in
  (200, SStats {| categoryCount := Z.of_nat (length categoryDocs);
                  userCount := Z.of_nat (length userDocs);
                  articleCount := Z.of_nat (length newsDocs);
                  commentCount := Z.of_nat (length commentDocs);
                  publishedCount := Z.of_nat publishedCount;
                  draftCount := Z.of_nat draftCount |}).

(** *** The earlier article listing

    The earlier revision of GET /api/news/articles reads the shared file,
    classifies it, and populates with [populateNewsArticle]. *)

Record PopulatedArticle := {
  pa_article : ArticleView;
  pa_importance : Q
}.

Definition populateNewsArticle (article : MemoryNode)
    (categories users : list MemoryNode) : PopulatedArticle :=
  let m := mn_metadata article in
  let categoryId := md_categoryId m in
  let authorId := md_authorId m in
  let category :=
    match categoryId with
    | Some c => find (λ d, mn_id d = c) categories
    | None => None
    end in
  let author :=
    match authorId with
    | Some a => find (λ d, mn_id d = a) users
    | None => None
    end in
  {| pa_article :=
       {| av_id := mn_id article;
          av_content := mn_content article;
          av_title := or_str (md_title m) "";
          av_categoryId := categoryId;
          av_authorId := authorId;
          av_status := or_str (md_status m) "draft";
          av_publishedAt := Some (or_num (md_publishedAt m) (mn_created_at article));
          av_viewCount := or_num (md_viewCount m) 0;
          av_likeCount := or_num (md_likeCount m) 0;
          av_tags := mn_tags article;
          av_created_at := mn_created_at article;
          av_category := (λ c, category_view c None) <$> category;
          av_author := (λ u, user_view u "guest") <$> author |};
     pa_importance := mn_importance article |}.

(** The comparator of the earlier listing. *)
Definition by_time_desc (a b : MemoryNode) : Z :=
  let aTime := or_num (md_publishedAt (mn_metadata a)) (mn_created_at a) in
  let bTime := or_num (md_publishedAt (mn_metadata b)) (mn_created_at b) in
  bTime - aTime.

Inductive EarlierBody :=
  | EError (error : string)
  | EArticles (articles : list PopulatedArticle) (total offset limit : Z).

Definition listArticlesEarlier (st : Store) (q : ArticleQuery) : Z * EarlierBody :=
  let limit := or_num (q_limit q) 100 in
  let offset := or_num (q_offset q) 0 in
  if negb (isValidAidb st) then (400, EError "Invalid database path") else
  let documents := readJsonlFile (documents_jsonl st) in
  let parsed := parseDocumentsByCollection documents in
  let filteredNews := filter_articles q (news parsed) in
  let filteredNews := Array_sort by_time_desc filteredNews in
  let total := Z.of_nat (length filteredNews) in
  let filteredNews := Array_slice filteredNews offset (offset + limit) in
  (200, EArticles ((λ n, populateNewsArticle n (categories parsed) (users parsed))
                     <$> filteredNews)
                  total offset limit).

Definition earlier_articles (r : Z * EarlierBody) : list PopulatedArticle :=
  match r with (_, EArticles l _ _ _) => l | _ => [] end.

(** *** The knowledge graph

    The entities and relations are the documents that [readJsonlFile]
    reads from [graph/entities.jsonl] and [graph/relations.jsonl]; their
    open property bags are not read by the route and not represented. *)

Record Entity := {
  en_id : string;
  en_name : string;
  en_entity_type : string;
  en_memory_refs : list string;
  en_created_at : Z;
  en_updated_at : Z
}.

Record Relation := {
  rl_id : string;
  rl_source : string;
  rl_target : string;
  rl_relation_type : string;
  rl_weight : Q;
  rl_bidirectional : bool;
  rl_created_at : Z
}.

Record GraphNode := {
  nd_id : string;
  nd_label : string;
  nd_group : string;
  nd_title : string
}.

Record GraphEdge := {
  ed_id : string;
  ed_from : string;
  ed_to : string;
  ed_label : string;
  ed_arrows : string
}.

Inductive GraphBody :=
  | GError (error : string)
  | GGraph (nodes : list GraphNode) (edges : list GraphEdge)
           (totalEntities totalRelations : Z).

(** GET /api/graph *)
Definition getGraph (st : Store) (entities : list Entity)
    (relations : list Relation) (maxNodes : option Z) : Z * GraphBody :=
  let maxNodes := or_num maxNodes 100 in
  if negb (isValidAidb st) then (400, GError "Invalid database path") else
  let limitedEntities := Array_slice entities 0 maxNodes in
  let entityIds : gset string := list_to_set (en_id <$> limitedEntities) in
  let limitedRelations :=
    filter (λ r, rl_source r ∈ entityIds ∧ rl_target r ∈ entityIds) relations in
  let nodes :=
    (λ e, {| nd_id := en_id e;
             nd_label := en_name e;
             nd_group := en_entity_type e;
             nd_title := en_name e +:+ " (" +:+ en_entity_type e +:+ ")" |})
      <$> limitedEntities in
  let edges :=
    (λ r, {| ed_id := rl_id r;
             ed_from := rl_source r;
             ed_to := rl_target r;
             ed_label := rl_relation_type r;
             ed_arrows := if rl_bidirectional r then "to;from" else "to" |})
      <$> limitedRelations in
  (200, GGraph nodes edges (Z.of_nat (length entities))
               (Z.of_nat (length relations))).

Definition graph_nodes (r : Z * GraphBody) : list GraphNode :=
  match r with (_, GGraph nodes _ _ _) => nodes | _ => [] end.

Definition graph_edges (r : Z * GraphBody) : list GraphEdge :=
  match r with (_, GGraph _ edges _ _) => edges | _ => [] end.

(** ** Vocabulary of the further properties *)

(** How a reference is populated: the embedded object, when there is one,
    is a target whose id is the non-empty reference; there is none exactly
    when the reference is absent, empty or the id of no target. *)
Definition populated (targets : list MemoryNode) (ref embedded : option string)
  : Prop :=
  match embedded with
  | Some i => ref = Some i ∧ i ≠ "" ∧ i ∈ mn_id <$> targets
  | None => ∀ c, ref = Some c → c = "" ∨ c ∉ mn_id <$> targets
  end.

(** The number of articles that reference a category id. *)
Definition articles_of_category (newsDocs : list MemoryNode) (id : string) : Z :=
  Z.of_nat (length (filter (λ n, md_categoryId (mn_metadata n) = Some id ∧ id ≠ "")
                           newsDocs)).

(** An article passes the filters of a query: each filter that the query
    carries holds of the article. *)
Definition matches (q : ArticleQuery) (a : MemoryNode) : Prop :=
  (truthy (q_categoryId q) = true →
   md_categoryId (mn_metadata a) = q_categoryId q)
  ∧ (truthy (q_authorId q) = true →
     md_authorId (mn_metadata a) = q_authorId q)
  ∧ (truthy (q_status q) = true → md_status (mn_metadata a) = q_status q)
  ∧ (truthy (q_search q) = true →
     includes (toLowerCase (mn_content a)) (toLowerCase (default "" (q_search q)))
     || includes (toLowerCase (or_str (md_title (mn_metadata a)) ""))
                 (toLowerCase (default "" (q_search q))) = true).

#[global] Instance matches_dec q a : Decision (matches q a).
Proof. unfold matches. apply _. Defined.

(** The sort key of the current article listing. *)
Definition published_or_zero (a : MemoryNode) : Z :=
  or_num (md_publishedAt (mn_metadata a)) 0.

(** The e-mail addresses of the users file, in file order. *)
Definition user_emails (st : Store) : list string :=
  omap (λ u, md_email (mn_metadata u)) (readCollectionFile st "users").

(** Every user of the users file has one of the four roles. *)
Definition roles_valid (st : Store) : Prop :=
  Forall (λ u, ∃ r, md_role (mn_metadata u) = Some r ∧ r ∈ validRoles)
         (readCollectionFile st "users").

(** The two articles of [two_articles] on lines of the shared file, as the
    earlier revision of the routes reads them. *)
Definition earlier_two_articles : Store :=
  {| documents_jsonl := Some (stringify_all (readCollectionFile two_articles "news"));
     collection_files := ∅;
     hnsw_index := false;
     graph_dir := false |}.

(** * Properties *)

(** ** Sanity checks of the helpers *)

Example toString36_example : toString36 1700000000000 = "loyw3v28"
  ∧ toString36 35 = "z" ∧ toString36 36 = "10" ∧ toString36 0 = "0".
Proof. vm_compute. auto. Qed.


(** ** The collection reader *)

Section Reader.
Implicit Types (st : Store) (collection : string).

Lemma getDocumentsByCollection_merge st collection :
  getDocumentsByCollection st collection =
    readCollectionFile st collection
    ++ filter (λ doc, mn_id doc ∉ mn_id <$> readCollectionFile st collection)
              (tagged st collection).
Proof.
  unfold getDocumentsByCollection, readCollectionFile, tagged.
  destruct (documents_jsonl st) as [lines|]; simpl.
  - f_equal. apply list_filter_iff. intros doc.
    by rewrite elem_of_list_to_set.
  - by rewrite filter_nil, app_nil_r.
Qed.

Lemma dedicated_in_merge st collection doc :
  doc ∈ readCollectionFile st collection →
  doc ∈ getDocumentsByCollection st collection.
Proof.
  rewrite getDocumentsByCollection_merge, elem_of_app. auto.
Qed.

Lemma legacy_only_in_merge st collection doc :
  doc ∈ tagged st collection →
  mn_id doc ∉ mn_id <$> readCollectionFile st collection →
  doc ∈ getDocumentsByCollection st collection.
Proof.
  intros Hdoc Hid.
  rewrite getDocumentsByCollection_merge, elem_of_app, list_elem_of_filter.
  auto.
Qed.

Lemma merge_NoDup st collection :
  NoDup (mn_id <$> readCollectionFile st collection) →
  NoDup (mn_id <$> tagged st collection) →
  NoDup (mn_id <$> getDocumentsByCollection st collection).
Proof.
  intros Hded Hleg.
  rewrite getDocumentsByCollection_merge, fmap_app.
  apply NoDup_app. split; [done|]. split.
  - intros i Hi Hi'. apply list_elem_of_fmap in Hi' as (doc & -> & Hdoc).
    apply list_elem_of_filter in Hdoc as [Hnot _]. by apply Hnot.
  - eapply sublist_NoDup; [exact Hleg|].
    apply fmap_sublist, sublist_filter.
Qed.
End Reader.

(** ** Helpers on the JavaScript primitives *)

Lemma truthy_Some (o : option string) :
  truthy o = true ↔ ∃ s, o = Some s ∧ s ≠ "".
Proof.
  destruct o as [s|]; simpl.
  - rewrite bool_decide_eq_true. split; [eauto|].
    by intros (s' & [= <-] & Hs).
  - split; [done|]. by intros (s' & [=] & _).
Qed.

Lemma some_true {A} (P : A → Prop) `{∀ x, Decision (P x)} (l : list A) :
  some P l = true ↔ ∃ x, x ∈ l ∧ P x.
Proof. unfold some. by rewrite bool_decide_eq_true, Exists_exists. Qed.

Lemma some_false {A} (P : A → Prop) `{∀ x, Decision (P x)} (l : list A) :
  some P l = false ↔ ∀ x, x ∈ l → ¬ P x.
Proof.
  unfold some. rewrite bool_decide_eq_false, Exists_exists. split.
  - intros Hno x Hx HP. apply Hno. eauto.
  - intros Hall (x & Hx & HP). by apply (Hall x).
Qed.

Lemma isValidAidb_shared_file (st : Store) :
  is_Some (documents_jsonl st) → isValidAidb st = true.
Proof.
  intros Hsome. unfold isValidAidb.
  by rewrite (bool_decide_eq_true_2 _ Hsome).
Qed.

(** ** Deleting a referenced category *)

(** C1.  In a database directory that [isValidAidb] accepts, when some
    article of the merged news collection has [metadata.categoryId] equal
    to [C], [deleteCategory C] answers 400 with the message that names the
    restrict constraint, and the store it leaves is the store it found:
    no file is written, so the category, the article and every other
    document are as before. *)
Theorem deleteCategory_restrict (st : Store) (C : string) (article : MemoryNode) :
  isValidAidb st = true →
  article ∈ getDocumentsByCollection st "news" →
  md_categoryId (mn_metadata article) = Some C →
  deleteCategory st C =
    ((400, BError ("Cannot delete category '" +:+ C +:+
                   "': it is referenced by news articles (restrict constraint)")),
     st).
Proof.
  intros Hvalid Hin Hcat. unfold deleteCategory.
  rewrite Hvalid. simpl.
  assert (some (λ n, md_categoryId (mn_metadata n) = Some C)
               (getDocumentsByCollection st "news") = true) as ->; [|done].
  apply some_true. eauto.
Qed.

Lemma deleteCategory_restrict_witness :
  isValidAidb blog = true
  ∧ deleteCategory blog "cat_tech" =
      ((400, BError "Cannot delete category 'cat_tech': it is referenced by news articles (restrict constraint)"),
       blog).
Proof.
  split; [reflexivity|].
  assert (∃ article, getDocumentsByCollection blog "news" = [article]
                     ∧ md_categoryId (mn_metadata article) = Some "cat_tech")
    as (article & Hnews & Hcat)
    by (vm_compute; eexists; split; reflexivity).
  apply (deleteCategory_restrict blog "cat_tech" article).
  - reflexivity.
  - rewrite Hnews. apply list_elem_of_here.
  - exact Hcat.
Defined.

(** ** Creating an article with an unknown category *)

(** C4.  In a database directory that [isValidAidb] accepts, a
    [createArticle] request whose title, content, categoryId and authorId
    are present (non-empty) and whose categoryId is the id of no document
    of the merged categories collection is answered 400 with the message
    [Foreign key constraint violation: categoryId '<id>' not found in
    categories], which gives the field, the offending id and the target
    collection; the store is left as it was, so nothing is appended to the
    news collection. *)
Theorem createArticle_unknown_category (st : Store) (req : ArticleRequest)
    (now : Z) (uuid categoryId : string) :
  isValidAidb st = true →
  truthy (ar_title req) = true →
  truthy (ar_content req) = true →
  ar_categoryId req = Some categoryId →
  categoryId ≠ "" →
  truthy (ar_authorId req) = true →
  (∀ c, c ∈ getDocumentsByCollection st "categories" → mn_id c ≠ categoryId) →
  createArticle st req now uuid =
    ((400, BError ("Foreign key constraint violation: categoryId '"
                   +:+ categoryId +:+ "' not found in categories")),
     st).
Proof.
  intros Hvalid Htitle Hcontent Hcat Hne Hauthor Hmissing.
  unfold createArticle.
  rewrite Hvalid, Htitle, Hcontent, Hauthor, Hcat. simpl.
  rewrite (bool_decide_eq_true_2 _ Hne). simpl.
  assert (some (λ c, mn_id c = categoryId)
               (getDocumentsByCollection st "categories") = false) as ->.
  { apply some_false. exact Hmissing. }
  reflexivity.
Qed.

Lemma createArticle_unknown_category_witness :
  createArticle blog
    {| ar_title := Some "Title"; ar_content := Some "Body";
       ar_categoryId := Some "cat_sport";
       ar_authorId := Some "user_ann_1jk";
       ar_status := None; ar_tags := None |} 6000 "ffffffff" =
    ((400, BError "Foreign key constraint violation: categoryId 'cat_sport' not found in categories"),
     blog).
Proof.
  apply (createArticle_unknown_category blog _ 6000 "ffffffff" "cat_sport");
    try reflexivity.
  - discriminate.
  - assert (getDocumentsByCollection blog "categories"
            = readCollectionFile blog "categories") as -> by (by vm_compute).
    intros c Hc Hid.
    assert (Forall (λ c, mn_id c ≠ "cat_sport")
                   (readCollectionFile blog "categories")) as Hall
      by (vm_compute; repeat constructor; discriminate).
    by apply (proj1 (Forall_forall _ _) Hall c Hc).
Defined.

(** ** Cascade from an article to its comments *)

(** C2 (evaluation).  In the store [blog] the article, its root comment and
    the reply were all created through the routes.  [deleteArticle]
    succeeds and empties the news file, but both comments are still
    returned by [listComments] for the deleted article: they were appended
    to the shared [documents.jsonl], which the delete route never writes. *)
Theorem deleteArticle_keeps_comments_of_shared_file :
  ∃ st',
    deleteArticle blog "news_a1b2c3d4" = ((200, BSuccess), st')
    ∧ getDocumentsByCollection st' "news" = []
    ∧ cm_id <$> comments_of (listComments blog (Some "news_a1b2c3d4"))
      = ["comment_c1000000"; "comment_c2000000"]
    ∧ cm_parentId <$> comments_of (listComments blog (Some "news_a1b2c3d4"))
      = [None; Some "comment_c1000000"]
    ∧ cm_id <$> comments_of (listComments st' (Some "news_a1b2c3d4"))
      = ["comment_c1000000"; "comment_c2000000"]
    ∧ mn_id <$> getDocumentsByCollection st' "comments"
      = ["comment_c1000000"; "comment_c2000000"]
    ∧ documents_jsonl st' = documents_jsonl blog.
Proof.
  eexists. split; [by vm_compute|]. by vm_compute.
Qed.

(** ** Deleting the author of an article *)

(** C3 (evaluation).  In the store [blog] the user is the author of the
    article.  [deleteUser] succeeds; the persisted article still carries
    the id of the deleted user in [authorId], and [getArticle] answers 200
    with that id and a populated [author] of null. *)
Theorem deleteUser_keeps_authorId :
  ∃ st',
    deleteUser blog "user_ann_1jk" = ((200, BSuccess), st')
    ∧ getDocumentsByCollection st' "users" = []
    ∧ (md_authorId ∘ mn_metadata) <$> getDocumentsByCollection st' "news"
      = [Some "user_ann_1jk"]
    ∧ ∃ article,
        getArticle st' "news_a1b2c3d4" = (200, BArticle article)
        ∧ av_authorId article = Some "user_ann_1jk"
        ∧ av_author article = None.
Proof.
  eexists. split; [by vm_compute|].
  split; [by vm_compute|]. split; [by vm_compute|].
  eexists. split; [by vm_compute|]. by vm_compute.
Qed.

(** ** Where the create routes persist *)

(** C5 (evaluation).  Creating the first comment of the article: the
    document is appended to the shared [documents.jsonl] at the root of the
    store, and no per-collection file is written; no file
    [comments/documents.jsonl] exists afterwards.  The category, the user
    and the article went to the files of their collections. *)
Theorem createComment_appends_to_shared_file :
  ∃ comment,
    createComment blog_article
      {| cr_newsId := Some "news_a1b2c3d4";
         cr_authorId := Some "user_ann_1jk";
         cr_content := Some "first"; cr_parentId := None |}
      4000 "c1000000" = ((201, BComment comment), blog_comment)
    ∧ documents_jsonl blog_article = Some []
    ∧ mn_id <$> readJsonlFile (documents_jsonl blog_comment) = ["comment_c1000000"]
    ∧ collection_files blog_comment = collection_files blog_article
    ∧ collection_files blog_comment !! "comments" = None
    ∧ mn_id <$> readCollectionFile blog_article "categories" = ["cat_tech"]
    ∧ mn_id <$> readCollectionFile blog_article "users" = ["user_ann_1jk"]
    ∧ mn_id <$> readCollectionFile blog_article "news" = ["news_a1b2c3d4"].
Proof.
  eexists. split; [by vm_compute|]. by vm_compute.
Qed.

(** ** Sorting *)

Section ArraySort.
Context {A : Type} (key : A → Z) (cmp : A → A → Z).
Hypothesis cmp_key : ∀ a b, cmp a b ≤ 0 ↔ key a ≤ key b.

Lemma sort_insert_Permutation (x : A) (l : list A) :
  sort_insert cmp x l ≡ₚ x :: l.
Proof.
  induction l as [|y l IH]; simpl; [done|].
  case_decide; [done|]. by rewrite IH, Permutation_swap.
Qed.

Lemma Array_sort_Permutation (l : list A) : Array_sort cmp l ≡ₚ l.
Proof.
  induction l as [|x l IH]; simpl; [done|].
  by rewrite sort_insert_Permutation, IH.
Qed.

Lemma sort_insert_sorted (x : A) (l : list A) :
  StronglySorted (λ a b, key a ≤ key b) l →
  StronglySorted (λ a b, key a ≤ key b) (sort_insert cmp x l).
Proof.
  induction 1 as [|y l Hsorted IH Hy]; simpl.
  - repeat constructor.
  - case_decide as Hxy.
    + apply cmp_key in Hxy. constructor; [by constructor|].
      constructor; [done|].
      eapply Forall_impl; [exact Hy|]. intros z Hz; simpl in *. lia.
    + constructor; [done|].
      rewrite sort_insert_Permutation. constructor; [|done].
      rewrite cmp_key in Hxy. lia.
Qed.

Lemma Array_sort_sorted (l : list A) :
  StronglySorted (λ a b, key a ≤ key b) (Array_sort cmp l).
Proof.
  induction l as [|x l IH]; simpl; [constructor|].
  by apply sort_insert_sorted.
Qed.

(** Stability: documents with the same key keep their relative order. *)
Lemma sort_insert_stable (k : Z) (x : A) (l : list A) :
  filter (λ a, key a = k) (sort_insert cmp x l)
  = filter (λ a, key a = k) (x :: l).
Proof.
  induction l as [|y l IH]; simpl; [done|].
  case_decide as Hxy; [done|].
  rewrite cmp_key in Hxy.
  rewrite (filter_cons _ y), IH, !filter_cons.
  destruct (decide (key y = k)) as [Hy|Hy]; [|done].
  destruct (decide (key x = k)); [lia|done].
Qed.

Lemma Array_sort_stable (k : Z) (l : list A) :
  filter (λ a, key a = k) (Array_sort cmp l) = filter (λ a, key a = k) l.
Proof.
  induction l as [|x l IH]; simpl; [done|].
  by rewrite sort_insert_stable, !filter_cons, IH.
Qed.
End ArraySort.

Lemma StronglySorted_weaken {A} (R1 R2 : A → A → Prop) (l : list A) :
  (∀ a b, R1 a b → R2 a b) → StronglySorted R1 l → StronglySorted R2 l.
Proof.
  intros Himpl. induction 1 as [|x l _ IH Hx]; constructor; [done|].
  eapply Forall_impl; [exact Hx|]. intros y. apply Himpl.
Qed.

(** ** The order of the article listing *)

(** The listing is sorted, before pagination, by [publishedAt || 0]
    descending. *)
Lemma sorted_articles_desc (q : ArticleQuery) (newsDocs : list MemoryNode) :
  StronglySorted
    (λ a b, or_num (md_publishedAt (mn_metadata b)) 0
            ≤ or_num (md_publishedAt (mn_metadata a)) 0)
    (sorted_articles q newsDocs).
Proof.
  pose proof (Array_sort_sorted
                (λ a, - or_num (md_publishedAt (mn_metadata a)) 0)
                by_publishedAt_desc) as Hsorted.
  unfold sorted_articles.
  eapply StronglySorted_weaken; [|apply Hsorted].
  - intros a b; simpl. lia.
  - intros a b. unfold by_publishedAt_desc. lia.
Qed.

(** C8 (evaluation).  The draft created at time 300 has no [publishedAt];
    the other article was published at time 200.  [listArticles] returns
    the published article first and the draft last, with the [publishedAt]
    values 200 and 300 in the response: the comparator orders an article
    without [publishedAt] by 0, not by its [created_at]. *)
Theorem listArticles_orders_draft_by_zero :
  (λ a, (mn_id a, md_publishedAt (mn_metadata a), mn_created_at a))
    <$> getDocumentsByCollection two_articles "news"
  = [("news_bbbbbbbb", Some 200, 200); ("news_aaaaaaaa", None, 300)]
  ∧ (λ a, (av_id a, av_publishedAt a))
      <$> articles_of (listArticles two_articles no_filter)
    = [("news_bbbbbbbb", Some 200); ("news_aaaaaaaa", Some 300)].
Proof. by vm_compute. Qed.

(** ** The merge of the two sources of a collection *)

(** C6 (as stated, refuted).  When the shared file holds one id on two
    lines, the reader returns that id twice. *)
Lemma getDocumentsByCollection_repeats_id :
  mn_id <$> getDocumentsByCollection repeated_line "news" = ["n1"; "n1"]
  ∧ ¬ NoDup (mn_id <$> getDocumentsByCollection repeated_line "news").
Proof.
  split; [by vm_compute|].
  assert (mn_id <$> getDocumentsByCollection repeated_line "news"
          = ["n1"; "n1"]) as -> by (by vm_compute).
  intros Hnodup. apply NoDup_cons in Hnodup as [Hnotin _].
  apply Hnotin, list_elem_of_here.
Qed.

(** C6 (amended).  The reader returns the documents of the dedicated file
    in file order, followed by the documents of the shared file, in file
    order, that carry the tag of the collection and whose id is the id of
    no document of the dedicated file.  When no id occurs twice in the
    dedicated file and no id occurs twice among the tagged documents of the
    shared file, no id occurs twice in the result. *)
Theorem getDocumentsByCollection_dedicated_wins (st : Store) (collection : string) :
  let dedicated := readJsonlFile (collection_files st !! collection) in
  let legacy :=
    filter (λ doc, md_collection (mn_metadata doc) = Some collection)
           (readJsonlFile (documents_jsonl st)) in
  getDocumentsByCollection st collection
  = dedicated ++ filter (λ doc, mn_id doc ∉ mn_id <$> dedicated) legacy
  ∧ (NoDup (mn_id <$> dedicated) → NoDup (mn_id <$> legacy) →
     NoDup (mn_id <$> getDocumentsByCollection st collection)).
Proof.
  assert (readJsonlFile (collection_files st !! collection)
          = readCollectionFile st collection) as Hded.
  { unfold readCollectionFile. by destruct (collection_files st !! collection). }
  simpl. rewrite Hded. split.
  - apply getDocumentsByCollection_merge.
  - apply merge_NoDup.
Qed.

Lemma getDocumentsByCollection_dedicated_wins_witness :
  mn_id <$> getDocumentsByCollection split_news "news" = ["n1"; "n2"; "n3"]
  ∧ NoDup (mn_id <$> getDocumentsByCollection split_news "news").
Proof.
  split; [by vm_compute|].
  apply (getDocumentsByCollection_dedicated_wins split_news "news").
  - assert (mn_id <$> readJsonlFile (collection_files split_news !! "news")
            = ["n1"; "n2"]) as -> by (by vm_compute).
    apply (bool_decide_unpack _). by vm_compute.
  - assert (mn_id <$> filter (λ doc, md_collection (mn_metadata doc) = Some "news")
                              (readJsonlFile (documents_jsonl split_news))
            = ["n2"; "n3"]) as -> by (by vm_compute).
    apply (bool_decide_unpack _). by vm_compute.
Defined.

(** ** The comment forest *)

Section Forest.
Implicit Types (m : gmap string CommentObj) (l : list CommentView).
Implicit Types (c : CommentView) (k : string) (r : list string).






End Forest.

Lemma filter_fmap {A B} (f : A → B) (P : B → Prop) `{∀ y, Decision (P y)}
    (l : list A) :
  filter P (f <$> l) = f <$> filter (λ x, P (f x)) l.
Proof.
  induction l as [|x l IH]; [done|].
  rewrite fmap_cons, !filter_cons, IH. by destruct (decide (P (f x))).
Qed.

Lemma filter_iff_in {A} (P Q : A → Prop) `{∀ x, Decision (P x)}
    `{∀ x, Decision (Q x)} (l : list A) :
  (∀ x, x ∈ l → P x ↔ Q x) → filter P l = filter Q l.
Proof.
  induction l as [|x l IH]; intros Hiff; [done|].
  rewrite !filter_cons, IH.
  - destruct (decide (P x)) as [HP|HP], (decide (Q x)) as [HQ|HQ]; try done.
    + exfalso. apply HQ, Hiff; [by left|done].
    + exfalso. apply HP, Hiff; [by left|done].
  - intros y Hy. apply Hiff. by right.
Qed.





(** *** The object graph unfolds to the nested forest *)

Section Unfolding.
Context (fetched : list CommentView).
Hypothesis unique_ids : NoDup (cm_id <$> fetched).











End Unfolding.

(** Two comments of one article with the same [created_at], the id ["b"]
    stored before the id ["a"]: both listings return ["b"] before ["a"];
    the tie is not broken by id. *)
Lemma listComments_tie_keeps_file_order :
  (∃ commentMap,
      listCommentsTree tied_comments (Some "a1")
      = (200, BCommentTree commentMap ["b"; "a"]))
  ∧ (λ c, (cm_id c, cm_created_at c))
      <$> fetched_comments tied_comments (Some "a1")
    = [("b", 100); ("a", 100)]
  ∧ (λ c, (cm_id c, cm_created_at c))
      <$> comments_of (listComments tied_comments (Some "a1"))
    = [("b", 100); ("a", 100)]
  ∧ String.ltb "a" "b" = true.
Proof.
  split; [eexists; by vm_compute|]. by vm_compute.
Qed.



(** C7.  The current [listComments] sends every comment of the article at
    the top level and nests nothing.  For [c1] at 100, [c2] at 50 and [c3]
    at 200 replying to [c1], it returns the flat sequence [c2], [c1], [c3]:
    the reply [c3] stands beside its parent [c1], whose [children] is the
    stored empty list, and the entries have no [replies]; the listing of
    the earlier revision returns, on the same store, [c2] and then [c1]
    with the single reply [c3].  Two comments of equal [created_at], the
    id ["b"] stored before the id ["a"], come back as ["b"], ["a"]. *)
Theorem listComments_sends_replies_flat :
  listComments three_comments (Some "a1")
  = (200, BComments [comment_view None "" c2; comment_view None "" c1;
                     comment_view None "" c3])
  ∧ (λ c, (cm_id c, cm_created_at c, cm_parentId c, cm_children c))
      <$> comments_of (listComments three_comments (Some "a1"))
    = [("c2", 50, None, Some []); ("c1", 100, None, Some []);
       ("c3", 200, Some "c1", Some [])]
  ∧ render_body 2 (listCommentsTree three_comments (Some "a1"))
    = Some [CommentNode (populateComment c2 []) [];
            CommentNode (populateComment c1 [])
                        [CommentNode (populateComment c3 []) []]]
  ∧ cm_id <$> comments_of (listComments tied_comments (Some "a1")) = ["b"; "a"]
  ∧ String.ltb "a" "b" = true.
Proof.
  split; [by vm_compute|]. split; [by vm_compute|].
  split; [by vm_compute|]. split; by vm_compute.
Qed.

(** ** Files after an append *)

Lemma readJsonlFile_app (l1 l2 : list Line) :
  readJsonlFile (Some (l1 ++ l2))
  = readJsonlFile (Some l1) ++ readJsonlFile (Some l2).
Proof. simpl. apply omap_app. Qed.

Lemma readCollectionFile_appendFile (st : Store) (collection : string)
    (doc : MemoryNode) :
  readCollectionFile (appendFile st collection (Json doc)) collection
  = readCollectionFile st collection ++ [doc].
Proof.
  unfold readCollectionFile, appendFile, writeFile; simpl.
  rewrite lookup_insert_eq.
  destruct (collection_files st !! collection) as [lines|]; simpl.
  - by rewrite omap_app.
  - done.
Qed.

Lemma readCollectionFile_appendFile_ne (st : Store) (c c' : string) (l : Line) :
  c ≠ c' → readCollectionFile (appendFile st c l) c' = readCollectionFile st c'.
Proof.
  intros Hne. unfold readCollectionFile, appendFile, writeFile; simpl.
  by rewrite lookup_insert_ne.
Qed.

Lemma tagged_appendFile (st : Store) (c c' : string) (l : Line) :
  tagged (appendFile st c l) c' = tagged st c'.
Proof. done. Qed.

Lemma isValidAidb_appendFile (st : Store) (c : string) (l : Line) :
  isValidAidb (appendFile st c l) = isValidAidb st.
Proof. done. Qed.

Lemma filter_all {A} (P : A → Prop) `{∀ x, Decision (P x)} (l : list A) :
  (∀ x, x ∈ l → P x) → filter P l = l.
Proof.
  induction l as [|x l IH]; intros Hall; [done|].
  rewrite filter_cons, decide_True by (apply Hall; by left).
  f_equal. apply IH. intros y Hy. apply Hall. by right.
Qed.

Lemma filter_none {A} (P : A → Prop) `{∀ x, Decision (P x)} (l : list A) :
  (∀ x, x ∈ l → ¬ P x) → filter P l = [].
Proof.
  induction l as [|x l IH]; intros Hall; [done|].
  rewrite filter_cons, decide_False by (apply Hall; by left).
  apply IH. intros y Hy. apply Hall. by right.
Qed.

Lemma or_str_Some (s : string) : or_str (Some s) "" = s.
Proof. unfold or_str. by case_decide. Qed.

Lemma code_matches_truthy (o : option string) :
  code_matches (default "" o) = true → truthy o = true.
Proof.
  unfold code_matches. intros Hm. apply andb_true_iff in Hm as [Hne _].
  apply bool_decide_eq_true in Hne. apply truthy_Some.
  destruct o as [s|]; [eauto|done].
Qed.

(** ** Creating a category *)

(** C9 (as stated, refuted).  The id [cat_old] exists in the categories
    collection as a tagged line of the shared file, and [listCategories]
    returns it; [createCategory] with the code [old] does not fail with a
    conflict but answers 201. *)
Lemma createCategory_ignores_shared_file :
  cv_id <$> categories_of (listCategories legacy_store) = ["cat_old"]
  ∧ ∃ created st',
      createCategory legacy_store old_category_again 1000
      = ((201, BCategory created), st')
      ∧ cv_id created = "cat_old".
Proof.
  split; [by vm_compute|]. do 2 eexists. split; by vm_compute.
Qed.


(** C9 (amended), in a database directory that [isValidAidb] accepts.
    [createCategory] answers 400 with one of its three validation messages
    when [code] is absent or does not match [[a-z0-9_-]+].  With name,
    description and icon supplied and a matching code, it answers 400 with
    the message that the id already exists when [cat_<code>] is the id of a
    document of the dedicated file [categories/documents.jsonl]; otherwise
    it answers 201, and [listCategories] on the store it leaves returns
    exactly one category of id [cat_<code>], whose name, description and
    icon are the supplied ones and whose slug is the supplied slug, or the
    code when no slug was supplied. *)
Theorem createCategory_then_listCategories (st : Store) (req : CategoryRequest)
    (now : Z) :
  isValidAidb st = true →
  let code := default "" (cat_code req) in
  let categoryId := "cat_" +:+ code in
  let supplied :=
    truthy (cat_name req) && truthy (cat_description req)
    && truthy (cat_icon req) in
  (truthy (cat_code req) = false ∨ code_matches code = false →
   ∃ msg, createCategory st req now = ((400, BError msg), st)
          ∧ msg ∈ validation_messages)
  ∧ (supplied = true → code_matches code = true →
     categoryId ∈ mn_id <$> readCollectionFile st "categories" →
     createCategory st req now
     = ((400, BError ("Category with ID '" +:+ categoryId +:+ "' already exists")),
        st))
  ∧ (supplied = true → code_matches code = true →
     categoryId ∉ mn_id <$> readCollectionFile st "categories" →
     ∃ st' n,
       createCategory st req now = ((201, BCategory (created_view req None)), st')
       ∧ status_of (listCategories st') = 200
       ∧ filter (λ c, cv_id c = categoryId) (categories_of (listCategories st'))
         = [created_view req (Some n)]).
Proof.
  intros Hvalid code categoryId supplied.
  split; [|split].
  - intros Hcode. unfold createCategory. rewrite Hvalid. simpl.
    destruct (negb (truthy (cat_name req)) || negb (truthy (cat_description req))
              || negb (truthy (cat_icon req))).
    { eexists. split; [done|]. apply list_elem_of_here. }
    destruct (truthy (cat_code req)) eqn:Htruthy; simpl.
    2:{ eexists. split; [done|].
        apply list_elem_of_further, list_elem_of_here. }
    destruct Hcode as [?|Hmatch]; [done|]. fold code. rewrite Hmatch. simpl.
    eexists. split; [done|].
    do 2 apply list_elem_of_further. apply list_elem_of_here.
  - intros Hsupplied Hmatch Hexists.
    apply andb_true_iff in Hsupplied as [Hsupplied Hicon].
    apply andb_true_iff in Hsupplied as [Hname Hdescription].
    unfold createCategory.
    rewrite Hvalid, Hname, Hdescription, Hicon,
      (code_matches_truthy _ Hmatch). simpl.
    fold code. rewrite Hmatch. simpl. fold categoryId.
    assert (some (λ c, mn_id c = categoryId)
                 (readCollectionFile st "categories") = true) as ->; [|done].
    apply some_true. apply list_elem_of_fmap in Hexists as (c & -> & Hc). eauto.
  - intros Hsupplied Hmatch Hfresh.
    apply andb_true_iff in Hsupplied as [Hsupplied Hicon].
    apply andb_true_iff in Hsupplied as [Hname Hdescription].
    unfold createCategory.
    rewrite Hvalid, Hname, Hdescription, Hicon,
      (code_matches_truthy _ Hmatch). simpl.
    fold code. rewrite Hmatch. simpl. fold categoryId.
    assert (some (λ c, mn_id c = categoryId)
                 (readCollectionFile st "categories") = false) as ->.
    { apply some_false. intros c Hc Hid. apply Hfresh.
      apply list_elem_of_fmap. eauto. }
    apply truthy_Some in Hname as (name & Hname & _).
    apply truthy_Some in Hdescription as (description & Hdescription & _).
    apply truthy_Some in Hicon as (icon & Hicon & _).
    unfold created_view. rewrite Hname, Hdescription, Hicon. simpl.
    fold code. fold categoryId.
    set (newCategory := {| mn_id := categoryId |}).
    exists (appendFile st "categories" (Json newCategory)).
    unfold listCategories. rewrite isValidAidb_appendFile, Hvalid. simpl.
    set (counts := foldl _ ∅ (getDocumentsByCollection _ "news")).
    exists (or_num (counts !! categoryId) 0).
    split; [done|]. split; [done|].
    rewrite filter_fmap. simpl.
    rewrite getDocumentsByCollection_merge.
    rewrite readCollectionFile_appendFile, tagged_appendFile.
    rewrite !filter_app, !fmap_app.
    rewrite (filter_none _ (readCollectionFile st "categories")).
    2:{ intros c Hc Hid. apply Hfresh. apply list_elem_of_fmap. eauto. }
    rewrite (filter_none _ (filter _ (tagged st "categories"))).
    2:{ intros c Hc Hid. apply list_elem_of_filter in Hc as [Hnot _].
        apply Hnot. rewrite elem_of_app. right.
        rewrite Hid. simpl. apply list_elem_of_here. }
    rewrite filter_cons, decide_True by done.
    simpl. unfold category_view.
    cbn [mn_metadata mn_id md_name md_description md_icon md_slug newCategory].
    by rewrite !or_str_Some.
Qed.

Lemma createCategory_then_listCategories_witness :
  let req :=
    {| cat_name := Some "Tech"; cat_description := Some "Technology";
       cat_icon := Some "T"; cat_slug := None; cat_code := Some "tech" |} in
  ∃ st' n,
    createCategory empty_store req 1000
    = ((201, BCategory (created_view req None)), st')
    ∧ status_of (listCategories st') = 200
    ∧ filter (λ c, cv_id c = "cat_tech") (categories_of (listCategories st'))
      = [created_view req (Some n)].
Proof.
  intros req.
  destruct (createCategory_then_listCategories empty_store req 1000)
    as (_ & _ & Hcreated); [reflexivity|].
  apply Hcreated; [reflexivity|reflexivity|].
  assert (mn_id <$> readCollectionFile empty_store "categories" = [])
    as -> by (by vm_compute).
  apply not_elem_of_nil.
Defined.

(** ** Documents that exist only in the shared file *)

Lemma tagged_valid (st : Store) (collection : string) (doc : MemoryNode) :
  doc ∈ tagged st collection → isValidAidb st = true.
Proof.
  unfold tagged. intros Hdoc. apply isValidAidb_shared_file.
  destruct (documents_jsonl st); [eauto|].
  simpl in Hdoc. by apply elem_of_nil in Hdoc.
Qed.

Lemma list_find_absent (l : list MemoryNode) (id : string) :
  id ∉ mn_id <$> l → list_find (λ d, mn_id d = id) l = None.
Proof.
  intros Hid. apply list_find_None, Forall_forall. intros d Hd Heq.
  apply Hid, list_elem_of_fmap. eauto.
Qed.

Lemma filter_absent (l : list MemoryNode) (id : string) :
  id ∉ mn_id <$> l → filter (λ d, mn_id d ≠ id) l = l.
Proof.
  intros Hid. apply filter_all. intros d Hd Heq.
  apply Hid, list_elem_of_fmap. eauto.
Qed.

(** C10 (as stated, refuted).  The category [cat_old] and the user
    [user_old] exist only as tagged lines of the shared file, and an
    article references the category.  [deleteCategory] answers with the
    restrict message, not with "not found"; [updateUser] with a role that
    is not one of the four answers with the role message, not with
    "not found". *)
Lemma legacy_only_other_errors :
  cv_id <$> categories_of (listCategories legacy_referenced) = ["cat_old"]
  ∧ readCollectionFile legacy_referenced "categories" = []
  ∧ deleteCategory legacy_referenced "cat_old"
    = ((400, BError "Cannot delete category 'cat_old': it is referenced by news articles (restrict constraint)"),
       legacy_referenced)
  ∧ uv_id <$> users_of (listUsers legacy_referenced) = ["user_old"]
  ∧ readCollectionFile legacy_referenced "users" = []
  ∧ updateUser legacy_referenced "user_old"
      {| ur_name := None; ur_email := None; ur_avatar := None;
         ur_role := Some "owner" |} 5000
    = ((400, BError "Invalid role. Must be one of: admin, editor, reader, guest"),
       legacy_referenced).
Proof. by vm_compute. Qed.

(** C10 (amended).  Let a document exist only in the shared file, tagged
    for its collection.  If it is a category: [listCategories] returns it,
    [updateCategory] answers 404, and [deleteCategory] answers 404 when no
    article of the merged news collection references it and 400 with the
    restrict message when one does.  If it is a user: [listUsers] returns
    it, [deleteUser] answers 404, and [updateUser] answers 404 when the
    request has no role or one of the four roles, and 400 with the role
    message otherwise.  Each of these calls leaves the store as it was. *)
Theorem legacy_only_documents (st : Store) (doc : MemoryNode)
    (creq : CategoryRequest) (ureq : UserRequest) (now : Z) :
  let id := mn_id doc in
  (doc ∈ tagged st "categories" →
   id ∉ mn_id <$> readCollectionFile st "categories" →
   status_of (listCategories st) = 200
   ∧ id ∈ cv_id <$> categories_of (listCategories st)
   ∧ updateCategory st id creq now = ((404, BError "Category not found"), st)
   ∧ snd (deleteCategory st id) = st
   ∧ ((∀ n, n ∈ getDocumentsByCollection st "news" →
            md_categoryId (mn_metadata n) ≠ Some id) →
      fst (deleteCategory st id) = (404, BError "Category not found"))
   ∧ ((∃ n, n ∈ getDocumentsByCollection st "news"
            ∧ md_categoryId (mn_metadata n) = Some id) →
      fst (deleteCategory st id)
      = (400, BError ("Cannot delete category '" +:+ id +:+
                      "': it is referenced by news articles (restrict constraint)"))))
  ∧ (doc ∈ tagged st "users" →
     id ∉ mn_id <$> readCollectionFile st "users" →
     status_of (listUsers st) = 200
     ∧ id ∈ uv_id <$> users_of (listUsers st)
     ∧ deleteUser st id = ((404, BError "User not found"), st)
     ∧ snd (updateUser st id ureq now) = st
     ∧ (truthy (ur_role ureq) = false ∨ default "" (ur_role ureq) ∈ validRoles →
        fst (updateUser st id ureq now) = (404, BError "User not found"))
     ∧ (truthy (ur_role ureq) = true → default "" (ur_role ureq) ∉ validRoles →
        fst (updateUser st id ureq now)
        = (400, BError "Invalid role. Must be one of: admin, editor, reader, guest"))).
Proof.
  intros id. split.
  - intros Hdoc Hid.
    pose proof (tagged_valid _ _ _ Hdoc) as Hvalid.
    assert (updateCategory st id creq now
            = ((404, BError "Category not found"), st)) as Hupdate.
    { unfold updateCategory. rewrite Hvalid. simpl.
      by rewrite (list_find_absent _ _ Hid). }
    unfold listCategories, deleteCategory. rewrite Hvalid. simpl.
    rewrite (filter_absent _ _ Hid).
    split; [done|]. split.
    { rewrite <- list_fmap_compose. apply list_elem_of_fmap.
      exists doc. split; [done|]. by apply legacy_only_in_merge. }
    split; [done|].
    destruct (some _ (getDocumentsByCollection st "news")) eqn:Hrefs.
    + split; [done|]. split; [|done].
      intros Hnone. apply some_true in Hrefs as (n & Hn & Hcat).
      by destruct (Hnone n Hn).
    + rewrite decide_True by done. split; [done|]. split; [done|].
      intros (n & Hn & Hcat). exfalso.
      by apply (proj1 (some_false _ _) Hrefs n Hn).
  - intros Hdoc Hid.
    pose proof (tagged_valid _ _ _ Hdoc) as Hvalid.
    unfold listUsers, deleteUser, updateUser. rewrite Hvalid. simpl.
    rewrite (filter_absent _ _ Hid), (list_find_absent _ _ Hid).
    rewrite decide_True by done.
    split; [done|]. split.
    { rewrite <- list_fmap_compose. apply list_elem_of_fmap.
      exists doc. split; [done|]. by apply legacy_only_in_merge. }
    split; [done|].
    destruct (truthy (ur_role ureq)) eqn:Hrole; simpl.
    + destruct (bool_decide (default "" (ur_role ureq) ∈ validRoles)) eqn:Hin;
        simpl.
      * apply bool_decide_eq_true in Hin. split; [done|]. split; [done|].
        by intros _ Hnot.
      * apply bool_decide_eq_false in Hin. split; [done|]. split; [|done].
        by intros [?|?].
    + split; [done|]. split; [done|]. by intros ?.
Qed.

Lemma legacy_only_documents_witness :
  (updateCategory legacy_store "cat_old" old_category_again 5000
   = ((404, BError "Category not found"), legacy_store)
   ∧ deleteCategory legacy_store "cat_old"
     = ((404, BError "Category not found"), legacy_store)
   ∧ "cat_old" ∈ cv_id <$> categories_of (listCategories legacy_store))
  ∧ (deleteUser legacy_store "user_old"
     = ((404, BError "User not found"), legacy_store)
     ∧ updateUser legacy_store "user_old"
         {| ur_name := Some "Old"; ur_email := None; ur_avatar := None;
            ur_role := Some "reader" |} 5000
       = ((404, BError "User not found"), legacy_store)
     ∧ "user_old" ∈ uv_id <$> users_of (listUsers legacy_store)).
Proof.
  set (ureq := {| ur_name := Some "Old"; ur_email := None; ur_avatar := None;
                  ur_role := Some "reader" |}).
  split.
  - destruct (legacy_only_documents legacy_store
                (tagged_doc "cat_old" "categories" 10)
                old_category_again ureq 5000)
      as [(_ & Hlisted & Hupdate & Hstore & Hdelete & _) _].
    + apply list_elem_of_here.
    + apply not_elem_of_nil.
    + split; [exact Hupdate|]. split; [|exact Hlisted].
      apply injective_projections; [|exact Hstore].
      apply Hdelete. intros n Hn. by apply elem_of_nil in Hn.
  - destruct (legacy_only_documents legacy_store
                (tagged_doc "user_old" "users" 20)
                old_category_again ureq 5000)
      as [_ (_ & Hlisted & Hdelete & Hstore & Hupdate & _)].
    + apply list_elem_of_here.
    + apply not_elem_of_nil.
    + split; [exact Hdelete|]. split; [|exact Hlisted].
      apply injective_projections; [|exact Hstore].
      apply Hupdate. right.
      do 2 apply list_elem_of_further. apply list_elem_of_here.
Defined.

(** ** What the write routes leave untouched *)

(** [createCategory], [createUser] and [createArticle] never write the
    shared file. *)
Lemma create_routes_shared_file (st : Store) (creq : CategoryRequest)
    (ureq : UserRequest) (areq : ArticleRequest) (now_id now : Z)
    (uuid : string) :
  documents_jsonl (snd (createCategory st creq now)) = documents_jsonl st
  ∧ documents_jsonl (snd (createUser st ureq now_id now)) = documents_jsonl st
  ∧ documents_jsonl (snd (createArticle st areq now uuid)) = documents_jsonl st.
Proof.
  unfold createCategory, createUser, createArticle.
  repeat split;
    repeat match goal with
           | |- context [if ?b then _ else _] => destruct b
           end; done.
Qed.

(** [createComment] never writes a per-collection file. *)
Lemma createComment_collection_files (st : Store) (req : CommentRequest)
    (now : Z) (uuid : string) :
  collection_files (snd (createComment st req now uuid)) = collection_files st.
Proof.
  unfold createComment.
  repeat match goal with
         | |- context [if ?b then _ else _] => destruct b
         end; done.
Qed.

(** A successful [createComment] appends one line to the shared file. *)
Lemma createComment_shared_file (st : Store) (req : CommentRequest)
    (now : Z) (uuid : string) :
  status_of (fst (createComment st req now uuid)) = 201 →
  ∃ doc,
    documents_jsonl (snd (createComment st req now uuid))
    = Some (default [] (documents_jsonl st) ++ [Json doc])
    ∧ mn_id doc = "comment_" +:+ uuid
    ∧ md_collection (mn_metadata doc) = Some "comments".
Proof.
  unfold createComment.
  repeat match goal with
         | |- context [if ?b then _ else _] => destruct b
         end; simpl; try done; intros _; eexists; split; done.
Qed.

(** [deleteArticle] never writes the shared file. *)
Lemma deleteArticle_shared_file (st : Store) (id : string) :
  documents_jsonl (snd (deleteArticle st id)) = documents_jsonl st.
Proof.
  unfold deleteArticle.
  destruct (negb (isValidAidb st)); [done|].
  destruct (collection_files st !! "news"); [|done].
  repeat case_decide; done.
Qed.

(** [deleteUser] writes no file but [users/documents.jsonl]. *)
Lemma deleteUser_other_files (st : Store) (id collection : string) :
  collection ≠ "users" →
  documents_jsonl (snd (deleteUser st id)) = documents_jsonl st
  ∧ collection_files (snd (deleteUser st id)) !! collection
    = collection_files st !! collection.
Proof.
  intros Hne. unfold deleteUser.
  destruct (negb (isValidAidb st)); [done|].
  case_decide; [done|]. simpl. by rewrite lookup_insert_ne.
Qed.

(** ** The order of the flat comment listing *)

(** The comments that the current [listComments] returns are the populated
    comments of the article in ascending order of [created_at], comments
    with equal [created_at] in the order of the merged collection. *)
Lemma listComments_order (st : Store) (newsId : option string) :
  isValidAidb st = true →
  let selected :=
    filter (λ c, md_newsId (mn_metadata c) = newsId)
           (getDocumentsByCollection st "comments") in
  let userMap := createLookupMap (getDocumentsByCollection st "users") in
  let populate :=
    λ doc, comment_view (lookup_ref userMap (md_authorId (mn_metadata doc))) "" doc in
  let returned := comments_of (listComments st newsId) in
  status_of (listComments st newsId) = 200
  ∧ returned ≡ₚ populate <$> selected
  ∧ StronglySorted (λ a b, cm_created_at a ≤ cm_created_at b) returned
  ∧ ∀ t, filter (λ c, cm_created_at c = t) returned
         = populate <$> filter (λ c, mn_created_at c = t) selected.
Proof.
  intros Hvalid selected userMap populate returned.
  assert (returned = populate <$> Array_sort by_created_at_asc selected) as ->.
  { unfold returned, listComments. by rewrite Hvalid. }
  assert (∀ a b, by_created_at_asc a b ≤ 0 ↔ mn_created_at a ≤ mn_created_at b)
    as Hcmp by (intros a b; unfold by_created_at_asc; lia).
  split; [unfold listComments; by rewrite Hvalid|].
  split; [|split].
  - by rewrite Array_sort_Permutation.
  - eapply StronglySorted_fmap; [|by apply (Array_sort_sorted mn_created_at)].
    by intros a b.
  - intros t. rewrite filter_fmap. simpl.
    by rewrite (Array_sort_stable mn_created_at).
Qed.

(** On the three comments of the ordering example, stored in the file of
    the comments collection, the current [listComments] returns the flat
    sequence [c2], [c1], [c3]. *)
Lemma listComments_is_flat :
  let st := writeCollectionFile empty_store "comments" [c1; c2; c3] in
  (λ c, (cm_id c, cm_parentId c)) <$> comments_of (listComments st (Some "a1"))
  = [("c2", None); ("c1", None); ("c3", Some "c1")].
Proof. by vm_compute. Qed.

(** * Further properties of the routes *)

(** ** Looking documents up *)

Lemma find_cons {A} (P : A → Prop) `{∀ x, Decision (P x)} (x : A) (l : list A) :
  find P (x :: l) = if decide (P x) then Some x else find P l.
Proof.
  unfold find. cbn [list_find]. case_decide; [done|].
  by destruct (list_find P l) as [[i y]|].
Qed.

Lemma find_app {A} (P : A → Prop) `{∀ x, Decision (P x)} (l k : list A) :
  find P (l ++ k)
  = match find P l with Some x => Some x | None => find P k end.
Proof.
  induction l as [|x l IH]; [done|].
  rewrite <- app_comm_cons, !find_cons. by case_decide.
Qed.

Lemma find_filter {A} (P Q : A → Prop) `{∀ x, Decision (P x)}
    `{∀ x, Decision (Q x)} (l : list A) :
  (∀ x, P x → Q x) → find P (filter Q l) = find P l.
Proof.
  intros HPQ. induction l as [|x l IH]; [done|].
  rewrite filter_cons, (find_cons P x l).
  destruct (decide (Q x)) as [HQ|HQ].
  - rewrite find_cons. by case_decide.
  - rewrite decide_False; [done|]. intros HP. by apply HQ, HPQ.
Qed.

Lemma find_None_ids (l : list MemoryNode) (i : string) :
  find (λ d, mn_id d = i) l = None ↔ i ∉ mn_id <$> l.
Proof.
  unfold find. rewrite fmap_None, list_find_None, Forall_forall. split.
  - intros Hall Hin. apply list_elem_of_fmap in Hin as (d & -> & Hd).
    by apply (Hall d).
  - intros Hnot d Hd Hid. apply Hnot, list_elem_of_fmap. eauto.
Qed.

Lemma find_Some_ids (l : list MemoryNode) (i : string) (d : MemoryNode) :
  find (λ d, mn_id d = i) l = Some d → d ∈ l ∧ mn_id d = i.
Proof.
  unfold find. intros Hfind.
  apply fmap_Some in Hfind as ([j d'] & Hfind & ->).
  apply list_find_Some in Hfind as (Hj & Hid & _).
  split; [by eapply list_elem_of_lookup_2|done].
Qed.

(** X1.  An id is returned by the collection reader exactly when it occurs
    in the dedicated file or among the tagged documents of the shared
    file, and the first returned document of an id is the first one of the
    dedicated file when the id occurs there, and the first tagged one of
    the shared file otherwise. *)
Theorem merged_reader_lookup (st : Store) (collection i : string) :
  let dedicated := readCollectionFile st collection in
  let shared := tagged st collection in
  (i ∈ mn_id <$> getDocumentsByCollection st collection
   ↔ i ∈ mn_id <$> dedicated ∨ i ∈ mn_id <$> shared)
  ∧ find (λ d, mn_id d = i) (getDocumentsByCollection st collection)
    = match find (λ d, mn_id d = i) dedicated with
      | Some d => Some d
      | None => find (λ d, mn_id d = i) shared
      end.
Proof.
  intros dedicated shared. rewrite getDocumentsByCollection_merge.
  fold dedicated shared. split.
  - rewrite fmap_app, elem_of_app. split.
    + intros [?|Hin]; [by left|]. right.
      apply list_elem_of_fmap in Hin as (d & -> & Hd).
      apply list_elem_of_filter in Hd as [_ Hd].
      apply list_elem_of_fmap. eauto.
    + intros [?|Hin]; [by left|].
      destruct (decide (i ∈ mn_id <$> dedicated)) as [?|Hnot]; [by left|].
      right. apply list_elem_of_fmap in Hin as (d & -> & Hd).
      apply list_elem_of_fmap. exists d. split; [done|].
      by apply list_elem_of_filter.
  - rewrite find_app.
    destruct (find (λ d, mn_id d = i) dedicated) eqn:Hded; [done|].
    apply find_None_ids in Hded.
    apply find_filter. by intros d ->.
Qed.

(** ** Rewriting a collection file *)

Lemma readJsonlFile_stringify (docs : list MemoryNode) :
  readJsonlFile (Some (stringify_all docs)) = docs.
Proof.
  unfold stringify_all. simpl. induction docs as [|d docs IH]; [done|].
  rewrite fmap_cons. cbn [omap list_omap parse_line]. by rewrite IH.
Qed.

Lemma getDocumentsByCollection_writeFile_ne (st : Store) (c c' : string)
    (content : list Line) :
  c' ≠ c →
  getDocumentsByCollection (writeFile st c content) c'
  = getDocumentsByCollection st c'.
Proof.
  intros Hne. unfold getDocumentsByCollection, writeFile; simpl.
  by rewrite lookup_insert_ne.
Qed.

(** X2.  After [writeCollectionFile] the dedicated file reads back as
    exactly the documents written, in their order; the merged collection
    is those documents followed by the tagged documents of the shared file
    that none of them shadows; the shared file and the merged reading of
    every other collection are as before. *)
Theorem writeCollectionFile_then_read (st : Store) (collection other : string)
    (documents : list MemoryNode) :
  let st' := writeCollectionFile st collection documents in
  readCollectionFile st' collection = documents
  ∧ getDocumentsByCollection st' collection
    = documents
      ++ filter (λ doc, mn_id doc ∉ mn_id <$> documents) (tagged st collection)
  ∧ documents_jsonl st' = documents_jsonl st
  ∧ (other ≠ collection →
     getDocumentsByCollection st' other = getDocumentsByCollection st other).
Proof.
  intros st'.
  assert (readCollectionFile st' collection = documents) as Hread.
  { unfold st', readCollectionFile, writeCollectionFile, writeFile; simpl.
    rewrite lookup_insert_eq. apply readJsonlFile_stringify. }
  split; [done|]. split; [|split; [done|]].
  - by rewrite getDocumentsByCollection_merge, Hread.
  - apply getDocumentsByCollection_writeFile_ne.
Qed.

Lemma writeCollectionFile_then_read_witness :
  mn_id <$> getDocumentsByCollection
              (writeCollectionFile split_news "news" [tagged_doc "n3" "news" 60])
              "news"
  = ["n3"; "n2"]
  ∧ getDocumentsByCollection
      (writeCollectionFile split_news "news" [tagged_doc "n3" "news" 60])
      "comments"
    = getDocumentsByCollection split_news "comments".
Proof.
  destruct (writeCollectionFile_then_read split_news "news" "comments"
              [tagged_doc "n3" "news" 60]) as (_ & Hmerged & _ & Hother).
  split.
  - rewrite Hmerged. by vm_compute.
  - apply Hother. discriminate.
Defined.

(** ** The lookup maps *)

Lemma createLookupMap_fold (items : list MemoryNode) :
  ∀ (m : gmap string MemoryNode) (k : string),
    foldl (λ m item, <[mn_id item := item]> m) m items !! k
    = match last (filter (λ d, mn_id d = k) items) with
      | Some d => Some d
      | None => m !! k
      end.
Proof.
  induction items as [|d items IH]; intros m k; simpl; [done|].
  rewrite IH, filter_cons.
  destruct (decide (mn_id d = k)) as [<-|Hne].
  - rewrite last_cons.
    destruct (last (filter (λ d', mn_id d' = mn_id d) items)); [done|].
    by rewrite lookup_insert_eq.
  - destruct (last (filter (λ d', mn_id d' = k) items)); [done|].
    by rewrite lookup_insert_ne.
Qed.

Lemma createLookupMap_last (items : list MemoryNode) (k : string) :
  createLookupMap items !! k = last (filter (λ d, mn_id d = k) items).
Proof.
  unfold createLookupMap. rewrite createLookupMap_fold, lookup_empty.
  by destruct (last _).
Qed.

Lemma createLookupMap_is_Some (items : list MemoryNode) (k : string) :
  is_Some (createLookupMap items !! k) ↔ k ∈ mn_id <$> items.
Proof.
  rewrite createLookupMap_last. split.
  - intros [d Hd]. apply last_Some_elem_of, list_elem_of_filter in Hd as [<- Hd].
    apply list_elem_of_fmap. eauto.
  - intros Hin. apply list_elem_of_fmap in Hin as (d & -> & Hd).
    destruct (last (filter (λ d', mn_id d' = mn_id d) items)) eqn:Hnone;
      [eauto|].
    apply last_None in Hnone.
    assert (d ∈ filter (λ d', mn_id d' = mn_id d) items) as Hin
      by (by apply list_elem_of_filter).
    rewrite Hnone in Hin. by apply elem_of_nil in Hin.
Qed.

(** X3.  [createLookupMap] maps an id to the last document of that id, and
    holds an id exactly when some document has it; on a list without
    repeated ids it agrees with a search from the front. *)
Theorem createLookupMap_last_wins (items : list MemoryNode) (k : string) :
  createLookupMap items !! k = last (filter (λ d, mn_id d = k) items)
  ∧ (is_Some (createLookupMap items !! k) ↔ k ∈ mn_id <$> items)
  ∧ (NoDup (mn_id <$> items) →
     createLookupMap items !! k = find (λ d, mn_id d = k) items).
Proof.
  split; [apply createLookupMap_last|].
  split; [apply createLookupMap_is_Some|].
  rewrite createLookupMap_last. induction items as [|d items IH]; [done|].
    rewrite fmap_cons. intros Hnodup.
    apply NoDup_cons in Hnodup as [Hd Hnodup].
    rewrite filter_cons, find_cons.
    destruct (decide (mn_id d = k)) as [<-|Hne]; [|by apply IH].
    rewrite (filter_none _ items); [done|].
    intros d' Hd' Hid. apply Hd. rewrite <- Hid. apply list_elem_of_fmap. eauto.
Qed.

Lemma createLookupMap_last_wins_witness :
  createLookupMap [c1; c2; c3] !! "c2"
  = find (λ d, mn_id d = "c2") [c1; c2; c3]
  ∧ createLookupMap [c1; c2; c3] !! "c2" = Some c2
  ∧ createLookupMap [c1; c2; comment_doc "c1" "a2" None 300] !! "c1"
    = Some (comment_doc "c1" "a2" None 300)
  ∧ find (λ d, mn_id d = "c1") [c1; c2; comment_doc "c1" "a2" None 300]
    = Some c1.
Proof.
  assert (createLookupMap [c1; c2; c3] !! "c2"
          = find (λ d, mn_id d = "c2") [c1; c2; c3]) as Hfront.
  { apply (createLookupMap_last_wins [c1; c2; c3] "c2").
    apply (bool_decide_unpack _). by vm_compute. }
  split; [exact Hfront|]. split; [rewrite Hfront; by vm_compute|].
  split; [|by vm_compute].
  rewrite (proj1 (createLookupMap_last_wins
                    [c1; c2; comment_doc "c1" "a2" None 300] "c1")).
  by vm_compute.
Defined.

(** ** Population of references *)

Lemma lookup_ref_populated (targets : list MemoryNode) (ref : option string) :
  populated targets ref (mn_id <$> lookup_ref (createLookupMap targets) ref).
Proof.
  unfold lookup_ref, populated.
  destruct (truthy ref) eqn:Href.
  - apply truthy_Some in Href as (c & -> & Hc). simpl.
    pose proof (createLookupMap_last targets c) as Hlast.
    pose proof (createLookupMap_is_Some targets c) as Hsome.
    rewrite Hlast in Hsome |- *.
    destruct (last (filter (λ d, mn_id d = c) targets)) as [d|] eqn:Hd; simpl.
    + pose proof (last_Some_elem_of _ _ Hd) as Hin.
      apply list_elem_of_filter in Hin as [<- Hin].
      split; [done|]. split; [done|]. apply list_elem_of_fmap. eauto.
    + intros c' [= <-]. right. intros Hin. apply Hsome in Hin.
      by destruct Hin.
  - simpl. intros c ->. left.
    destruct (decide (c = "")) as [|Hne]; [done|].
    assert (truthy (Some c) = true) as Htrue by (apply truthy_Some; eauto).
    congruence.
Qed.

Lemma article_view_populated (categoryDocs userDocs : list MemoryNode)
    (doc : MemoryNode) :
  let a := article_view (createLookupMap categoryDocs) (createLookupMap userDocs) doc in
  populated categoryDocs (av_categoryId a) (cv_id <$> av_category a)
  ∧ populated userDocs (av_authorId a) (uv_id <$> av_author a).
Proof.
  simpl. rewrite <- !option_fmap_compose. split.
  - apply (lookup_ref_populated categoryDocs).
  - apply (lookup_ref_populated userDocs).
Qed.

(** X4.  [getArticle] answers 404 exactly for an id that the merged news
    collection does not hold.  Otherwise it answers 200 with the article of
    that id, and so does every entry of [listArticles]: the embedded
    category is a category of the merged collection whose id is the
    article's non-empty [categoryId], and it is null exactly when the
    [categoryId] is absent, empty or the id of no category; likewise for
    the author. *)
Theorem articles_are_populated (st : Store) (id : string) (q : ArticleQuery) :
  isValidAidb st = true →
  let categoryDocs := getDocumentsByCollection st "categories" in
  let userDocs := getDocumentsByCollection st "users" in
  let ok := λ a,
    populated categoryDocs (av_categoryId a) (cv_id <$> av_category a)
    ∧ populated userDocs (av_authorId a) (uv_id <$> av_author a) in
  (id ∉ mn_id <$> getDocumentsByCollection st "news" →
   getArticle st id = (404, BError "Article not found"))
  ∧ (id ∈ mn_id <$> getDocumentsByCollection st "news" →
     ∃ a, getArticle st id = (200, BArticle a) ∧ av_id a = id ∧ ok a)
  ∧ (∀ a, a ∈ articles_of (listArticles st q) → ok a).
Proof.
  intros Hvalid categoryDocs userDocs ok. split; [|split].
  - intros Hid. unfold getArticle. rewrite Hvalid. simpl.
    by rewrite (proj2 (find_None_ids _ _) Hid).
  - intros Hid. unfold getArticle. rewrite Hvalid. simpl.
    destruct (find (λ d, mn_id d = id) (getDocumentsByCollection st "news"))
      as [doc|] eqn:Hfind.
    + apply find_Some_ids in Hfind as [_ Hdoc].
      eexists. split; [done|]. split; [done|].
      apply article_view_populated.
    + by apply find_None_ids in Hfind.
  - intros a Ha. unfold listArticles in Ha. rewrite Hvalid in Ha. simpl in Ha.
    apply list_elem_of_fmap in Ha as (doc & -> & _).
    apply article_view_populated.
Qed.

Lemma articles_are_populated_witness :
  ∃ a, getArticle blog "news_a1b2c3d4" = (200, BArticle a)
       ∧ av_id a = "news_a1b2c3d4"
       ∧ populated (getDocumentsByCollection blog "categories")
                   (av_categoryId a) (cv_id <$> av_category a)
       ∧ populated (getDocumentsByCollection blog "users")
                   (av_authorId a) (uv_id <$> av_author a).
Proof.
  destruct (articles_are_populated blog "news_a1b2c3d4" no_filter)
    as (_ & Hfound & _); [reflexivity|].
  apply Hfound.
  assert (mn_id <$> getDocumentsByCollection blog "news" = ["news_a1b2c3d4"])
    as -> by (by vm_compute).
  apply list_elem_of_here.
Defined.

(** ** Article counts of the categories *)

Lemma or_num_zero (o : option Z) : or_num o 0 = default 0 o.
Proof. destruct o as [n|]; simpl; [|done]. by case_decide. Qed.

Lemma articleCountMap_fold (newsDocs : list MemoryNode) :
  ∀ (acc : gmap string Z) (k : string),
    default 0
      (foldl (λ acc news,
                let categoryId := md_categoryId (mn_metadata news) in
                if truthy categoryId
                then <[default "" categoryId :=
                         or_num (acc !! default "" categoryId) 0 + 1]> acc
                else acc) acc newsDocs !! k)
    = default 0 (acc !! k) + articles_of_category newsDocs k.
Proof.
  unfold articles_of_category.
  induction newsDocs as [|n newsDocs IH]; intros acc k; simpl.
  - lia.
  - rewrite IH, filter_cons. clear IH.
    destruct (truthy (md_categoryId (mn_metadata n))) eqn:Hcat.
    + apply truthy_Some in Hcat as (c & Hc & Hne). rewrite Hc. simpl.
      destruct (decide (c = k)) as [->|Hck].
      * rewrite lookup_insert_eq, or_num_zero, decide_True by done.
        rewrite length_cons, Nat2Z.inj_succ.
        set (a := default 0 (acc !! k)). simpl. lia.
      * rewrite lookup_insert_ne by done.
        rewrite decide_False; [done|]. by intros [[= ?] _].
    + rewrite decide_False; [done|]. intros [Hk Hne].
      assert (truthy (md_categoryId (mn_metadata n)) = true); [|congruence].
      apply truthy_Some. eauto.
Qed.

(** X5.  [listCategories] returns the categories of the merged collection
    in their order, each with the number of articles of the merged news
    collection whose [categoryId] is its id (and 0 for a category whose id
    is empty). *)
Theorem listCategories_articleCount (st : Store) :
  isValidAidb st = true →
  listCategories st
  = (200, BCategories
            ((λ doc, category_view doc
                       (Some (articles_of_category
                                (getDocumentsByCollection st "news") (mn_id doc))))
               <$> getDocumentsByCollection st "categories")).
Proof.
  intros Hvalid. unfold listCategories. rewrite Hvalid. simpl.
  do 2 f_equal. apply list_fmap_ext. intros _ doc _. do 2 f_equal.
  rewrite or_num_zero, articleCountMap_fold, lookup_empty. simpl. lia.
Qed.

Lemma listCategories_articleCount_witness :
  (λ c, (cv_id c, cv_articleCount c)) <$> categories_of (listCategories two_articles)
  = [("cat_tech", Some 2)].
Proof.
  rewrite (listCategories_articleCount two_articles); [|reflexivity].
  by vm_compute.
Defined.

(** ** News statistics *)

Lemma filter_two_lengths {A} (P Q : A → Prop) `{∀ x, Decision (P x)}
    `{∀ x, Decision (Q x)} (l : list A) :
  (∀ x, P x → Q x → False) →
  (length (filter P l) + length (filter Q l) ≤ length l)%nat
  ∧ ((length (filter P l) + length (filter Q l) = length l)%nat
     ↔ ∀ x, x ∈ l → P x ∨ Q x).
Proof.
  intros Hdisjoint. induction l as [|x l [IHle IHeq]].
  - split; [done|]. split; [|done]. intros _ x Hx. by apply elem_of_nil in Hx.
  - rewrite !filter_cons.
    pose proof (length_filter P l) as HlenP.
    pose proof (length_filter Q l) as HlenQ.
    destruct (decide (P x)) as [HP|HP], (decide (Q x)) as [HQ|HQ]; simpl.
    + by destruct (Hdisjoint x).
    + split; [lia|]. split.
      * intros Hlen y Hy. apply elem_of_cons in Hy as [->|Hy]; [by left|].
        apply IHeq; [lia|done].
      * intros Hall. f_equal. apply IHeq. intros y Hy. apply Hall. by right.
    + split; [lia|]. split.
      * intros Hlen y Hy. apply elem_of_cons in Hy as [->|Hy]; [by right|].
        apply IHeq; [lia|done].
      * intros Hall. rewrite Nat.add_succ_r. f_equal. apply IHeq.
        intros y Hy. apply Hall. by right.
    + split; [lia|]. split; [lia|].
      intros Hall. destruct (Hall x) as [?|?]; [by left|done|done].
Qed.

(** X6.  In the statistics the published and the draft articles together
    are at most the articles, and they are all of them exactly when every
    article of the merged news collection has the status [published] or
    [draft]: an article without a status is counted in neither. *)
Theorem getNewsStats_counts (st : Store) :
  isValidAidb st = true →
  ∃ stats,
    getNewsStats st = (200, SStats stats)
    ∧ articleCount stats = Z.of_nat (length (getDocumentsByCollection st "news"))
    ∧ 0 ≤ publishedCount stats ∧ 0 ≤ draftCount stats
    ∧ publishedCount stats + draftCount stats ≤ articleCount stats
    ∧ (publishedCount stats + draftCount stats = articleCount stats
       ↔ ∀ n, n ∈ getDocumentsByCollection st "news" →
              md_status (mn_metadata n) = Some "published"
              ∨ md_status (mn_metadata n) = Some "draft").
Proof.
  intros Hvalid. unfold getNewsStats. rewrite Hvalid. simpl.
  eexists. split; [done|]. simpl.
  destruct (filter_two_lengths
              (λ n, md_status (mn_metadata n) = Some "published")
              (λ n, md_status (mn_metadata n) = Some "draft")
              (getDocumentsByCollection st "news")) as [Hle Heq].
  { intros n Hp Hd. congruence. }
  split; [done|]. split; [lia|]. split; [lia|]. split; [lia|].
  rewrite <- Heq. lia.
Qed.

Lemma getNewsStats_counts_witness :
  ∃ stats,
    getNewsStats two_articles = (200, SStats stats)
    ∧ publishedCount stats + draftCount stats = articleCount stats.
Proof.
  destruct (getNewsStats_counts two_articles)
    as (stats & Hstats & _ & _ & _ & _ & Heq); [reflexivity|].
  exists stats. split; [done|]. apply Heq.
  assert (md_status ∘ mn_metadata <$> getDocumentsByCollection two_articles "news"
          = [Some "published"; Some "draft"]) as Hstatus by (by vm_compute).
  intros n Hn.
  assert (md_status (mn_metadata n)
          ∈ md_status ∘ mn_metadata <$> getDocumentsByCollection two_articles "news")
    as Hin by (apply list_elem_of_fmap; eauto).
  rewrite Hstatus in Hin.
  apply elem_of_cons in Hin as [->|Hin]; [by left|].
  apply list_elem_of_singleton in Hin as ->. by right.
Defined.

(** ** The article listing *)

Lemma filter_if {A} (b : bool) (P : A → Prop) `{∀ x, Decision (P x)}
    (l : list A) :
  (if b then filter P l else l) = filter (λ a, b = true → P a) l.
Proof.
  destruct b.
  - apply list_filter_iff. intros a. split; [done|]. intros HP. by apply HP.
  - symmetry. by apply filter_all.
Qed.

Lemma filter_articles_matches (q : ArticleQuery) (newsDocs : list MemoryNode) :
  filter_articles q newsDocs = filter (matches q) newsDocs.
Proof.
  unfold filter_articles.
  rewrite (filter_if (truthy (q_search q))), (filter_if (truthy (q_status q))),
    (filter_if (truthy (q_authorId q))), (filter_if (truthy (q_categoryId q))).
  rewrite !list_filter_filter. apply list_filter_iff. intros a.
  unfold matches. split.
  - intros [[[Hsearch Hstatus] Hauthor] Hcat]. repeat split; try done.
    intros Htruthy. by apply Is_true_true, Hsearch.
  - intros (Hcat & Hauthor & Hstatus & Hsearch). repeat split; try done.
    intros Htruthy. by apply Is_true_true, Hsearch.
Qed.

Lemma StronglySorted_sublist {A} (R : A → A → Prop) (l k : list A) :
  l `sublist_of` k → StronglySorted R k → StronglySorted R l.
Proof.
  induction 1 as [|x l k Hsub IH|x l k Hsub IH]; intros Hsorted; [done| |].
  - apply StronglySorted_inv in Hsorted as [Hk Hx].
    constructor; [by apply IH|].
    apply Forall_forall. intros y Hy.
    apply (proj1 (Forall_forall _ _) Hx).
    by eapply elem_of_sublist.
  - apply StronglySorted_inv in Hsorted as [Hk _]. by apply IH.
Qed.

Lemma Array_slice_sublist {A} (l : list A) (start stop : Z) :
  Array_slice l start stop `sublist_of` l.
Proof.
  unfold Array_slice. etransitivity; [apply sublist_take|apply sublist_drop].
Qed.

(** A slice with bounds that are not negative is the page that starts at
    [offset] and has at most [limit] elements. *)
Lemma Array_slice_page {A} (l : list A) (offset limit : Z) :
  0 ≤ offset → 0 ≤ limit →
  Array_slice l offset (offset + limit)
  = take (Z.to_nat limit) (drop (Z.to_nat offset) l).
Proof.
  intros Hoffset Hlimit. unfold Array_slice, slice_index.
  rewrite !decide_False by lia.
  destruct (decide (Z.of_nat (length l) ≤ offset)) as [Hout|Hin].
  - rewrite !drop_ge by lia. by rewrite !take_nil.
  - rewrite (Z.min_l offset) by lia.
    destruct (decide (offset + limit ≤ Z.of_nat (length l))) as [Hfit|Hover].
    + rewrite Z.min_l by lia. f_equal. lia.
    + rewrite Z.min_r by lia.
      rewrite !take_ge; [done| |]; rewrite length_drop; lia.
Qed.

Lemma listArticles_docs (st : Store) (q : ArticleQuery) :
  isValidAidb st = true →
  ∃ docs,
    articles_of (listArticles st q)
    = article_view (createLookupMap (getDocumentsByCollection st "categories"))
                   (createLookupMap (getDocumentsByCollection st "users"))
        <$> docs
    ∧ ∀ doc, doc ∈ docs →
             doc ∈ getDocumentsByCollection st "news" ∧ matches q doc.
Proof.
  intros Hvalid. unfold listArticles. rewrite Hvalid. simpl.
  eexists. split; [reflexivity|]. intros doc Hdoc.
  eapply elem_of_sublist in Hdoc; [|apply Array_slice_sublist].
  unfold sorted_articles in Hdoc.
  rewrite Array_sort_Permutation, filter_articles_matches in Hdoc.
  apply list_elem_of_filter in Hdoc. tauto.
Qed.

(** X7.  [listArticles] selects the articles of the merged news collection
    that pass every filter of the query, orders them by [publishedAt || 0]
    descending, articles with the same key in the order of the merged
    collection, reports their number as [total] whatever the page, and
    returns the populated page: for an offset and a limit that are not
    negative, at most [limit] articles starting at position [offset] of
    that order, where an absent or zero limit counts as 100. *)
Theorem listArticles_page (st : Store) (q : ArticleQuery) :
  isValidAidb st = true →
  let newsDocs := getDocumentsByCollection st "news" in
  let view :=
    article_view (createLookupMap (getDocumentsByCollection st "categories"))
                 (createLookupMap (getDocumentsByCollection st "users")) in
  let limit := or_num (q_limit q) 100 in
  let offset := or_num (q_offset q) 0 in
  ∃ ordered page,
    listArticles st q
    = (200, BArticles page (Z.of_nat (length (filter (matches q) newsDocs))))
    ∧ ordered ≡ₚ filter (matches q) newsDocs
    ∧ StronglySorted (λ a b, published_or_zero b ≤ published_or_zero a) ordered
    ∧ (∀ t, filter (λ a, published_or_zero a = t) ordered
            = filter (λ a, published_or_zero a = t) (filter (matches q) newsDocs))
    ∧ (∃ docs, page = view <$> docs ∧ docs `sublist_of` ordered)
    ∧ (0 ≤ offset → 0 ≤ limit →
       page = view <$> take (Z.to_nat limit) (drop (Z.to_nat offset) ordered)).
Proof.
  intros Hvalid newsDocs view limit offset.
  exists (sorted_articles q newsDocs).
  assert (∀ a b, by_publishedAt_desc a b ≤ 0
                 ↔ - published_or_zero a ≤ - published_or_zero b) as Hcmp.
  { intros a b. unfold by_publishedAt_desc, published_or_zero. lia. }
  eexists. split; [|split; [|split; [|split; [|split]]]].
  - unfold listArticles. rewrite Hvalid. simpl. fold newsDocs.
    do 2 f_equal. unfold sorted_articles.
    by rewrite Array_sort_Permutation, filter_articles_matches.
  - unfold sorted_articles.
    by rewrite Array_sort_Permutation, filter_articles_matches.
  - eapply StronglySorted_weaken;
      [|apply (Array_sort_sorted (λ a, - published_or_zero a) by_publishedAt_desc Hcmp)].
    intros a b; simpl. lia.
  - intros t. unfold sorted_articles.
    rewrite <- filter_articles_matches.
    pose proof (Array_sort_stable (λ a, - published_or_zero a)
                  by_publishedAt_desc Hcmp (- t) (filter_articles q newsDocs))
      as Hstable.
    erewrite (list_filter_iff _ (λ a, - published_or_zero a = - t));
      [|intros a; lia].
    rewrite Hstable. apply list_filter_iff. intros a. lia.
  - eexists. split; [done|]. apply Array_slice_sublist.
  - intros Hoffset Hlimit. fold offset limit. f_equal.
    by apply Array_slice_page.
Qed.

Lemma listArticles_page_witness :
  ∃ page,
    listArticles two_articles
      {| q_limit := Some 1; q_offset := Some 1; q_categoryId := Some "cat_tech";
         q_authorId := None; q_status := None; q_search := None |}
    = (200, BArticles page 2)
    ∧ av_id <$> page = ["news_aaaaaaaa"].
Proof.
  set (q := {| q_limit := Some 1; q_offset := Some 1;
               q_categoryId := Some "cat_tech"; q_authorId := None;
               q_status := None; q_search := None |}).
  destruct (listArticles_page two_articles q)
    as (ordered & page & Hresp & _ & _ & _ & _ & _); [reflexivity|].
  exists page. split.
  - rewrite Hresp. do 2 f_equal.
  - assert (articles_of (listArticles two_articles q) = page) as <-
      by (by rewrite Hresp).
    by vm_compute.
Defined.

(** X8.  Every article that [listArticles] returns carries the values the
    query filters on: the [categoryId], the [authorId] and the [status] of
    the query when they are given, and the search text, without regard to
    case, in its content or in its title. *)
Theorem listArticles_honours_filters (st : Store) (q : ArticleQuery)
    (a : ArticleView) :
  isValidAidb st = true →
  a ∈ articles_of (listArticles st q) →
  (truthy (q_categoryId q) = true → av_categoryId a = q_categoryId q)
  ∧ (truthy (q_authorId q) = true → av_authorId a = q_authorId q)
  ∧ (truthy (q_status q) = true → Some (av_status a) = q_status q)
  ∧ (truthy (q_search q) = true →
     includes (toLowerCase (av_content a)) (toLowerCase (default "" (q_search q)))
     || includes (toLowerCase (av_title a)) (toLowerCase (default "" (q_search q)))
     = true).
Proof.
  intros Hvalid Ha.
  destruct (listArticles_docs st q Hvalid) as (docs & Hresp & Hdocs).
  rewrite Hresp in Ha.
  apply list_elem_of_fmap in Ha as (doc & -> & Hdoc).
  destruct (Hdocs doc Hdoc) as (_ & Hcat & Hauthor & Hstatus & Hsearch).
  split; [done|]. split; [done|]. split; [|done].
  intros Htruthy. simpl. rewrite (Hstatus Htruthy).
  apply truthy_Some in Htruthy as (s & -> & Hs). simpl.
  by rewrite decide_False.
Qed.

Lemma listArticles_honours_filters_witness :
  ∃ a,
    articles_of (listArticles two_articles
                   {| q_limit := None; q_offset := None;
                      q_categoryId := None; q_authorId := None;
                      q_status := Some "published"; q_search := Some "BODY" |})
    = [a]
    ∧ av_status a = "published".
Proof.
  set (q := {| q_limit := None; q_offset := None; q_categoryId := None;
               q_authorId := None; q_status := Some "published";
               q_search := Some "BODY" |}).
  assert (∃ a, articles_of (listArticles two_articles q) = [a]) as [a Ha]
    by (vm_compute; eexists; reflexivity).
  exists a. split; [done|].
  destruct (listArticles_honours_filters two_articles q a eq_refl)
    as (_ & _ & Hstatus & _).
  - rewrite Ha. apply list_elem_of_here.
  - specialize (Hstatus eq_refl). by injection Hstatus.
Defined.

(** ** The earlier article listing *)

(** X9.  The earlier revision of the article listing selects the articles
    of the shared file that pass every filter of the query, orders them by
    [publishedAt || created_at] descending, articles with the same key in
    their stored order, reports their number as [total], and returns the
    populated page; every returned article reports that key as its
    [publishedAt], so the reported times descend. *)
Theorem listArticlesEarlier_sorted (st : Store) (q : ArticleQuery) :
  isValidAidb st = true →
  let parsed := parseDocumentsByCollection (readJsonlFile (documents_jsonl st)) in
  let selected := filter (matches q) (news parsed) in
  let key := λ n, or_num (md_publishedAt (mn_metadata n)) (mn_created_at n) in
  let populate := λ n, populateNewsArticle n (categories parsed) (users parsed) in
  let limit := or_num (q_limit q) 100 in
  let offset := or_num (q_offset q) 0 in
  ∃ ordered page,
    listArticlesEarlier st q
    = (200, EArticles (populate <$> page) (Z.of_nat (length selected))
                      offset limit)
    ∧ ordered ≡ₚ selected
    ∧ StronglySorted (λ a b, key b ≤ key a) ordered
    ∧ (∀ t, filter (λ a, key a = t) ordered = filter (λ a, key a = t) selected)
    ∧ page `sublist_of` ordered
    ∧ (0 ≤ offset → 0 ≤ limit →
       page = take (Z.to_nat limit) (drop (Z.to_nat offset) ordered))
    ∧ av_publishedAt ∘ pa_article <$> (populate <$> page) = Some ∘ key <$> page
    ∧ StronglySorted (λ x y, y ≤ x) (key <$> page).
Proof.
  intros Hvalid parsed selected key populate limit offset.
  set (ordered := Array_sort by_time_desc (filter_articles q (news parsed))).
  assert (∀ a b, by_time_desc a b ≤ 0 ↔ - key a ≤ - key b) as Hcmp.
  { intros a b. unfold by_time_desc, key. lia. }
  assert (StronglySorted (λ a b, key b ≤ key a) ordered) as Hsorted.
  { eapply StronglySorted_weaken;
      [|apply (Array_sort_sorted (λ a, - key a) by_time_desc Hcmp)].
    intros a b; simpl. lia. }
  assert (ordered ≡ₚ selected) as Hperm.
  { unfold ordered, selected.
    by rewrite Array_sort_Permutation, filter_articles_matches. }
  exists ordered, (Array_slice ordered offset (offset + limit)).
  split; [|split; [exact Hperm|split; [exact Hsorted|split; [|split; [|split; [|split]]]]]].
  - unfold listArticlesEarlier. rewrite Hvalid. simpl negb. cbv iota.
    fold parsed. cbv zeta. fold ordered. fold limit offset.
    do 2 f_equal. by rewrite Hperm.
  - intros t. unfold ordered, selected.
    rewrite <- filter_articles_matches.
    pose proof (Array_sort_stable (λ a, - key a) by_time_desc Hcmp (- t)
                  (filter_articles q (news parsed))) as Hstable.
    erewrite (list_filter_iff _ (λ a, - key a = - t)); [|intros a; lia].
    rewrite Hstable. apply list_filter_iff. intros a. lia.
  - apply Array_slice_sublist.
  - intros Hoffset Hlimit. by apply Array_slice_page.
  - by rewrite <- !list_fmap_compose.
  - eapply StronglySorted_fmap with (R1 := λ a b, key b ≤ key a); [done|].
    eapply StronglySorted_sublist; [apply Array_slice_sublist|exact Hsorted].
Qed.

Lemma listArticlesEarlier_sorted_witness :
  ∃ page,
    listArticlesEarlier earlier_two_articles no_filter
    = (200, EArticles page 2 0 100)
    ∧ (λ a, (av_id (pa_article a), av_publishedAt (pa_article a))) <$> page
      = [("news_aaaaaaaa", Some 300); ("news_bbbbbbbb", Some 200)].
Proof.
  destruct (listArticlesEarlier_sorted earlier_two_articles no_filter)
    as (ordered & page & Hresp & _); [reflexivity|].
  eexists. split.
  - rewrite Hresp. f_equal; f_equal; by vm_compute.
  - assert (earlier_articles (listArticlesEarlier earlier_two_articles no_filter)
            = (λ n, populateNewsArticle n
                      (categories (parseDocumentsByCollection
                         (readJsonlFile (documents_jsonl earlier_two_articles))))
                      (users (parseDocumentsByCollection
                         (readJsonlFile (documents_jsonl earlier_two_articles)))))
                <$> page) as <- by (by rewrite Hresp).
    by vm_compute.
Defined.

(** ** The knowledge graph *)

(** X10.  In the graph that [getGraph] returns every edge starts and ends
    at a returned node, and every relation between two returned nodes is
    an edge; the totals count all entities and relations whatever the
    bound; for a bound that is not negative the nodes are the first
    entities of the file, at most as many as the bound, where an absent or
    zero bound counts as 100. *)
Theorem getGraph_edges_join_nodes (st : Store) (entities : list Entity)
    (relations : list Relation) (maxNodes : option Z) :
  isValidAidb st = true →
  let bound := or_num maxNodes 100 in
  ∃ nodes edges,
    getGraph st entities relations maxNodes
    = (200, GGraph nodes edges (Z.of_nat (length entities))
                   (Z.of_nat (length relations)))
    ∧ (∀ e, e ∈ edges →
            ed_from e ∈ nd_id <$> nodes ∧ ed_to e ∈ nd_id <$> nodes)
    ∧ (∀ r, r ∈ relations →
            rl_source r ∈ nd_id <$> nodes → rl_target r ∈ nd_id <$> nodes →
            rl_id r ∈ ed_id <$> edges)
    ∧ (0 ≤ bound →
       nd_id <$> nodes = take (Z.to_nat bound) (en_id <$> entities)
       ∧ Z.of_nat (length nodes) ≤ bound).
Proof.
  intros Hvalid bound. unfold getGraph. rewrite Hvalid. simpl. fold bound.
  set (limited := Array_slice entities 0 bound).
  do 2 eexists. split; [done|].
  assert (∀ i, i ∈ (list_to_set (en_id <$> limited) : gset string)
               ↔ i ∈ nd_id <$> ((λ e, {| nd_id := en_id e; nd_label := en_name e;
                                         nd_group := en_entity_type e;
                                         nd_title := en_name e +:+ " (" +:+
                                                     en_entity_type e +:+ ")" |})
                                  <$> limited)) as Hids.
  { intros i. by rewrite elem_of_list_to_set, <- list_fmap_compose. }
  split; [|split].
  - intros e He. apply list_elem_of_fmap in He as (r & -> & Hr).
    apply list_elem_of_filter in Hr as [[Hsource Htarget] _]. simpl.
    by rewrite <- !Hids.
  - intros r Hr Hsource Htarget. rewrite <- list_fmap_compose.
    apply list_elem_of_fmap. exists r. split; [done|].
    apply list_elem_of_filter. by rewrite !Hids.
  - intros Hbound.
    assert (limited = take (Z.to_nat bound) entities) as ->.
    { unfold limited.
      rewrite <- (Z.add_0_l bound) at 1. rewrite Array_slice_page by lia.
      done. }
    split.
    + by rewrite <- list_fmap_compose, <- fmap_take.
    + rewrite length_fmap, length_take. lia.
Qed.

Lemma getGraph_edges_join_nodes_witness :
  let entity := λ i, {| en_id := i; en_name := i; en_entity_type := "person";
                        en_memory_refs := []; en_created_at := 0;
                        en_updated_at := 0 |} in
  let relation := λ i s t, {| rl_id := i; rl_source := s; rl_target := t;
                              rl_relation_type := "knows"; rl_weight := 1%Q;
                              rl_bidirectional := false; rl_created_at := 0 |} in
  ∃ nodes edges total_e total_r,
    getGraph empty_store [entity "a"; entity "b"; entity "c"]
      [relation "r1" "a" "b"; relation "r2" "b" "c"] (Some 2)
    = (200, GGraph nodes edges total_e total_r)
    ∧ nd_id <$> nodes = ["a"; "b"]
    ∧ ed_id <$> edges = ["r1"].
Proof.
  intros entity relation.
  destruct (getGraph_edges_join_nodes empty_store
              [entity "a"; entity "b"; entity "c"]
              [relation "r1" "a" "b"; relation "r2" "b" "c"] (Some 2))
    as (nodes & edges & Hresp & _ & _ & Hnodes); [reflexivity|].
  exists nodes, edges. do 2 eexists. split; [exact Hresp|].
  split.
  - by apply Hnodes.
  - assert (graph_edges (getGraph empty_store
              [entity "a"; entity "b"; entity "c"]
              [relation "r1" "a" "b"; relation "r2" "b" "c"] (Some 2)) = edges)
      as <- by (by rewrite Hresp).
    by vm_compute.
Defined.

(** ** Failed writes *)

Ltac route_guards :=
  repeat match goal with
         | |- context [match ?x with Some _ => _ | None => _ end] =>
             destruct x as [?|]
         | |- context [let '(_, _) := ?x in _] => destruct x
         | |- context [if ?b then _ else _] => destruct b
         end.

(** X11.  A write route that answers 400 or 404 has written nothing: every
    file of the store is as it was.  These are the answers by which the
    routes refuse a request: an invalid path, a missing or invalid field,
    a foreign key that does not resolve, a duplicate, a category still
    referenced, and an id that is not found. *)
Theorem refused_write_keeps_store (st : Store) (id uuid : string)
    (now now' : Z) (areq : ArticleRequest) (aupd : ArticleUpdate)
    (mreq : CommentRequest) (creq : CategoryRequest) (ureq : UserRequest) :
  let refused := λ status : Z, status = 400 ∨ status = 404 in
  (refused (status_of (fst (createArticle st areq now uuid))) →
   snd (createArticle st areq now uuid) = st)
  ∧ (refused (fst (fst (updateArticle st id aupd now' now))) →
     snd (updateArticle st id aupd now' now) = st)
  ∧ (refused (status_of (fst (deleteArticle st id))) →
     snd (deleteArticle st id) = st)
  ∧ (refused (status_of (fst (createComment st mreq now uuid))) →
     snd (createComment st mreq now uuid) = st)
  ∧ (refused (status_of (fst (createCategory st creq now))) →
     snd (createCategory st creq now) = st)
  ∧ (refused (status_of (fst (updateCategory st id creq now))) →
     snd (updateCategory st id creq now) = st)
  ∧ (refused (status_of (fst (deleteCategory st id))) →
     snd (deleteCategory st id) = st)
  ∧ (refused (status_of (fst (createUser st ureq now' now))) →
     snd (createUser st ureq now' now) = st)
  ∧ (refused (status_of (fst (updateUser st id ureq now))) →
     snd (updateUser st id ureq now) = st)
  ∧ (refused (status_of (fst (deleteUser st id))) →
     snd (deleteUser st id) = st).
Proof.
  intros refused. unfold refused. clear refused.
  unfold createArticle, updateArticle, deleteArticle, createComment,
    createCategory, updateCategory, deleteCategory, createUser, updateUser,
    deleteUser, status_of.
  repeat split; route_guards; simpl; try done; intros [?|?]; done.
Qed.

Lemma refused_write_keeps_store_witness :
  status_of (fst (deleteUser blog "user_bob")) = 404
  ∧ snd (deleteUser blog "user_bob") = blog
  ∧ status_of (fst (createComment blog
                      {| cr_newsId := Some "news_a1b2c3d4";
                         cr_authorId := Some "user_ann_1jk";
                         cr_content := Some "third";
                         cr_parentId := Some "comment_none" |} 6000 "c3000000"))
    = 400
  ∧ snd (createComment blog
           {| cr_newsId := Some "news_a1b2c3d4";
              cr_authorId := Some "user_ann_1jk";
              cr_content := Some "third";
              cr_parentId := Some "comment_none" |} 6000 "c3000000") = blog.
Proof.
  set (mreq := {| cr_newsId := Some "news_a1b2c3d4";
                  cr_authorId := Some "user_ann_1jk";
                  cr_content := Some "third";
                  cr_parentId := Some "comment_none" |}).
  destruct (refused_write_keeps_store blog "user_bob" "c3000000" 6000 6000
              {| ar_title := None; ar_content := None; ar_categoryId := None;
                 ar_authorId := None; ar_status := None; ar_tags := None |}
              {| au_title := None; au_content := None; au_categoryId := None;
                 au_authorId := None; au_status := None; au_tags := None |}
              mreq old_category_again
              {| ur_name := None; ur_email := None; ur_avatar := None;
                 ur_role := None |})
    as (_ & _ & _ & Hcomment & _ & _ & _ & _ & _ & Hdelete).
  assert (status_of (fst (deleteUser blog "user_bob")) = 404)
    as Hanswer by (by vm_compute).
  assert (status_of (fst (createComment blog mreq 6000 "c3000000")) = 400)
    as Hstatus by (by vm_compute).
  split; [exact Hanswer|]. split; [|split; [exact Hstatus|]].
  - apply Hdelete. right. exact Hanswer.
  - apply Hcomment. left. exact Hstatus.
Defined.

(** ** Invariants of the users file *)

Lemma readCollectionFile_writeCollectionFile (st : Store) (c : string)
    (docs : list MemoryNode) :
  readCollectionFile (writeCollectionFile st c docs) c = docs.
Proof.
  unfold readCollectionFile, writeCollectionFile, writeFile; simpl.
  rewrite lookup_insert_eq. apply readJsonlFile_stringify.
Qed.

Lemma omap_sublist {A B} (f : A → option B) (l k : list A) :
  l `sublist_of` k → omap f l `sublist_of` omap f k.
Proof.
  induction 1 as [|x l k _ IH|x l k _ IH]; simpl; [done| |].
  - destruct (f x); [by constructor|done].
  - destruct (f x); [by constructor|done].
Qed.

(** The users file after a successful [updateUser]: the first user of the
    id is replaced, the others stay. *)
Lemma updateUser_file (st : Store) (id : string) (req : UserRequest) (now : Z) :
  status_of (fst (updateUser st id req now)) = 200 →
  ∃ before user after user',
    readCollectionFile st "users" = before ++ user :: after
    ∧ readCollectionFile (snd (updateUser st id req now)) "users"
      = before ++ user' :: after
    ∧ mn_id user = id ∧ mn_id user' = id
    ∧ (∀ u, u ∈ before → mn_id u ≠ id)
    ∧ md_email (mn_metadata user')
      = assign_if (ur_email req) (md_email (mn_metadata user))
    ∧ md_role (mn_metadata user')
      = assign_if (ur_role req) (md_role (mn_metadata user))
    ∧ (truthy (ur_role req) = true → default "" (ur_role req) ∈ validRoles)
    ∧ (truthy (ur_email req) = true →
       ∀ u, u ∈ readCollectionFile st "users" → mn_id u ≠ id →
            md_email (mn_metadata u) ≠ ur_email req).
Proof.
  unfold updateUser, status_of.
  destruct (negb (isValidAidb st)); [done|].
  destruct (truthy (ur_role req)
            && negb (bool_decide (default "" (ur_role req) ∈ validRoles)))
    eqn:Hrole; [done|].
  destruct (list_find (λ u, mn_id u = id) (readCollectionFile st "users"))
    as [[i user]|] eqn:Hfind; [|done].
  destruct (truthy (ur_email req)
            && some (λ u, mn_id u ≠ id ∧ md_email (mn_metadata u) = ur_email req)
                    (readCollectionFile st "users")) eqn:Hemail; [done|].
  intros _. simpl snd.
  apply list_find_Some in Hfind as (Hi & Hid & Hfirst).
  rewrite readCollectionFile_writeCollectionFile.
  exists (take i (readCollectionFile st "users")), user,
    (drop (S i) (readCollectionFile st "users")).
  eexists. split; [by rewrite take_drop_middle|].
  split.
  { rewrite insert_take_drop; [|by eapply lookup_lt_Some]. reflexivity. }
  split; [exact Hid|]. split; [exact Hid|]. split.
  { intros u Hu. apply list_elem_of_lookup in Hu as [j Hj].
    apply lookup_take_Some in Hj as [Hj Hlt]. by apply (Hfirst j u). }
  split; [reflexivity|]. split; [reflexivity|]. split.
  - intros Htruthy. rewrite Htruthy in Hrole. simpl in Hrole.
    apply negb_false_iff, bool_decide_eq_true in Hrole. done.
  - intros Htruthy u Hu Hne Heq. rewrite Htruthy in Hemail. simpl in Hemail.
    apply (proj1 (some_false _ _) Hemail u Hu). done.
Qed.

Lemma updateUser_failed (st : Store) (id : string) (req : UserRequest) (now : Z) :
  status_of (fst (updateUser st id req now)) ≠ 200 →
  snd (updateUser st id req now) = st.
Proof. unfold updateUser, status_of. route_guards; simpl; done. Qed.

Lemma createUser_failed (st : Store) (req : UserRequest) (now_id now : Z) :
  status_of (fst (createUser st req now_id now)) ≠ 201 →
  snd (createUser st req now_id now) = st.
Proof. unfold createUser, status_of. route_guards; simpl; done. Qed.

(** X12.  The users file keeps its e-mail addresses distinct: if no address
    occurs twice before [createUser] or [deleteUser], none does afterwards,
    and the same holds for [updateUser] when no id occurs twice in the
    file. *)
Theorem user_emails_stay_unique (st : Store) (id : string) (req : UserRequest)
    (now_id now : Z) :
  NoDup (user_emails st) →
  NoDup (user_emails (snd (createUser st req now_id now)))
  ∧ NoDup (user_emails (snd (deleteUser st id)))
  ∧ (NoDup (mn_id <$> readCollectionFile st "users") →
     NoDup (user_emails (snd (updateUser st id req now)))).
Proof.
  intros Hunique. split; [|split].
  - destruct (decide (status_of (fst (createUser st req now_id now)) = 201))
      as [Hok|Hfail].
    2:{ by rewrite (createUser_failed _ _ _ _ Hfail). }
    revert Hok. unfold createUser, status_of.
    destruct (negb (isValidAidb st)); [done|].
    destruct (negb (truthy (ur_name req)) || negb (truthy (ur_email req))
              || negb (truthy (ur_role req))); [done|].
    destruct (negb (bool_decide (default "" (ur_role req) ∈ validRoles)));
      [done|].
    destruct (some (λ u, md_email (mn_metadata u) = Some (default "" (ur_email req)))
                   (readCollectionFile st "users")) eqn:Hsome; [done|].
    intros _. simpl snd. unfold user_emails in *.
    rewrite readCollectionFile_appendFile, omap_app. simpl.
    apply NoDup_app. split; [done|]. split; [|apply NoDup_singleton].
    intros e He Hnew. apply list_elem_of_singleton in Hnew as ->.
    apply list_elem_of_omap in He as (u & Hu & Hemail).
    by apply (proj1 (some_false _ _) Hsome u Hu).
  - unfold deleteUser.
    destruct (negb (isValidAidb st)); [done|].
    case_decide; [done|]. simpl snd. unfold user_emails in *.
    rewrite readCollectionFile_writeCollectionFile.
    eapply sublist_NoDup; [exact Hunique|].
    apply omap_sublist, sublist_filter.
  - intros Hids.
    destruct (decide (status_of (fst (updateUser st id req now)) = 200))
      as [Hok|Hfail].
    2:{ by rewrite (updateUser_failed _ _ _ _ Hfail). }
    destruct (updateUser_file st id req now Hok)
      as (before & user & after & user' & Hold & Hnew & Hid & _ & _ & Hemail
          & _ & _ & Hconflict).
    unfold user_emails in *. rewrite Hnew. rewrite Hold in Hunique, Hids, Hconflict.
    rewrite omap_app in Hunique |- *. simpl in Hunique |- *.
    rewrite Hemail. unfold assign_if.
    destruct (truthy (ur_email req)) eqn:Htruthy; [|done].
    apply truthy_Some in Htruthy as (e & He & _). rewrite He.
    assert (∀ u, u ∈ before ++ after → md_email (mn_metadata u) ≠ Some e)
      as Hfresh.
    { intros u Hu. rewrite <- He. apply Hconflict; [done| |].
      - apply elem_of_app in Hu as [?|?]; apply elem_of_app;
          [by left|right; by right].
      - rewrite fmap_app, fmap_cons in Hids.
        apply NoDup_app in Hids as (_ & Hdisjoint & Hafter).
        apply NoDup_cons in Hafter as [Hnotin _].
        intros Heq. apply elem_of_app in Hu as [Hu|Hu].
        + apply (Hdisjoint id); [rewrite <- Heq; apply list_elem_of_fmap; eauto|].
          rewrite Hid. by left.
        + apply Hnotin. rewrite Hid, <- Heq. apply list_elem_of_fmap. eauto. }
    apply NoDup_app in Hunique as (Hbefore & Hdisjoint & Hrest).
    assert (NoDup (omap (λ u, md_email (mn_metadata u)) after)) as Hafter.
    { destruct (md_email (mn_metadata user)); [|done].
      by apply NoDup_cons in Hrest as [_ ?]. }
    apply NoDup_app. split; [done|]. split.
    + intros x Hx Hin. apply elem_of_cons in Hin as [->|Hin].
      * apply list_elem_of_omap in Hx as (u & Hu & Hue).
        apply (Hfresh u); [apply elem_of_app; by left|done].
      * apply (Hdisjoint x Hx).
        destruct (md_email (mn_metadata user)); [by right|done].
    + apply NoDup_cons. split; [|done].
      intros Hin. apply list_elem_of_omap in Hin as (u & Hu & Hue).
      apply (Hfresh u); [apply elem_of_app; by right|done].
Qed.

Lemma user_emails_stay_unique_witness :
  let req := {| ur_name := Some "Bob"; ur_email := Some "bob@example.org";
                ur_avatar := None; ur_role := Some "reader" |} in
  user_emails (snd (createUser blog req 7000 7000))
  = ["ann@example.org"; "bob@example.org"]
  ∧ NoDup (user_emails (snd (createUser blog req 7000 7000)))
  ∧ NoDup (user_emails (snd (updateUser blog "user_ann_1jk" req 7000))).
Proof.
  intros req.
  assert (NoDup (user_emails blog)) as Hunique.
  { apply (bool_decide_unpack _). by vm_compute. }
  destruct (user_emails_stay_unique blog "user_ann_1jk" req 7000 7000 Hunique)
    as (Hcreate & _ & Hupdate).
  split; [by vm_compute|]. split; [exact Hcreate|].
  apply Hupdate. apply (bool_decide_unpack _). by vm_compute.
Defined.

(** X13.  The users file keeps its roles valid: if every user of the file
    has one of the roles admin, editor, reader and guest, this still holds
    after [createUser], [updateUser] and [deleteUser], whatever they
    answer. *)
Theorem user_roles_stay_valid (st : Store) (id : string) (req : UserRequest)
    (now_id now : Z) :
  roles_valid st →
  roles_valid (snd (createUser st req now_id now))
  ∧ roles_valid (snd (updateUser st id req now))
  ∧ roles_valid (snd (deleteUser st id)).
Proof.
  unfold roles_valid. intros Hvalid. split; [|split].
  - destruct (decide (status_of (fst (createUser st req now_id now)) = 201))
      as [Hok|Hfail].
    2:{ by rewrite (createUser_failed _ _ _ _ Hfail). }
    revert Hok. unfold createUser, status_of.
    destruct (negb (isValidAidb st)); [done|].
    destruct (negb (truthy (ur_name req)) || negb (truthy (ur_email req))
              || negb (truthy (ur_role req))); [done|].
    destruct (negb (bool_decide (default "" (ur_role req) ∈ validRoles)))
      eqn:Hrole; [done|].
    destruct (some _ _); [done|]. intros _. simpl snd.
    rewrite readCollectionFile_appendFile. apply Forall_app. split; [done|].
    apply Forall_singleton. eexists. split; [reflexivity|].
    by apply negb_false_iff, bool_decide_eq_true in Hrole.
  - destruct (decide (status_of (fst (updateUser st id req now)) = 200))
      as [Hok|Hfail].
    2:{ by rewrite (updateUser_failed _ _ _ _ Hfail). }
    destruct (updateUser_file st id req now Hok)
      as (before & user & after & user' & Hold & Hnew & _ & _ & _ & _
          & Hrole & Hchecked & _).
    rewrite Hnew. rewrite Hold in Hvalid.
    apply Forall_app in Hvalid as [Hbefore Hrest].
    apply Forall_cons in Hrest as [Huser Hafter].
    apply Forall_app. split; [done|]. apply Forall_cons. split; [|done].
    rewrite Hrole. unfold assign_if.
    destruct (truthy (ur_role req)) eqn:Htruthy; [|done].
    specialize (Hchecked eq_refl).
    apply truthy_Some in Htruthy as (r & Hr & _). rewrite Hr in Hchecked |- *.
    by exists r.
  - unfold deleteUser.
    destruct (negb (isValidAidb st)); [done|].
    case_decide; [done|]. simpl snd.
    rewrite readCollectionFile_writeCollectionFile.
    eapply Forall_forall. intros u Hu. apply list_elem_of_filter in Hu as [_ Hu].
    by apply (proj1 (Forall_forall _ _) Hvalid).
Qed.

Lemma user_roles_stay_valid_witness :
  let req := {| ur_name := None; ur_email := None; ur_avatar := None;
                ur_role := Some "admin" |} in
  roles_valid blog
  ∧ (md_role ∘ mn_metadata)
      <$> readCollectionFile (snd (updateUser blog "user_ann_1jk" req 7000)) "users"
    = [Some "admin"]
  ∧ roles_valid (snd (updateUser blog "user_ann_1jk" req 7000)).
Proof.
  intros req.
  assert (roles_valid blog) as Hvalid.
  { unfold roles_valid.
    assert (readCollectionFile blog "users"
            = readCollectionFile blog_user "users") as -> by (by vm_compute).
    assert (∃ u, readCollectionFile blog_user "users" = [u]
                 ∧ md_role (mn_metadata u) = Some "editor") as (u & -> & Hu).
    { eexists. split; by vm_compute. }
    apply Forall_singleton. exists "editor". split; [done|].
    unfold validRoles. apply list_elem_of_further, list_elem_of_here. }
  split; [exact Hvalid|]. split; [by vm_compute|].
  apply (user_roles_stay_valid blog "user_ann_1jk" req 7000 7000 Hvalid).
Defined.

(** ** Creating an article or a comment and reading it back *)

Lemma getDocumentsByCollection_appendFile_ne (st : Store) (c c' : string)
    (l : Line) :
  c ≠ c' →
  getDocumentsByCollection (appendFile st c l) c'
  = getDocumentsByCollection st c'.
Proof.
  intros Hne.
  by rewrite !getDocumentsByCollection_merge, tagged_appendFile,
    readCollectionFile_appendFile_ne.
Qed.

Lemma getDocumentsByCollection_appendFile (st : Store) (c : string)
    (doc : MemoryNode) :
  mn_id doc ∉ mn_id <$> getDocumentsByCollection st c →
  getDocumentsByCollection (appendFile st c (Json doc)) c
  = readCollectionFile st c
    ++ doc :: filter (λ d, mn_id d ∉ mn_id <$> readCollectionFile st c)
                     (tagged st c).
Proof.
  intros Hfresh. rewrite getDocumentsByCollection_merge in Hfresh.
  rewrite getDocumentsByCollection_merge, tagged_appendFile,
    readCollectionFile_appendFile, <- app_assoc.
  simpl. do 2 f_equal. apply filter_iff_in. intros d Hd.
  rewrite fmap_app, elem_of_app. simpl. rewrite list_elem_of_singleton.
  split; [tauto|]. intros Hnot [Hin|Heq]; [done|].
  apply Hfresh. rewrite fmap_app, elem_of_app. right.
  rewrite <- Heq. apply list_elem_of_fmap. exists d. split; [done|].
  by apply list_elem_of_filter.
Qed.

Lemma some_id_elem (l : list MemoryNode) (i : string) :
  some (λ d, mn_id d = i) l = true ↔ i ∈ mn_id <$> l.
Proof.
  rewrite some_true, list_elem_of_fmap. split.
  - intros (d & Hd & <-). eauto.
  - intros (d & -> & Hd). eauto.
Qed.

(** X14.  An article that [createArticle] accepted under an id no article
    had is found by [getArticle] under that id, with the title, the
    references and the tags of the request, both references populated, no
    views and no likes; its [publishedAt] is the time of creation, for a
    draft as well, and its status is draft when the request names none.
    The other articles stay. *)
Theorem createArticle_then_getArticle (st : Store) (req : ArticleRequest)
    (now : Z) (uuid : string) :
  let id := "news_" +:+ uuid in
  let st' := snd (createArticle st req now uuid) in
  status_of (fst (createArticle st req now uuid)) = 201 →
  id ∉ mn_id <$> getDocumentsByCollection st "news" →
  ∃ article doc,
    getArticle st' id = (200, BArticle article)
    ∧ av_id article = id
    ∧ ar_title req = Some (av_title article)
    ∧ av_content article
      = default "" (ar_title req) +:+ newline +:+ newline
        +:+ default "" (ar_content req)
    ∧ av_status article = or_str (ar_status req) "draft"
    ∧ av_publishedAt article = Some now
    ∧ av_created_at article = now
    ∧ av_viewCount article = 0 ∧ av_likeCount article = 0
    ∧ av_tags article = "news" :: default [] (ar_tags req)
    ∧ av_categoryId article = ar_categoryId req
    ∧ cv_id <$> av_category article = ar_categoryId req
    ∧ av_authorId article = ar_authorId req
    ∧ uv_id <$> av_author article = ar_authorId req
    ∧ mn_id doc = id
    ∧ getDocumentsByCollection st' "news"
      ≡ₚ doc :: getDocumentsByCollection st "news".
Proof.
  intros id st' Hok Hfresh. revert Hok. unfold st', createArticle, status_of.
  destruct (negb (isValidAidb st)) eqn:Hvalid; [done|].
  destruct (negb (truthy (ar_title req)) || negb (truthy (ar_content req)))
    eqn:Hrequired; [done|].
  destruct (negb (truthy (ar_categoryId req)) || negb (truthy (ar_authorId req)))
    eqn:Hkeys; [done|].
  destruct (negb (some (λ c, mn_id c = default "" (ar_categoryId req))
                       (getDocumentsByCollection st "categories")))
    eqn:Hcategory; [done|].
  destruct (negb (some (λ u, mn_id u = default "" (ar_authorId req))
                       (getDocumentsByCollection st "users")))
    eqn:Hauthor; [done|].
  intros _. simpl snd.
  apply negb_false_iff in Hvalid, Hcategory, Hauthor.
  apply orb_false_iff in Hrequired as [Htitle _].
  apply orb_false_iff in Hkeys as [HcatId HauthId].
  apply negb_false_iff in Htitle, HcatId, HauthId.
  apply truthy_Some in Htitle as (title & Htitle & Htitle_ne).
  pose proof HcatId as HcatId'. pose proof HauthId as HauthId'.
  apply truthy_Some in HcatId' as (categoryId & Hc & Hc_ne).
  apply truthy_Some in HauthId' as (authorId & Ha & Ha_ne).
  apply some_id_elem in Hcategory, Hauthor.
  match goal with
  | |- context [appendFile st "news" (Json ?d)] => set (doc := d)
  end.
  assert (mn_id doc = id) as Hid by reflexivity.
  set (article :=
         article_view (createLookupMap (getDocumentsByCollection st "categories"))
                      (createLookupMap (getDocumentsByCollection st "users")) doc).
  assert (getArticle (appendFile st "news" (Json doc)) id
          = (200, BArticle article)) as Hget.
  { unfold getArticle.
    rewrite isValidAidb_appendFile, Hvalid. simpl negb. cbv iota.
    rewrite getDocumentsByCollection_appendFile by (by rewrite Hid).
    rewrite !getDocumentsByCollection_appendFile_ne by done.
    rewrite find_app.
    assert (find (λ d, mn_id d = id) (readCollectionFile st "news") = None)
      as ->.
    { apply find_None_ids. intros Hin. apply Hfresh.
      apply list_elem_of_fmap in Hin as (d & -> & Hd).
      apply list_elem_of_fmap. exists d. split; [done|].
      by apply dedicated_in_merge. }
    rewrite find_cons. by rewrite decide_True by exact Hid. }
  destruct (article_view_populated (getDocumentsByCollection st "categories")
              (getDocumentsByCollection st "users") doc) as [Hpc Hpa].
  fold article in Hpc, Hpa.
  exists article, doc. split; [exact Hget|]. split; [exact Hid|].
  split.
  { unfold article, article_view, doc. simpl. rewrite Htitle. simpl.
    by rewrite decide_False by done. }
  split; [reflexivity|]. split.
  { unfold article, article_view, doc. simpl.
    destruct (ar_status req) as [s|]; simpl; [|done].
    by destruct (decide (s = "")) as [->|]. }
  split.
  { unfold article, article_view, doc. simpl. f_equal.
    destruct (decide (default "draft" (ar_status req) = "published")); simpl;
      [|done].
    by destruct (decide (now = 0)) as [->|]. }
  split; [reflexivity|]. split; [reflexivity|]. split; [reflexivity|].
  split; [reflexivity|].
  assert (av_categoryId article = ar_categoryId req) as Hcat_ref.
  { unfold article, article_view, doc. simpl. by rewrite Hc. }
  assert (av_authorId article = ar_authorId req) as Hauth_ref.
  { unfold article, article_view, doc. simpl. by rewrite Ha. }
  split; [exact Hcat_ref|]. split.
  { rewrite Hcat_ref in Hpc. unfold populated in Hpc.
    destruct (cv_id <$> av_category article) as [i|].
    - destruct Hpc as [Hpc _]. by rewrite Hpc.
    - destruct (Hpc categoryId Hc) as [?|Hmissing]; [done|].
      exfalso. apply Hmissing. by rewrite Hc in Hcategory. }
  split; [exact Hauth_ref|]. split.
  { rewrite Hauth_ref in Hpa. unfold populated in Hpa.
    destruct (uv_id <$> av_author article) as [i|].
    - destruct Hpa as [Hpa _]. by rewrite Hpa.
    - destruct (Hpa authorId Ha) as [?|Hmissing]; [done|].
      exfalso. apply Hmissing. by rewrite Ha in Hauthor. }
  split; [exact Hid|].
  rewrite getDocumentsByCollection_appendFile by (by rewrite Hid).
  rewrite getDocumentsByCollection_merge.
  by rewrite <- Permutation_middle.
Qed.

Lemma createArticle_then_getArticle_witness :
  let req := {| ar_title := Some "Second"; ar_content := Some "Body";
                ar_categoryId := Some "cat_tech";
                ar_authorId := Some "user_ann_1jk";
                ar_status := None; ar_tags := Some ["rocq"] |} in
  ∃ article,
    getArticle (snd (createArticle blog req 6000 "0badcafe")) "news_0badcafe"
    = (200, BArticle article)
    ∧ av_status article = "draft"
    ∧ av_publishedAt article = Some 6000
    ∧ cv_id <$> av_category article = Some "cat_tech"
    ∧ uv_id <$> av_author article = Some "user_ann_1jk".
Proof.
  intros req.
  destruct (createArticle_then_getArticle blog req 6000 "0badcafe")
    as (article & doc & Hget & _ & _ & _ & Hstatus & Hpublished & _ & _ & _
        & _ & _ & Hcategory & _ & Hauthor & _).
  - by vm_compute.
  - apply (bool_decide_unpack _). by vm_compute.
  - exists article. by repeat split.
Defined.

Lemma tagged_appendRootFile (st : Store) (doc : MemoryNode) (c : string) :
  tagged (appendRootFile st (Json doc)) c
  = tagged st c
    ++ (if decide (md_collection (mn_metadata doc) = Some c) then [doc] else []).
Proof.
  unfold tagged, appendRootFile. simpl.
  rewrite omap_app, filter_app.
  assert (omap parse_line (default [] (documents_jsonl st))
          = readJsonlFile (documents_jsonl st)) as ->
    by (by destruct (documents_jsonl st)).
  by f_equal.
Qed.

Lemma getDocumentsByCollection_appendRootFile (st : Store) (doc : MemoryNode)
    (c : string) :
  getDocumentsByCollection (appendRootFile st (Json doc)) c
  = getDocumentsByCollection st c
    ++ (if decide (md_collection (mn_metadata doc) = Some c
                   ∧ mn_id doc ∉ mn_id <$> readCollectionFile st c)
        then [doc] else []).
Proof.
  rewrite !getDocumentsByCollection_merge, tagged_appendRootFile.
  assert (readCollectionFile (appendRootFile st (Json doc)) c
          = readCollectionFile st c) as -> by reflexivity.
  rewrite filter_app, app_assoc. f_equal.
  destruct (decide (md_collection (mn_metadata doc) = Some c)) as [Hc|Hc].
  - rewrite filter_cons, filter_nil.
    destruct (decide (mn_id doc ∉ _)) as [Hid|Hid].
    + rewrite decide_True; done.
    + rewrite decide_False; [done|]. by intros [_ ?].
  - rewrite filter_nil. rewrite decide_False; [done|]. by intros [? _].
Qed.

(** X15.  A comment that [createComment] accepted refers to an article and
    a user of the store and, when a parent is named, to a comment of the
    store.  If no comment had its id, [listComments] for its article then
    returns the comments it returned before and the new one, with the
    content, the references and the time of the request and its author
    populated; the listings of the other articles are as before. *)
Theorem createComment_then_listComments (st : Store) (req : CommentRequest)
    (now : Z) (uuid : string) (other : option string) :
  let id := "comment_" +:+ uuid in
  let st' := snd (createComment st req now uuid) in
  status_of (fst (createComment st req now uuid)) = 201 →
  id ∉ mn_id <$> getDocumentsByCollection st "comments" →
  (∃ newsId, cr_newsId req = Some newsId
             ∧ newsId ∈ mn_id <$> getDocumentsByCollection st "news")
  ∧ (truthy (cr_parentId req) = true →
     ∃ parentId, cr_parentId req = Some parentId
                 ∧ parentId ∈ mn_id <$> getDocumentsByCollection st "comments")
  ∧ (∃ comment,
       comments_of (listComments st' (cr_newsId req))
       ≡ₚ comment :: comments_of (listComments st (cr_newsId req))
       ∧ cm_id comment = id
       ∧ cr_content req = Some (cm_content comment)
       ∧ cr_newsId req = Some (cm_newsId comment)
       ∧ cm_authorId comment = cr_authorId req
       ∧ uv_id <$> cm_author comment = cr_authorId req
       ∧ cm_parentId comment
         = (if truthy (cr_parentId req) then cr_parentId req else None)
       ∧ cm_created_at comment = now
       ∧ cm_likeCount comment = 0)
  ∧ (other ≠ cr_newsId req → listComments st' other = listComments st other).
Proof.
  intros id st' Hok Hfresh. revert Hok. unfold st', createComment, status_of.
  destruct (negb (isValidAidb st)) eqn:Hvalid; [done|].
  destruct (negb (truthy (cr_content req))) eqn:Hcontent; [done|].
  destruct (negb (truthy (cr_newsId req)) || negb (truthy (cr_authorId req)))
    eqn:Hkeys; [done|].
  destruct (negb (some (λ n, mn_id n = default "" (cr_newsId req))
                       (getDocumentsByCollection st "news")))
    eqn:Hnews; [done|].
  destruct (negb (some (λ u, mn_id u = default "" (cr_authorId req))
                       (getDocumentsByCollection st "users")))
    eqn:Hauthor; [done|].
  destruct (negb (if truthy (cr_parentId req)
                  then some (λ c, mn_id c = default "" (cr_parentId req))
                            (getDocumentsByCollection st "comments")
                  else true)) eqn:Hparent; [done|].
  intros _. simpl snd.
  apply negb_false_iff in Hvalid, Hcontent, Hnews, Hauthor, Hparent.
  apply orb_false_iff in Hkeys as [HnewsId HauthId].
  apply negb_false_iff in HnewsId, HauthId.
  apply truthy_Some in Hcontent as (content & Hcontent & Hcontent_ne).
  apply truthy_Some in HnewsId as (newsId & Hn & Hn_ne).
  apply truthy_Some in HauthId as (authorId & Ha & Ha_ne).
  apply some_id_elem in Hnews, Hauthor.
  rewrite Hn in Hnews. rewrite Ha in Hauthor. simpl in Hnews, Hauthor.
  match goal with
  | |- context [appendRootFile st (Json ?d)] => set (doc := d)
  end.
  assert (mn_id doc = id) as Hid by reflexivity.
  assert (md_newsId (mn_metadata doc) = cr_newsId req) as HdocNews.
  { unfold doc. simpl. by rewrite Hn. }
  assert (isValidAidb (appendRootFile st (Json doc)) = true) as Hvalid'
    by reflexivity.
  assert (getDocumentsByCollection (appendRootFile st (Json doc)) "users"
          = getDocumentsByCollection st "users") as Husers.
  { rewrite getDocumentsByCollection_appendRootFile.
    rewrite decide_False; [by rewrite app_nil_r|]. by intros [? _]. }
  assert (getDocumentsByCollection (appendRootFile st (Json doc)) "comments"
          = getDocumentsByCollection st "comments" ++ [doc]) as Hcomments.
  { rewrite getDocumentsByCollection_appendRootFile.
    rewrite decide_True; [done|]. split; [done|].
    intros Hin. apply Hfresh. rewrite Hid in Hin.
    apply list_elem_of_fmap in Hin as (d & -> & Hd).
    apply list_elem_of_fmap. exists d. split; [done|].
    by apply dedicated_in_merge. }
  split; [by exists newsId|]. split.
  { intros Htruthy. rewrite Htruthy in Hparent.
    apply some_id_elem in Hparent.
    apply truthy_Some in Htruthy as (parentId & Hp & _).
    rewrite Hp in Hparent. by exists parentId. }
  set (populate := λ d,
         comment_view
           (lookup_ref (createLookupMap (getDocumentsByCollection st "users"))
                       (md_authorId (mn_metadata d))) "" d).
  assert (∀ nid, listComments (appendRootFile st (Json doc)) nid
                 = (200, BComments
                      (populate <$> Array_sort by_created_at_asc
                         (filter (λ c, md_newsId (mn_metadata c) = nid)
                            (getDocumentsByCollection st "comments" ++ [doc])))))
    as Hafter.
  { intros nid. unfold listComments. by rewrite Hvalid', Husers, Hcomments. }
  assert (∀ nid, listComments st nid
                 = (200, BComments
                      (populate <$> Array_sort by_created_at_asc
                         (filter (λ c, md_newsId (mn_metadata c) = nid)
                            (getDocumentsByCollection st "comments")))))
    as Hbefore.
  { intros nid. unfold listComments. by rewrite Hvalid. }
  split.
  - exists (populate doc). split.
    { rewrite Hafter, Hbefore. simpl comments_of.
      rewrite !Array_sort_Permutation, filter_app, filter_cons, filter_nil.
      rewrite decide_True by exact HdocNews.
      rewrite fmap_app. symmetry. apply Permutation_cons_append. }
    split; [exact Hid|]. split.
    { unfold populate, comment_view, doc. simpl. by rewrite Hcontent. }
    split.
    { unfold populate, comment_view, doc. simpl. rewrite Hn. simpl.
      by rewrite decide_False by done. }
    split.
    { unfold populate, comment_view, doc. simpl. by rewrite Ha. }
    split.
    { pose proof (lookup_ref_populated (getDocumentsByCollection st "users")
                    (cr_authorId req)) as Hpop.
      assert (uv_id <$> cm_author (populate doc)
              = mn_id <$> lookup_ref
                  (createLookupMap (getDocumentsByCollection st "users"))
                  (cr_authorId req)) as ->.
      { unfold populate, comment_view. cbn [cm_author].
        assert (md_authorId (mn_metadata doc) = cr_authorId req) as ->
          by (unfold doc; simpl; by rewrite Ha).
        by destruct (lookup_ref _ _). }
      unfold populated in Hpop.
      destruct (mn_id <$> lookup_ref _ _) as [i|].
      - destruct Hpop as [Hpop _]. by rewrite Hpop.
      - destruct (Hpop authorId Ha) as [?|Hmissing]; [done|].
        exfalso. by apply Hmissing. }
    split; [reflexivity|]. split; reflexivity.
  - intros Hother. rewrite Hafter, Hbefore.
    rewrite filter_app, filter_cons, filter_nil.
    rewrite decide_False; [by rewrite app_nil_r|].
    rewrite HdocNews. intros Heq. by apply Hother.
Qed.

Lemma createComment_then_listComments_witness :
  let req := {| cr_newsId := Some "news_a1b2c3d4";
                cr_authorId := Some "user_ann_1jk";
                cr_content := Some "third";
                cr_parentId := Some "comment_c2000000" |} in
  ∃ comment,
    comments_of (listComments (snd (createComment blog req 6000 "c3000000"))
                              (Some "news_a1b2c3d4"))
    ≡ₚ comment :: comments_of (listComments blog (Some "news_a1b2c3d4"))
    ∧ cm_id comment = "comment_c3000000"
    ∧ cm_parentId comment = Some "comment_c2000000".
Proof.
  intros req.
  destruct (createComment_then_listComments blog req 6000 "c3000000" None)
    as (_ & _ & (comment & Hlisted & Hid & _ & _ & _ & _ & Hparent & _) & _).
  - by vm_compute.
  - apply (bool_decide_unpack _). by vm_compute.
  - exists comment. split; [exact Hlisted|]. split; [exact Hid|exact Hparent].
Defined.

(** ** Deleting an article *)

Lemma readCollectionFile_writeFile_ne (st : Store) (c c' : string)
    (content : list Line) :
  c ≠ c' → readCollectionFile (writeFile st c content) c' = readCollectionFile st c'.
Proof.
  intros Hne. unfold readCollectionFile, writeFile. simpl.
  by rewrite lookup_insert_ne.
Qed.

Lemma filter_keeps_length {A} (P : A → Prop) `{∀ x, Decision (P x)} (l : list A) :
  ¬ (length (filter P l) < length l)%nat → filter P l = l.
Proof.
  induction l as [|x l IH]; [done|]. rewrite filter_cons.
  pose proof (length_filter P l) as Hle.
  destruct (decide (P x)); simpl; intros Hlen.
  - f_equal. apply IH. lia.
  - exfalso. apply Hlen. lia.
Qed.

Lemma merge_elem_of (st : Store) (c : string) (doc : MemoryNode) :
  doc ∈ getDocumentsByCollection st c →
  doc ∈ readCollectionFile st c ∨ doc ∈ tagged st c.
Proof.
  rewrite getDocumentsByCollection_merge, elem_of_app, list_elem_of_filter.
  tauto.
Qed.

(** The store after a successful [deleteArticle]. *)
Lemma deleteArticle_done (st : Store) (id : string) :
  status_of (fst (deleteArticle st id)) = 200 →
  let st1 :=
    writeCollectionFile st "news"
      (filter (λ n, mn_id n ≠ id) (readCollectionFile st "news")) in
  let kept :=
    filter (λ c, md_newsId (mn_metadata c) ≠ Some id)
           (getDocumentsByCollection st "comments") in
  isValidAidb st = true
  ∧ id ∈ mn_id <$> readCollectionFile st "news"
  ∧ (snd (deleteArticle st id) = writeCollectionFile st1 "comments" kept
     ∧ is_Some (collection_files st !! "comments")
     ∨ snd (deleteArticle st id) = st1
       ∧ (is_Some (collection_files st !! "comments") →
          kept = getDocumentsByCollection st "comments")).
Proof.
  unfold deleteArticle, status_of.
  destruct (negb (isValidAidb st)) eqn:Hvalid; [done|].
  destruct (collection_files st !! "news") as [lines|] eqn:Hfile; [|done].
  case_decide as Hlen; [done|]. intros _. simpl snd.
  assert (readCollectionFile st "news" = readJsonlFile (Some lines)) as Hread.
  { unfold readCollectionFile. by rewrite Hfile. }
  rewrite getDocumentsByCollection_writeFile_ne by done.
  change (omap parse_line lines) with (readJsonlFile (Some lines)).
  rewrite lookup_insert_ne by done.
  rewrite <- Hread.
  split; [by apply negb_false_iff|]. split.
  { destruct (decide (id ∈ mn_id <$> readCollectionFile st "news"))
      as [|Hnot]; [done|].
    exfalso. apply Hlen. rewrite Hread in Hnot. by rewrite filter_absent. }
  case_decide as Hfewer.
  - case_decide as Hexists.
    + left. by split.
    + right. by split.
  - right. split; [done|]. intros _. by apply filter_keeps_length.
Qed.

(** X16.  After a successful [deleteArticle] the file of the news
    collection holds the articles of the other ids, which [getArticle]
    answers as before, and the id is not found unless a line of the shared
    file carries it.  The comments that refer to other articles stay, and
    if no comment line of the shared file refers to the article, no
    comment of the store refers to it any more. *)
Theorem deleteArticle_cascade (st : Store) (id : string) :
  let st' := snd (deleteArticle st id) in
  status_of (fst (deleteArticle st id)) = 200 →
  id ∈ mn_id <$> readCollectionFile st "news"
  ∧ readCollectionFile st' "news"
    = filter (λ n, mn_id n ≠ id) (readCollectionFile st "news")
  ∧ (id ∉ mn_id <$> tagged st "news" →
     getArticle st' id = (404, BError "Article not found"))
  ∧ (∀ id', id' ≠ id → getArticle st' id' = getArticle st id')
  ∧ (∀ c, c ∈ getDocumentsByCollection st "comments" →
          md_newsId (mn_metadata c) ≠ Some id →
          c ∈ getDocumentsByCollection st' "comments")
  ∧ ((∀ c, c ∈ tagged st "comments" → md_newsId (mn_metadata c) ≠ Some id) →
     (∀ c, c ∈ getDocumentsByCollection st' "comments" →
           md_newsId (mn_metadata c) ≠ Some id)
     ∧ listComments st' (Some id) = (200, BComments [])).
Proof.
  intros st' Hok.
  destruct (deleteArticle_done st id Hok) as (Hvalid & Hin & Hst).
  set (st1 := writeCollectionFile st "news"
                (filter (λ n, mn_id n ≠ id) (readCollectionFile st "news")))
    in Hst.
  set (kept := filter (λ c, md_newsId (mn_metadata c) ≠ Some id)
                      (getDocumentsByCollection st "comments")) in Hst.
  fold st' in Hst.
  assert (readCollectionFile st' "news"
          = filter (λ n, mn_id n ≠ id) (readCollectionFile st "news"))
    as Hnews.
  { destruct Hst as [[-> _]|[-> _]].
    - unfold writeCollectionFile at 1.
      rewrite readCollectionFile_writeFile_ne by done.
      apply readCollectionFile_writeCollectionFile.
    - apply readCollectionFile_writeCollectionFile. }
  assert (tagged st' "news" = tagged st "news") as Htagged
    by (by destruct Hst as [[-> _]|[-> _]]).
  assert (isValidAidb st' = true) as Hvalid'
    by (by destruct Hst as [[-> _]|[-> _]]).
  assert (∀ c, c ≠ "news" → c ≠ "comments" →
               getDocumentsByCollection st' c = getDocumentsByCollection st c)
    as Hothers.
  { intros c Hn Hc. destruct Hst as [[-> _]|[-> _]];
      unfold st1, writeCollectionFile;
      by rewrite !getDocumentsByCollection_writeFile_ne by done. }
  assert (∀ i, find (λ d, mn_id d = i) (getDocumentsByCollection st' "news")
               = if decide (i = id)
                 then find (λ d, mn_id d = i) (tagged st "news")
                 else find (λ d, mn_id d = i) (getDocumentsByCollection st "news"))
    as Hfind.
  { intros i. rewrite !getDocumentsByCollection_merge, Hnews, Htagged.
    rewrite !find_app.
    destruct (decide (i = id)) as [->|Hne].
    - assert (find (λ d, mn_id d = id)
                (filter (λ n, mn_id n ≠ id) (readCollectionFile st "news"))
              = None) as ->.
      { apply find_None_ids. intros Hmem.
        apply list_elem_of_fmap in Hmem as (d & Hd & Hmem).
        by apply list_elem_of_filter in Hmem as [? _]. }
      apply find_filter. intros d Hd Hmem.
      apply list_elem_of_fmap in Hmem as (d' & Hd' & Hmem).
      apply list_elem_of_filter in Hmem as [Hne _]. congruence.
    - rewrite (find_filter (λ d, mn_id d = i) (λ n, mn_id n ≠ id))
        by (intros d ->; done).
      destruct (find (λ d, mn_id d = i) (readCollectionFile st "news"))
        as [d|] eqn:Hded; [done|].
      apply find_None_ids in Hded.
      rewrite !find_filter; [done| |].
      + intros d Hd. by rewrite Hd.
      + intros d Hd Hmem. rewrite Hd in Hmem. apply Hded.
        apply list_elem_of_fmap in Hmem as (d' & Hd' & Hmem).
        apply list_elem_of_filter in Hmem as [_ Hmem].
        rewrite Hd'. apply list_elem_of_fmap. eauto. }
  split; [exact Hin|]. split; [exact Hnews|]. split.
  { intros Hlegacy. unfold getArticle.
    rewrite Hvalid', Hfind, decide_True by done.
    apply find_None_ids in Hlegacy. by rewrite Hlegacy. }
  split.
  { intros id' Hne. unfold getArticle.
    rewrite Hvalid', Hvalid, Hfind, decide_False by done.
    by rewrite !Hothers. }
  assert (∀ c, c ∈ kept ↔ c ∈ getDocumentsByCollection st "comments"
                          ∧ md_newsId (mn_metadata c) ≠ Some id) as Hkept.
  { intros c. unfold kept. rewrite list_elem_of_filter. tauto. }
  split.
  { intros c Hc Hother. destruct Hst as [[-> _]|[-> _]].
    - apply dedicated_in_merge.
      rewrite readCollectionFile_writeCollectionFile. by apply Hkept.
    - unfold st1, writeCollectionFile.
      by rewrite getDocumentsByCollection_writeFile_ne. }
  intros Hlegacy.
  assert (∀ c, c ∈ getDocumentsByCollection st' "comments" →
               md_newsId (mn_metadata c) ≠ Some id) as Hnone.
  { intros c Hc. destruct Hst as [[-> _]|[-> Hsame]].
    - apply merge_elem_of in Hc as [Hc|Hc].
      + rewrite readCollectionFile_writeCollectionFile in Hc.
        by apply Hkept in Hc as [_ ?].
      + by apply Hlegacy.
    - unfold st1, writeCollectionFile in Hc.
      rewrite getDocumentsByCollection_writeFile_ne in Hc by done.
      destruct (collection_files st !! "comments") as [lines|] eqn:Hfile.
      + rewrite <- Hsame in Hc by done. by apply Hkept in Hc as [_ ?].
      + apply merge_elem_of in Hc as [Hc|Hc]; [|by apply Hlegacy].
        unfold readCollectionFile in Hc. rewrite Hfile in Hc.
        by apply elem_of_nil in Hc. }
  split; [exact Hnone|].
  unfold listComments. rewrite Hvalid'. simpl negb. cbv iota.
  rewrite filter_none; [done|].
  intros c Hc Hrefers. by apply (Hnone c Hc).
Qed.

Lemma deleteArticle_cascade_witness :
  let st := writeCollectionFile blog_article "comments" [comment_doc "c9" "news_a1b2c3d4" None 4000] in
  mn_id <$> getDocumentsByCollection st "comments" = ["c9"]
  ∧ getArticle (snd (deleteArticle st "news_a1b2c3d4")) "news_a1b2c3d4"
    = (404, BError "Article not found")
  ∧ listComments (snd (deleteArticle st "news_a1b2c3d4")) (Some "news_a1b2c3d4")
    = (200, BComments []).
Proof.
  intros st.
  destruct (deleteArticle_cascade st "news_a1b2c3d4")
    as (_ & _ & Hgone & _ & _ & Hcascade).
  - by vm_compute.
  - split; [by vm_compute|]. split.
    + apply Hgone. apply (bool_decide_unpack _). by vm_compute.
    + apply Hcascade.
      assert (tagged st "comments" = []) as -> by (by vm_compute).
      intros c Hc. exfalso. exact (proj1 (elem_of_nil c) Hc).
Defined.

(** ** Updating an article *)

(** A successful [updateArticle]: the first article of the id in the file
    of the news collection is replaced by its update, which the response
    reports. *)
Lemma updateArticle_done (st : Store) (id : string) (req : ArticleUpdate)
    (now_published now : Z) :
  fst (fst (updateArticle st id req now_published now)) = 200 →
  ∃ i old u,
    let doc := updated_article old req now_published now in
    let m := mn_metadata doc in
    isValidAidb st = true
    ∧ readCollectionFile st "news" !! i = Some old
    ∧ mn_id old = id
    ∧ (∀ j y, readCollectionFile st "news" !! j = Some y → (j < i)%nat →
              mn_id y ≠ id)
    ∧ snd (updateArticle st id req now_published now)
      = writeCollectionFile st "news" (<[i := doc]> (readCollectionFile st "news"))
    ∧ (truthy (au_categoryId req) = true →
       default "" (au_categoryId req)
       ∈ mn_id <$> getDocumentsByCollection st "categories")
    ∧ (truthy (au_authorId req) = true →
       default "" (au_authorId req)
       ∈ mn_id <$> getDocumentsByCollection st "users")
    ∧ fst (updateArticle st id req now_published now) = (200, UArticle u)
    ∧ ua_id u = id
    ∧ ua_content u = mn_content doc
    ∧ ua_title u = md_title m
    ∧ ua_categoryId u = md_categoryId m
    ∧ ua_authorId u = md_authorId m
    ∧ ua_status u = md_status m
    ∧ ua_publishedAt u = md_publishedAt m
    ∧ ua_viewCount u = or_num (md_viewCount m) 0
    ∧ ua_likeCount u = or_num (md_likeCount m) 0
    ∧ ua_tags u = mn_tags doc
    ∧ ua_created_at u = mn_created_at doc
    ∧ ua_category u
      = category_brief
          <$> (c ← md_categoryId m;
               find (λ d, mn_id d = c) (getDocumentsByCollection st "categories"))
    ∧ ua_author u
      = author_brief
          <$> (a ← md_authorId m;
               find (λ d, mn_id d = a) (getDocumentsByCollection st "users")).
Proof.
  unfold updateArticle.
  destruct (negb (isValidAidb st)) eqn:Hvalid; [done|].
  destruct (collection_files st !! "news") as [lines|] eqn:Hfile; [|done].
  assert (readCollectionFile st "news" = readJsonlFile (Some lines)) as Hread.
  { unfold readCollectionFile. by rewrite Hfile. }
  rewrite <- Hread.
  destruct (list_find (λ n, mn_id n = id) (readCollectionFile st "news"))
    as [[i old]|] eqn:Hfind; [|done].
  destruct (truthy (au_categoryId req)
            && negb (some (λ c, mn_id c = default "" (au_categoryId req))
                          (getDocumentsByCollection st "categories")))
    eqn:Hcategory; [done|].
  destruct (truthy (au_authorId req)
            && negb (some (λ u, mn_id u = default "" (au_authorId req))
                          (getDocumentsByCollection st "users")))
    eqn:Hauthor; [done|].
  intros _. apply list_find_Some in Hfind as (Hi & Hid & Hfirst).
  rewrite !getDocumentsByCollection_writeFile_ne by done.
  exists i, old. eexists. cbv zeta.
  split; [by apply negb_false_iff|]. split; [exact Hi|].
  split; [exact Hid|]. split; [exact Hfirst|]. split; [reflexivity|].
  split.
  { intros Htruthy. rewrite Htruthy in Hcategory.
    by apply negb_false_iff, some_id_elem in Hcategory. }
  split.
  { intros Htruthy. rewrite Htruthy in Hauthor.
    by apply negb_false_iff, some_id_elem in Hauthor. }
  split; [reflexivity|]. simpl.
  split; [exact Hid|].
  repeat (split; [reflexivity|]). reflexivity.
Qed.

(** X17.  What a successful [updateArticle] reports: the id, the creation
    time and the counters of the stored article; each truthy field of the
    request in place of the stored value, a named category and a named
    author being documents of the store and populated; and a [publishedAt]
    that is kept once it is set, and is set to the time of the update when
    an article that has none is given the status published. *)
Theorem updateArticle_reports (st : Store) (id : string) (req : ArticleUpdate)
    (now_published now : Z) :
  fst (fst (updateArticle st id req now_published now)) = 200 →
  ∃ old u,
    fst (updateArticle st id req now_published now) = (200, UArticle u)
    ∧ find (λ n, mn_id n = id) (readCollectionFile st "news") = Some old
    ∧ ua_id u = id
    ∧ ua_created_at u = mn_created_at old
    ∧ ua_viewCount u = or_num (md_viewCount (mn_metadata old)) 0
    ∧ ua_likeCount u = or_num (md_likeCount (mn_metadata old)) 0
    ∧ ua_title u = assign_if (au_title req) (md_title (mn_metadata old))
    ∧ ua_status u = assign_if (au_status req) (md_status (mn_metadata old))
    ∧ ua_tags u = match au_tags req with
                  | Some tags => "news" :: tags
                  | None => mn_tags old
                  end
    ∧ ua_categoryId u
      = assign_if (au_categoryId req) (md_categoryId (mn_metadata old))
    ∧ (truthy (au_categoryId req) = true →
       cv_id <$> ua_category u = au_categoryId req)
    ∧ ua_authorId u
      = assign_if (au_authorId req) (md_authorId (mn_metadata old))
    ∧ (truthy (au_authorId req) = true →
       uv_id <$> ua_author u = au_authorId req)
    ∧ (falsy_num (md_publishedAt (mn_metadata old)) = false →
       ua_publishedAt u = md_publishedAt (mn_metadata old))
    ∧ (falsy_num (md_publishedAt (mn_metadata old)) = true →
       au_status req = Some "published" →
       ua_publishedAt u = Some now_published)
    ∧ (au_status req ≠ Some "published" →
       ua_publishedAt u = md_publishedAt (mn_metadata old)).
Proof.
  intros Hok.
  destruct (updateArticle_done st id req now_published now Hok)
    as (i & old & u & _ & Hi & Hid & Hfirst & _ & Hcategory & Hauthor & Hu
        & Hu_id & _ & Hu_title & Hu_cat & Hu_auth & Hu_status & Hu_pub
        & Hu_views & Hu_likes & Hu_tags & Hu_created & Hu_category
        & Hu_author).
  exists old, u. split; [exact Hu|]. split.
  { unfold find.
    assert (list_find (λ n, mn_id n = id) (readCollectionFile st "news")
            = Some (i, old)) as ->; [|done].
    apply list_find_Some. by repeat split. }
  split; [exact Hu_id|]. split; [exact Hu_created|].
  split; [exact Hu_views|]. split; [exact Hu_likes|].
  split; [exact Hu_title|]. split; [exact Hu_status|].
  split; [exact Hu_tags|]. split; [exact Hu_cat|]. split.
  { intros Htruthy. rewrite Hu_category. simpl. unfold assign_if.
    rewrite Htruthy. specialize (Hcategory Htruthy).
    apply truthy_Some in Htruthy as (c & Hc & _).
    rewrite Hc in Hcategory |- *. simpl in Hcategory |- *.
    destruct (find (λ d, mn_id d = c) (getDocumentsByCollection st "categories"))
      as [d|] eqn:Hfind.
    - apply find_Some_ids in Hfind as [_ Hd]. simpl. by rewrite Hd.
    - by apply find_None_ids in Hfind. }
  split; [exact Hu_auth|]. split.
  { intros Htruthy. rewrite Hu_author. simpl. unfold assign_if.
    rewrite Htruthy. specialize (Hauthor Htruthy).
    apply truthy_Some in Htruthy as (a & Ha & _).
    rewrite Ha in Hauthor |- *. simpl in Hauthor |- *.
    destruct (find (λ d, mn_id d = a) (getDocumentsByCollection st "users"))
      as [d|] eqn:Hfind.
    - apply find_Some_ids in Hfind as [_ Hd]. simpl. by rewrite Hd.
    - by apply find_None_ids in Hfind. }
  rewrite Hu_pub. simpl. split; [|split].
  - intros ->. by rewrite andb_false_r.
  - intros -> ->. done.
  - intros Hne. rewrite bool_decide_eq_false_2 by done.
    by rewrite andb_false_r.
Qed.

Lemma updateArticle_reports_witness :
  let req := {| au_title := None; au_content := None; au_categoryId := None;
                au_authorId := Some "user_ann_1jk";
                au_status := Some "published"; au_tags := None |} in
  ∃ u,
    fst (updateArticle blog "news_a1b2c3d4" req 7000 7001) = (200, UArticle u)
    ∧ ua_id u = "news_a1b2c3d4"
    ∧ ua_status u = Some "published"
    ∧ uv_id <$> ua_author u = Some "user_ann_1jk".
Proof.
  intros req.
  destruct (updateArticle_reports blog "news_a1b2c3d4" req 7000 7001)
    as (old & u & Hu & _ & Hid & _ & _ & _ & _ & Hstatus & _ & _ & _ & _
        & Hauthor & _).
  - by vm_compute.
  - exists u. split; [exact Hu|]. split; [exact Hid|].
    split; [exact Hstatus|]. by apply Hauthor.
Defined.

(** X18.  After a successful [updateArticle], [getArticle] finds the
    article under its id with the content, title, references, tags and
    counters that the update reported, and answers every other id as
    before; the file of the news collection holds the same ids in the same
    order. *)
Theorem updateArticle_then_getArticle (st : Store) (id : string)
    (req : ArticleUpdate) (now_published now : Z) :
  let st' := snd (updateArticle st id req now_published now) in
  fst (fst (updateArticle st id req now_published now)) = 200 →
  (∃ u a,
     fst (updateArticle st id req now_published now) = (200, UArticle u)
     ∧ getArticle st' id = (200, BArticle a)
     ∧ av_id a = ua_id u
     ∧ av_content a = ua_content u
     ∧ av_title a = or_str (ua_title u) ""
     ∧ av_status a = or_str (ua_status u) "draft"
     ∧ av_categoryId a = ua_categoryId u
     ∧ av_authorId a = ua_authorId u
     ∧ av_tags a = ua_tags u
     ∧ av_created_at a = ua_created_at u
     ∧ av_viewCount a = ua_viewCount u
     ∧ av_likeCount a = ua_likeCount u
     ∧ av_publishedAt a = Some (or_num (ua_publishedAt u) (ua_created_at u)))
  ∧ (∀ id', id' ≠ id → getArticle st' id' = getArticle st id')
  ∧ mn_id <$> readCollectionFile st' "news"
    = mn_id <$> readCollectionFile st "news".
Proof.
  intros st' Hok.
  destruct (updateArticle_done st id req now_published now Hok)
    as (i & old & u & Hvalid & Hi & Hid & Hfirst & Hst & _ & _ & Hu
        & Hu_id & Hu_content & Hu_title & Hu_cat & Hu_auth & Hu_status
        & Hu_pub & Hu_views & Hu_likes & Hu_tags & Hu_created & _).
  fold st' in Hst.
  set (doc := updated_article old req now_published now) in *.
  assert (mn_id doc = id) as Hdoc by exact Hid.
  pose proof (lookup_lt_Some _ _ _ Hi) as Hlt.
  assert (readCollectionFile st' "news"
          = take i (readCollectionFile st "news") ++ doc
            :: drop (S i) (readCollectionFile st "news")) as Hnews.
  { rewrite Hst, readCollectionFile_writeCollectionFile.
    by apply insert_take_drop. }
  assert (readCollectionFile st "news"
          = take i (readCollectionFile st "news") ++ old
            :: drop (S i) (readCollectionFile st "news")) as Hold
    by (by rewrite take_drop_middle).
  assert (mn_id <$> readCollectionFile st' "news"
          = mn_id <$> readCollectionFile st "news") as Hids.
  { rewrite Hnews. rewrite Hold at 3.
    rewrite !fmap_app, !fmap_cons. by rewrite Hdoc, Hid. }
  assert (tagged st' "news" = tagged st "news") as Htagged by (by rewrite Hst).
  assert (isValidAidb st' = true) as Hvalid' by (by rewrite Hst).
  assert (∀ c, c ≠ "news" →
               getDocumentsByCollection st' c = getDocumentsByCollection st c)
    as Hothers.
  { intros c Hc. rewrite Hst. unfold writeCollectionFile.
    by rewrite getDocumentsByCollection_writeFile_ne. }
  assert (∀ x, x ∈ take i (readCollectionFile st "news") → mn_id x ≠ id)
    as Hbefore.
  { intros x Hx. apply list_elem_of_lookup in Hx as [j Hj].
    apply lookup_take_Some in Hj as [Hj Hji]. by apply (Hfirst j x). }
  assert (∀ i', find (λ d, mn_id d = i') (getDocumentsByCollection st' "news")
                = if decide (i' = id) then Some doc
                  else find (λ d, mn_id d = i') (getDocumentsByCollection st "news"))
    as Hfind.
  { intros i'. rewrite !getDocumentsByCollection_merge, Htagged, Hids.
    rewrite !find_app.
    assert (find (λ d, mn_id d = i') (readCollectionFile st' "news")
            = if decide (i' = id) then Some doc
              else find (λ d, mn_id d = i') (readCollectionFile st "news"))
      as ->.
    { rewrite Hnews.
      assert (find (λ d, mn_id d = i') (readCollectionFile st "news")
              = find (λ d, mn_id d = i')
                  (take i (readCollectionFile st "news") ++ old
                   :: drop (S i) (readCollectionFile st "news"))) as ->
        by (by rewrite <- Hold).
      rewrite !find_app, !find_cons.
      destruct (decide (i' = id)) as [->|Hne].
      - assert (find (λ d, mn_id d = id) (take i (readCollectionFile st "news"))
                = None) as ->.
        { apply find_None_ids. intros Hmem.
          apply list_elem_of_fmap in Hmem as (x & Hx & Hmem).
          by apply (Hbefore x). }
        by rewrite decide_True by exact Hdoc.
      - rewrite !decide_False; [done| |]; congruence. }
    by destruct (decide (i' = id)). }
  split; [|split; [|exact Hids]].
  - exists u.
    exists (article_view
              (createLookupMap (getDocumentsByCollection st "categories"))
              (createLookupMap (getDocumentsByCollection st "users")) doc).
    split; [exact Hu|]. split.
    { unfold getArticle.
      rewrite Hvalid', Hfind, decide_True by done. simpl.
      by rewrite !Hothers. }
    rewrite Hu_id, Hu_content, Hu_title, Hu_status, Hu_cat, Hu_auth,
      Hu_tags, Hu_created, Hu_views, Hu_likes, Hu_pub.
    by repeat split.
  - intros id' Hne. unfold getArticle.
    rewrite Hvalid', Hvalid, Hfind, decide_False by done.
    by rewrite !Hothers.
Qed.

Lemma updateArticle_then_getArticle_witness :
  let req := {| au_title := Some "Renamed"; au_content := None;
                au_categoryId := None; au_authorId := None;
                au_status := None; au_tags := None |} in
  ∃ a,
    getArticle (snd (updateArticle blog "news_a1b2c3d4" req 7000 7001))
               "news_a1b2c3d4" = (200, BArticle a)
    ∧ av_title a = "Renamed".
Proof.
  intros req.
  destruct (updateArticle_then_getArticle blog "news_a1b2c3d4" req 7000 7001)
    as ((u & a & Hu & Hget & _ & _ & Htitle & _) & _).
  - by vm_compute.
  - exists a. split; [exact Hget|]. rewrite Htitle.
    assert (fst (updateArticle blog "news_a1b2c3d4" req 7000 7001)
            = (200, UArticle u)) as Hu' by exact Hu.
    vm_compute in Hu'. injection Hu' as <-. reflexivity.
Defined.

(** ** Updating a category or a user and listing again *)

Lemma getDocumentsByCollection_update (st : Store) (c : string) (i : nat)
    (old doc : MemoryNode) :
  readCollectionFile st c !! i = Some old →
  mn_id doc = mn_id old →
  getDocumentsByCollection
    (writeCollectionFile st c (<[i := doc]> (readCollectionFile st c))) c
  = <[i := doc]> (getDocumentsByCollection st c).
Proof.
  intros Hi Hid.
  rewrite !getDocumentsByCollection_merge, readCollectionFile_writeCollectionFile.
  assert (tagged (writeCollectionFile st c (<[i := doc]> (readCollectionFile st c))) c
          = tagged st c) as -> by reflexivity.
  rewrite list_fmap_insert, Hid.
  rewrite (list_insert_id (mn_id <$> readCollectionFile st c))
    by (by rewrite list_lookup_fmap, Hi).
  rewrite insert_app_l; [done|]. by eapply lookup_lt_Some.
Qed.

Lemma assign_if_view (new old : option string) :
  Some (or_str (assign_if new old) "") = assign_if new (Some (or_str old "")).
Proof.
  unfold assign_if. destruct (truthy new) eqn:Htruthy; [|done].
  apply truthy_Some in Htruthy as (s & -> & Hs). simpl.
  by rewrite decide_False.
Qed.

(** X19.  After a successful [updateCategory], [listCategories] returns
    the sequence it returned before with one entry replaced: the first
    one of the id, whose name, description, icon and slug are those of the
    request where the request has a truthy one, and whose id and article
    count are as before. *)
Theorem updateCategory_then_listCategories (st : Store) (id : string)
    (req : CategoryRequest) (now : Z) :
  let before := categories_of (listCategories st) in
  let after := categories_of (listCategories (snd (updateCategory st id req now))) in
  status_of (fst (updateCategory st id req now)) = 200 →
  ∃ i old new,
    before !! i = Some old
    ∧ cv_id old = id
    ∧ (∀ j c, before !! j = Some c → (j < i)%nat → cv_id c ≠ id)
    ∧ after = <[i := new]> before
    ∧ cv_id new = id
    ∧ cv_articleCount new = cv_articleCount old
    ∧ cv_name new = assign_if (cat_name req) (cv_name old)
    ∧ cv_description new = assign_if (cat_description req) (cv_description old)
    ∧ cv_icon new = assign_if (cat_icon req) (cv_icon old)
    ∧ cv_slug new = assign_if (cat_slug req) (cv_slug old).
Proof.
  intros before after. unfold before, after, updateCategory, status_of.
  destruct (negb (isValidAidb st)) eqn:Hvalid; [done|].
  destruct (list_find (λ c, mn_id c = id) (readCollectionFile st "categories"))
    as [[i category]|] eqn:Hfind; [|done].
  intros _. simpl snd.
  apply negb_false_iff in Hvalid.
  apply list_find_Some in Hfind as (Hi & Hid & Hfirst).
  match goal with
  | |- context [<[i := ?d]> (readCollectionFile st "categories")] =>
      set (doc := d)
  end.
  pose proof (lookup_lt_Some _ _ _ Hi) as Hlt.
  unfold listCategories.
  assert (isValidAidb
            (writeCollectionFile st "categories"
               (<[i := doc]> (readCollectionFile st "categories"))) = true)
    as -> by exact Hvalid.
  rewrite Hvalid. simpl negb. cbv iota. cbv zeta.
  rewrite (getDocumentsByCollection_update st "categories" i category doc Hi)
    by reflexivity.
  unfold writeCollectionFile at 1.
  rewrite getDocumentsByCollection_writeFile_ne by done.
  simpl categories_of.
  set (counts := foldl _ ∅ (getDocumentsByCollection st "news")).
  set (view := λ d, category_view d (Some (or_num (counts !! mn_id d) 0))).
  assert (getDocumentsByCollection st "categories" !! i = Some category)
    as Hmerged.
  { rewrite getDocumentsByCollection_merge, lookup_app_l; done. }
  exists i, (view category), (view doc).
  split; [by rewrite list_lookup_fmap, Hmerged|]. split; [exact Hid|].
  split.
  { intros j c Hj Hji. rewrite list_lookup_fmap in Hj.
    rewrite getDocumentsByCollection_merge, lookup_app_l in Hj by lia.
    destruct (readCollectionFile st "categories" !! j) as [d|] eqn:Hd;
      [|done].
    injection Hj as <-. by apply (Hfirst j d). }
  split; [by rewrite list_fmap_insert|]. split; [exact Hid|].
  split; [reflexivity|].
  unfold view, category_view, doc. simpl.
  by rewrite !assign_if_view.
Qed.

Lemma updateCategory_then_listCategories_witness :
  let req := {| cat_name := Some "Science"; cat_description := None;
                cat_icon := None; cat_slug := None; cat_code := None |} in
  (λ c, (cv_id c, cv_name c, cv_slug c, cv_articleCount c))
    <$> categories_of (listCategories (snd (updateCategory blog "cat_tech" req 7000)))
  = [("cat_tech", Some "Science", Some "tech", Some 1)].
Proof.
  intros req.
  destruct (updateCategory_then_listCategories blog "cat_tech" req 7000)
    as (i & old & new & Hold & _ & _ & -> & Hid & Hcount & Hname & _ & _ & Hslug).
  - by vm_compute.
  - assert (∃ c, categories_of (listCategories blog) = [c]
                 ∧ cv_name c = Some "Tech" ∧ cv_slug c = Some "tech"
                 ∧ cv_articleCount c = Some 1)
      as (c & Hlist & Hc_name & Hc_slug & Hc_count).
    { eexists. split; [by vm_compute|]. split; [by vm_compute|].
      split; by vm_compute. }
    rewrite Hlist in Hold |- *.
    destruct i as [|i]; [|destruct i; discriminate Hold].
    injection Hold as <-. simpl.
    rewrite Hid, Hcount, Hname, Hslug, Hc_name, Hc_slug, Hc_count.
    reflexivity.
Defined.

(** A successful [updateUser], by the index of the user in the file. *)
Lemma updateUser_done (st : Store) (id : string) (req : UserRequest) (now : Z) :
  status_of (fst (updateUser st id req now)) = 200 →
  ∃ i old doc,
    isValidAidb st = true
    ∧ readCollectionFile st "users" !! i = Some old
    ∧ mn_id old = id
    ∧ (∀ j y, readCollectionFile st "users" !! j = Some y → (j < i)%nat →
              mn_id y ≠ id)
    ∧ snd (updateUser st id req now)
      = writeCollectionFile st "users" (<[i := doc]> (readCollectionFile st "users"))
    ∧ mn_id doc = id
    ∧ md_name (mn_metadata doc)
      = assign_if (ur_name req) (md_name (mn_metadata old))
    ∧ md_email (mn_metadata doc)
      = assign_if (ur_email req) (md_email (mn_metadata old))
    ∧ md_avatar (mn_metadata doc)
      = assign_if (ur_avatar req) (md_avatar (mn_metadata old))
    ∧ md_role (mn_metadata doc)
      = assign_if (ur_role req) (md_role (mn_metadata old)).
Proof.
  unfold updateUser, status_of.
  destruct (negb (isValidAidb st)) eqn:Hvalid; [done|].
  destruct (truthy (ur_role req)
            && negb (bool_decide (default "" (ur_role req) ∈ validRoles)));
    [done|].
  destruct (list_find (λ u, mn_id u = id) (readCollectionFile st "users"))
    as [[i user]|] eqn:Hfind; [|done].
  destruct (truthy (ur_email req) && some _ _); [done|].
  intros _. simpl snd.
  apply list_find_Some in Hfind as (Hi & Hid & Hfirst).
  exists i, user. eexists.
  split; [by apply negb_false_iff|]. split; [exact Hi|].
  split; [exact Hid|]. split; [exact Hfirst|]. split; [reflexivity|].
  split; [exact Hid|]. by repeat split.
Qed.

(** X20.  After a successful [updateUser], [listUsers] returns the
    sequence it returned before with one entry replaced: the first one of
    the id, whose name, e-mail address, avatar and role are those of the
    request where the request has a truthy one. *)
Theorem updateUser_then_listUsers (st : Store) (id : string)
    (req : UserRequest) (now : Z) :
  let before := users_of (listUsers st) in
  let after := users_of (listUsers (snd (updateUser st id req now))) in
  status_of (fst (updateUser st id req now)) = 200 →
  ∃ i old new,
    before !! i = Some old
    ∧ uv_id old = id
    ∧ (∀ j u, before !! j = Some u → (j < i)%nat → uv_id u ≠ id)
    ∧ after = <[i := new]> before
    ∧ uv_id new = id
    ∧ uv_name new = assign_if (ur_name req) (uv_name old)
    ∧ uv_email new = assign_if (ur_email req) (uv_email old)
    ∧ uv_avatar new = assign_if (ur_avatar req) (uv_avatar old)
    ∧ uv_role new = assign_if (ur_role req) (uv_role old).
Proof.
  intros before after Hok.
  destruct (updateUser_done st id req now Hok)
    as (i & user & doc & Hvalid & Hi & Hid & Hfirst & Hst & Hdoc & Hname
        & Hemail & Havatar & Hrole).
  pose proof (lookup_lt_Some _ _ _ Hi) as Hlt.
  assert (getDocumentsByCollection st "users" !! i = Some user) as Hmerged.
  { rewrite getDocumentsByCollection_merge, lookup_app_l; done. }
  assert (after = <[i := user_view doc ""]> before) as Hafter.
  { unfold after, before, listUsers. rewrite Hst.
    assert (isValidAidb
              (writeCollectionFile st "users"
                 (<[i := doc]> (readCollectionFile st "users"))) = true)
      as -> by exact Hvalid.
    rewrite Hvalid. simpl negb. cbv iota. cbv zeta.
    rewrite (getDocumentsByCollection_update st "users" i user doc Hi)
      by (by rewrite Hdoc, Hid).
    simpl users_of. by rewrite list_fmap_insert. }
  assert (before = (λ d, user_view d "") <$> getDocumentsByCollection st "users")
    as Hbefore.
  { unfold before, listUsers. by rewrite Hvalid. }
  exists i, (user_view user ""), (user_view doc "").
  split; [by rewrite Hbefore, list_lookup_fmap, Hmerged|]. split; [exact Hid|].
  split.
  { intros j u Hj Hji. rewrite Hbefore, list_lookup_fmap in Hj.
    rewrite getDocumentsByCollection_merge, lookup_app_l in Hj by lia.
    destruct (readCollectionFile st "users" !! j) as [d|] eqn:Hd; [|done].
    injection Hj as <-. by apply (Hfirst j d). }
  split; [exact Hafter|]. split; [exact Hdoc|].
  unfold user_view. simpl. rewrite Hname, Hemail, Havatar, Hrole.
  by rewrite !assign_if_view.
Qed.

Lemma updateUser_then_listUsers_witness :
  let req := {| ur_name := None; ur_email := Some "ann@example.com";
                ur_avatar := None; ur_role := Some "admin" |} in
  (λ u, (uv_id u, uv_name u, uv_email u, uv_role u))
    <$> users_of (listUsers (snd (updateUser blog "user_ann_1jk" req 7000)))
  = [("user_ann_1jk", Some "Ann", Some "ann@example.com", Some "admin")].
Proof.
  intros req.
  destruct (updateUser_then_listUsers blog "user_ann_1jk" req 7000)
    as (i & old & new & Hold & _ & _ & -> & Hid & Hname & Hemail & _ & Hrole).
  - by vm_compute.
  - assert (∃ u, users_of (listUsers blog) = [u] ∧ uv_name u = Some "Ann")
      as (u & Hlist & Hu_name).
    { eexists. split; by vm_compute. }
    rewrite Hlist in Hold |- *.
    destruct i as [|i]; [|destruct i; discriminate Hold].
    injection Hold as <-. simpl.
    rewrite Hid, Hname, Hemail, Hrole, Hu_name. reflexivity.
Defined.

(** ** Deleting a category or a user *)

Lemma getDocumentsByCollection_remove (st : Store) (c id : string) :
  let st' :=
    writeCollectionFile st c
      (filter (λ d, mn_id d ≠ id) (readCollectionFile st c)) in
  filter (λ d, mn_id d ≠ id) (getDocumentsByCollection st' c)
  = filter (λ d, mn_id d ≠ id) (getDocumentsByCollection st c)
  ∧ (id ∉ mn_id <$> tagged st c →
     id ∉ mn_id <$> getDocumentsByCollection st' c).
Proof.
  intros st'.
  assert (getDocumentsByCollection st' c
          = filter (λ d, mn_id d ≠ id) (readCollectionFile st c)
            ++ filter (λ d, mn_id d
                            ∉ mn_id <$> filter (λ d, mn_id d ≠ id)
                                               (readCollectionFile st c))
                      (tagged st c)) as Hmerged.
  { unfold st'.
    by rewrite getDocumentsByCollection_merge,
      readCollectionFile_writeCollectionFile. }
  split.
  - rewrite Hmerged, getDocumentsByCollection_merge, !filter_app.
    f_equal; [by rewrite list_filter_filter_l|].
    rewrite !list_filter_filter. apply filter_iff_in. intros d Hd.
    rewrite !list_elem_of_fmap. split.
    + intros [Hne Hnot]. split; [done|]. intros (d' & Hid & Hd').
      apply Hnot. exists d'. split; [done|].
      apply list_elem_of_filter. split; [congruence|done].
    + intros [Hne Hnot]. split; [done|]. intros (d' & Hid & Hd').
      apply Hnot. exists d'. split; [done|].
      by apply list_elem_of_filter in Hd' as [_ ?].
  - intros Hlegacy Hin. rewrite Hmerged, fmap_app, elem_of_app in Hin.
    destruct Hin as [Hin|Hin].
    + apply list_elem_of_fmap in Hin as (d & Hid & Hd).
      by apply list_elem_of_filter in Hd as [? _].
    + apply Hlegacy. apply list_elem_of_fmap in Hin as (d & Hid & Hd).
      apply list_elem_of_filter in Hd as [_ Hd].
      apply list_elem_of_fmap. eauto.
Qed.

Lemma filter_self_length {A} (P : A → Prop) `{∀ x, Decision (P x)} (l : list A) :
  length (filter P (filter P l)) = length (filter P l).
Proof. by rewrite list_filter_filter_l. Qed.

(** X21.  A successful [deleteCategory] means that no article of the
    store names the category.  Afterwards [listCategories] returns the
    entries of the other ids as before, the id is listed only if a line of
    the shared file carries it, and a repeated [deleteCategory] of the id
    answers 404 and changes nothing. *)
Theorem deleteCategory_then (st : Store) (id : string) :
  let st' := snd (deleteCategory st id) in
  status_of (fst (deleteCategory st id)) = 200 →
  (∀ n, n ∈ getDocumentsByCollection st "news" →
        md_categoryId (mn_metadata n) ≠ Some id)
  ∧ id ∈ mn_id <$> readCollectionFile st "categories"
  ∧ status_of (listCategories st') = 200
  ∧ filter (λ c, cv_id c ≠ id) (categories_of (listCategories st'))
    = filter (λ c, cv_id c ≠ id) (categories_of (listCategories st))
  ∧ (id ∉ mn_id <$> tagged st "categories" →
     id ∉ cv_id <$> categories_of (listCategories st'))
  ∧ deleteCategory st' id = ((404, BError "Category not found"), st').
Proof.
  intros st'. unfold st', deleteCategory, status_of.
  destruct (negb (isValidAidb st)) eqn:Hvalid; [done|].
  destruct (some (λ n, md_categoryId (mn_metadata n) = Some id)
                 (getDocumentsByCollection st "news")) eqn:Hrefs; [done|].
  case_decide as Hlen; [done|]. intros _. simpl snd.
  apply negb_false_iff in Hvalid.
  set (st1 := writeCollectionFile st "categories"
                (filter (λ c, mn_id c ≠ id)
                        (readCollectionFile st "categories"))).
  assert (isValidAidb st1 = true) as Hvalid1 by exact Hvalid.
  assert (getDocumentsByCollection st1 "news"
          = getDocumentsByCollection st "news") as Hnews.
  { unfold st1, writeCollectionFile.
    by rewrite getDocumentsByCollection_writeFile_ne. }
  destruct (getDocumentsByCollection_remove st "categories" id)
    as [Hkept Hgone]. fold st1 in Hkept, Hgone.
  split; [exact (proj1 (some_false _ _) Hrefs)|]. split.
  { destruct (decide (id ∈ mn_id <$> readCollectionFile st "categories"))
      as [|Hnot]; [done|].
    exfalso. apply Hlen. by rewrite filter_absent. }
  unfold listCategories. rewrite Hvalid1, Hvalid, Hnews. simpl negb.
  cbv iota. cbv zeta. simpl categories_of.
  split; [reflexivity|]. split.
  { rewrite !filter_fmap. simpl. by rewrite Hkept. }
  split.
  { intros Hlegacy. rewrite <- list_fmap_compose. by apply Hgone. }
  rewrite Hrefs.
  assert (readCollectionFile st1 "categories"
          = filter (λ c, mn_id c ≠ id) (readCollectionFile st "categories"))
    as -> by apply readCollectionFile_writeCollectionFile.
  by rewrite decide_True by apply filter_self_length.
Qed.

Lemma deleteCategory_then_witness :
  let st' := snd (deleteCategory blog_category "cat_tech") in
  categories_of (listCategories st') = []
  ∧ deleteCategory st' "cat_tech" = ((404, BError "Category not found"), st').
Proof.
  intros st'.
  destruct (deleteCategory_then blog_category "cat_tech")
    as (_ & _ & _ & _ & _ & Hagain).
  - by vm_compute.
  - split; [by vm_compute|exact Hagain].
Defined.

(** X22.  After a successful [deleteUser], [listUsers] returns the entries
    of the other ids as before, the id is listed only if a line of the
    shared file carries it, and a repeated [deleteUser] of the id answers
    404 and changes nothing. *)
Theorem deleteUser_then (st : Store) (id : string) :
  let st' := snd (deleteUser st id) in
  status_of (fst (deleteUser st id)) = 200 →
  id ∈ mn_id <$> readCollectionFile st "users"
  ∧ status_of (listUsers st') = 200
  ∧ filter (λ u, uv_id u ≠ id) (users_of (listUsers st'))
    = filter (λ u, uv_id u ≠ id) (users_of (listUsers st))
  ∧ (id ∉ mn_id <$> tagged st "users" →
     id ∉ uv_id <$> users_of (listUsers st'))
  ∧ deleteUser st' id = ((404, BError "User not found"), st').
Proof.
  intros st'. unfold st', deleteUser, status_of.
  destruct (negb (isValidAidb st)) eqn:Hvalid; [done|].
  case_decide as Hlen; [done|]. intros _. simpl snd.
  apply negb_false_iff in Hvalid.
  set (st1 := writeCollectionFile st "users"
                (filter (λ u, mn_id u ≠ id) (readCollectionFile st "users"))).
  assert (isValidAidb st1 = true) as Hvalid1 by exact Hvalid.
  destruct (getDocumentsByCollection_remove st "users" id) as [Hkept Hgone].
  fold st1 in Hkept, Hgone.
  split.
  { destruct (decide (id ∈ mn_id <$> readCollectionFile st "users"))
      as [|Hnot]; [done|].
    exfalso. apply Hlen. by rewrite filter_absent. }
  unfold listUsers. rewrite Hvalid1, Hvalid. simpl negb.
  cbv iota. cbv zeta. simpl users_of.
  split; [reflexivity|]. split.
  { rewrite !filter_fmap. simpl. by rewrite Hkept. }
  split.
  { intros Hlegacy. rewrite <- list_fmap_compose. by apply Hgone. }
  assert (readCollectionFile st1 "users"
          = filter (λ u, mn_id u ≠ id) (readCollectionFile st "users"))
    as -> by apply readCollectionFile_writeCollectionFile.
  by rewrite decide_True by apply filter_self_length.
Qed.

Lemma deleteUser_then_witness :
  let st' := snd (deleteUser blog "user_ann_1jk") in
  users_of (listUsers st') = []
  ∧ deleteUser st' "user_ann_1jk" = ((404, BError "User not found"), st').
Proof.
  intros st'.
  destruct (deleteUser_then blog "user_ann_1jk") as (_ & _ & _ & _ & Hagain).
  - by vm_compute.
  - split; [by vm_compute|exact Hagain].
Defined.

(** ** The flat comment listing *)

(** X23.  On a valid store the current [listComments] answers 200 with
    the comments of the merged collection whose [newsId] is the requested
    one, each populated with its author, in ascending order of
    [created_at]; comments of equal [created_at] keep the order of the
    merged collection, and the author of an entry is a user of the store
    with the id the comment names, or absent when no user has it. *)
Theorem listComments_sorted_populated (st : Store) (newsId : option string) :
  isValidAidb st = true →
  let selected :=
    filter (λ c, md_newsId (mn_metadata c) = newsId)
           (getDocumentsByCollection st "comments") in
  let users := getDocumentsByCollection st "users" in
  let returned := comments_of (listComments st newsId) in
  status_of (listComments st newsId) = 200
  ∧ cm_id <$> returned ≡ₚ mn_id <$> selected
  ∧ StronglySorted (λ a b, cm_created_at a ≤ cm_created_at b) returned
  ∧ (∀ t, cm_id <$> filter (λ c, cm_created_at c = t) returned
          = mn_id <$> filter (λ c, mn_created_at c = t) selected)
  ∧ ∀ c, c ∈ returned →
         populated users (cm_authorId c) (uv_id <$> cm_author c).
Proof.
  intros Hvalid selected users returned.
  destruct (listComments_order st newsId Hvalid)
    as (Hstatus & Hperm & Hsorted & Hstable).
  fold selected returned in Hperm, Hsorted, Hstable.
  set (populate := λ doc,
         comment_view
           (lookup_ref (createLookupMap users) (md_authorId (mn_metadata doc)))
           "" doc) in *.
  split; [exact Hstatus|]. split.
  { rewrite Hperm, <- list_fmap_compose. done. }
  split; [exact Hsorted|]. split.
  { intros t. rewrite Hstable, <- list_fmap_compose. done. }
  intros c Hc. rewrite Hperm in Hc.
  apply list_elem_of_fmap in Hc as (doc & -> & _).
  pose proof (lookup_ref_populated users (md_authorId (mn_metadata doc)))
    as Hpop.
  unfold populate, comment_view. cbn [cm_authorId cm_author].
  by destruct (lookup_ref _ _).
Qed.

Lemma listComments_sorted_populated_witness :
  cm_id <$> comments_of (listComments blog (Some "news_a1b2c3d4"))
  ≡ₚ ["comment_c1000000"; "comment_c2000000"]
  ∧ StronglySorted (λ a b, cm_created_at a ≤ cm_created_at b)
      (comments_of (listComments blog (Some "news_a1b2c3d4"))).
Proof.
  destruct (listComments_sorted_populated blog (Some "news_a1b2c3d4"))
    as (_ & Hperm & Hsorted & _).
  - by vm_compute.
  - split; [|exact Hsorted]. rewrite Hperm.
    assert (mn_id <$> filter (λ c, md_newsId (mn_metadata c) = Some "news_a1b2c3d4")
                             (getDocumentsByCollection blog "comments")
            = ["comment_c1000000"; "comment_c2000000"]) as ->
      by (by vm_compute).
    reflexivity.
Defined.

(** ** Creating a user *)



